(** * Verification of the railway connection search (app.py)

    The development embeds the pure core of [app.py]: the clock-text
    utilities [parse_hhmm_to_minutes] and [minutes_to_hhmm], the matcher
    [find_next_train] and the body of the [/api/routes] handler
    [api_routes].

    Python [str] values are modelled as Rocq [string]s holding the UTF-8
    encoding of the text (byte-wise lexicographic order of UTF-8 agrees with
    the code-point order Python uses); where the code looks at characters,
    in [int] and in the regular expression of makecsv.py, the bytes are
    decoded into code points first.  Python [int] is [Z].  A raised
    exception is a value of type [result]. *)

From Stdlib Require Import ZArith List Bool Lia.
From Stdlib Require Import Ascii String.
From Stdlib Require Import Decimal DecimalString DecimalPos DecimalZ.
From Stdlib Require Import Permutation Sorted.
Import ListNotations.

Local Open Scope string_scope.
Local Open Scope Z_scope.

(** ** Exceptions *)

Inductive exn : Type :=
| ValueError
| TypeError
| KeyError.

Inductive result (A : Type) : Type :=
| Ok (a : A)
| Raise (e : exn).

Arguments Ok {A} a.
Arguments Raise {A} e.

Definition bind {A B : Type} (r : result A) (k : A -> result B) : result B :=
  match r with
  | Ok a => k a
  | Raise e => Raise e
  end.

Notation "x <- r ;; k" := (bind r (fun x => k))
  (at level 61, r at next level, right associativity).

(** [try: r except ValueError: h] *)
Definition try_except_ValueError {A : Type} (r : result A) (h : result A) : result A :=
  match r with
  | Raise ValueError => h
  | _ => r
  end.

(** ** Python string and integer primitives *)

Module Py.

(** *** Texts as code points *)

(** What the decoder answers for bytes that are not UTF-8: no code point. *)
Definition no_code_point : N := 0x110000%N.

(** The code points of a text, read off its UTF-8 bytes.  [need] counts the
    continuation bytes still to come and [acc] holds the bits read so far.
    The encoding of a Python [str] is always UTF-8; on other bytes the
    answer holds [no_code_point]. *)
Fixpoint code_points_from (need : nat) (acc : N) (s : string) : list N :=
  match s with
  | EmptyString =>
      match need with
      | O => []
      | S _ => [no_code_point]
      end
  | String c s' =>
      let b := N_of_ascii c in
      match need with
      | O =>
          if (b <? 0x80)%N then b :: code_points_from 0 0 s'
          else if ((0xC0 <=? b) && (b <? 0xE0))%N then code_points_from 1 (b - 0xC0) s'
          else if ((0xE0 <=? b) && (b <? 0xF0))%N then code_points_from 2 (b - 0xE0) s'
          else if ((0xF0 <=? b) && (b <? 0xF8))%N then code_points_from 3 (b - 0xF0) s'
          else no_code_point :: code_points_from 0 0 s'
      | S need' =>
          if ((0x80 <=? b) && (b <? 0xC0))%N then
            let acc' := (acc * 64 + (b - 0x80))%N in
            match need' with
            | O => acc' :: code_points_from 0 0 s'
            | S _ => code_points_from need' acc' s'
            end
          else no_code_point :: code_points_from 0 0 s'
      end
  end.

Definition code_points (s : string) : list N := code_points_from 0 0 s.

(** The UTF-8 bytes of one code point. *)
Definition encode_char (cp : N) : string :=
  if (cp <? 0x80)%N then
    String (ascii_of_N cp) EmptyString
  else if (cp <? 0x800)%N then
    String (ascii_of_N (0xC0 + cp / 64))
      (String (ascii_of_N (0x80 + cp mod 64)) EmptyString)
  else if (cp <? 0x10000)%N then
    String (ascii_of_N (0xE0 + cp / 4096))
      (String (ascii_of_N (0x80 + (cp / 64) mod 64))
         (String (ascii_of_N (0x80 + cp mod 64)) EmptyString))
  else
    String (ascii_of_N (0xF0 + cp / 262144))
      (String (ascii_of_N (0x80 + (cp / 4096) mod 64))
         (String (ascii_of_N (0x80 + (cp / 64) mod 64))
            (String (ascii_of_N (0x80 + cp mod 64)) EmptyString))).

(** The text made of the code points [cps]. *)
Fixpoint encode (cps : list N) : string :=
  match cps with
  | [] => EmptyString
  | cp :: rest => encode_char cp ++ encode rest
  end.

(** *** Character classes

    The two classes below are those of the Unicode Character Database,
    version 14.0, the one CPython 3.11 is built on; a later version of the
    database adds the digits of further scripts. *)

(** White space: the characters for which [str.isspace] holds, the class
    [\s] of [re]. *)
Definition isspace (cp : N) : bool :=
  ((0x09 <=? cp) && (cp <=? 0x0D) || (0x1C <=? cp) && (cp <=? 0x20)
   || (cp =? 0x85) || (cp =? 0xA0) || (cp =? 0x1680)
   || (0x2000 <=? cp) && (cp <=? 0x200A)
   || (cp =? 0x2028) || (cp =? 0x2029) || (cp =? 0x202F) || (cp =? 0x205F)
   || (cp =? 0x3000))%N.

(** The digit zero of every script with decimal digits; the digits one to
    nine of the script follow it. *)
Definition decimal_zeros : list N :=
  [ 0x0030; 0x0660; 0x06F0; 0x07C0; 0x0966; 0x09E6; 0x0A66; 0x0AE6; 0x0B66;
    0x0BE6; 0x0C66; 0x0CE6; 0x0D66; 0x0DE6; 0x0E50; 0x0ED0; 0x0F20; 0x1040;
    0x1090; 0x17E0; 0x1810; 0x1946; 0x19D0; 0x1A80; 0x1A90; 0x1B50; 0x1BB0;
    0x1C40; 0x1C50; 0xA620; 0xA8D0; 0xA900; 0xA9D0; 0xA9F0; 0xAA50; 0xABF0;
    0xFF10; 0x104A0; 0x10D30; 0x11066; 0x110F0; 0x11136; 0x111D0; 0x112F0;
    0x11450; 0x114D0; 0x11650; 0x116C0; 0x11730; 0x118E0; 0x11950; 0x11C50;
    0x11D50; 0x11DA0; 0x16A60; 0x16AC0; 0x16B50; 0x1D7CE; 0x1D7D8; 0x1D7E2;
    0x1D7EC; 0x1D7F6; 0x1E140; 0x1E2F0; 0x1E950; 0x1FBF0 ]%N.

(** The value of a decimal digit, of whatever script; [None] for any other
    character. *)
Definition decimal (cp : N) : option Z :=
  match find (fun z => (z <=? cp) && (cp <? z + 10))%N decimal_zeros with
  | Some z => Some (Z.of_N (cp - z))
  | None => None
  end.

(** Decimal digits: the characters for which [str.isdecimal] holds, the
    class [\d] of [re]. *)
Definition isdecimal (cp : N) : bool :=
  match decimal cp with
  | Some _ => true
  | None => false
  end.

(** *** [int] *)

(** The white space [int] drops around a numeral once the text is in ASCII
    form: tab to carriage return, and the space.  The separators U+001C to
    U+001F, white space for [str.isspace], are not among them. *)
Definition c_isspace (c : ascii) : bool :=
  let n := N_of_ascii c in
  ((9 <=? n) && (n <=? 13) || (n =? 32))%N.

Definition digit_val (c : ascii) : option Z :=
  let n := N_of_ascii c in
  if ((48 <=? n) && (n <=? 57))%N then Some (Z.of_N n - 48) else None.

(** The ASCII form [int] makes of a text before it reads the numeral:
    characters below U+007F stay, other white space becomes a space, other
    decimal digits become the ASCII digit of their value, and the text is
    cut at the first character of another kind, with a question mark in its
    place. *)
Fixpoint ascii_form (cps : list N) : string :=
  match cps with
  | [] => EmptyString
  | cp :: rest =>
      if (cp <? 0x7F)%N then String (ascii_of_N cp) (ascii_form rest)
      else if isspace cp then String " " (ascii_form rest)
      else
        match decimal cp with
        | Some d => String (ascii_of_N (Z.to_N (48 + d))) (ascii_form rest)
        | None => String "?" EmptyString
        end
  end.

Fixpoint lstrip (s : string) : string :=
  match s with
  | String c s' => if c_isspace c then lstrip s' else s
  | EmptyString => EmptyString
  end.

Fixpoint rstrip (s : string) : string :=
  match s with
  | EmptyString => EmptyString
  | String c s' =>
      match rstrip s' with
      | EmptyString => if c_isspace c then EmptyString else String c EmptyString
      | r => String c r
      end
  end.

Definition strip (s : string) : string := rstrip (lstrip s).

(** Decimal digits, where a single underscore may separate two digits.
    [after_digit] tells whether the previous character was a digit. *)
Fixpoint digits_value (acc : Z) (after_digit : bool) (s : string) : option Z :=
  match s with
  | EmptyString => if after_digit then Some acc else None
  | String c s' =>
      match digit_val c with
      | Some d => digits_value (acc * 10 + d) true s'
      | None =>
          if (Ascii.eqb c "_" && after_digit)%bool
          then digits_value acc false s'
          else None
      end
  end.

(** The numeral of a text in ASCII form, in base 10: surrounding white
    space is dropped, one sign is accepted, then digits. *)
Definition int_of_ascii (s : string) : result Z :=
  let body := strip s in
  let r :=
    match body with
    | String "+" ds => digits_value 0 false ds
    | String "-" ds => option_map Z.opp (digits_value 0 false ds)
    | _ => digits_value 0 false body
    end in
  match r with
  | Some n => Ok n
  | None => Raise ValueError
  end.

(** [int(s)] for a string [s]: the numeral of its ASCII form.  The
    interpreter's limit on the length of the numeral is not modelled. *)
Definition int (s : string) : result Z :=
  int_of_ascii (ascii_form (code_points s)).

(** [s.split(sep)] for a one-character separator. *)
Fixpoint split (sep : ascii) (s : string) : list string :=
  match s with
  | EmptyString => [EmptyString]
  | String c s' =>
      if Ascii.eqb c sep then EmptyString :: split sep s'
      else
        match split sep s' with
        | f :: fs => String c f :: fs
        | [] => [String c EmptyString]
        end
  end.

(** [str(n)] *)
Definition str (n : Z) : string := NilZero.string_of_int (Z.to_int n).

Fixpoint zeros (n : nat) : string :=
  match n with
  | O => EmptyString
  | S n' => String "0" (zeros n')
  end.

(** [format(n, "02d")]: the sign, then zeros up to a total width of two,
    then the digits. *)
Definition format_02d (n : Z) : string :=
  if n <? 0 then
    let ds := str (- n) in
    String "-" (zeros (1 - String.length ds) ++ ds)
  else
    let ds := str n in
    zeros (2 - String.length ds) ++ ds.

End Py.

(** ** Time utilities *)

(** ['HH:MM'] to minutes since 00:00.  Unpacking into [h, m] needs exactly
    two fields; every failure is a [ValueError]. *)
Definition parse_hhmm_to_minutes (hhmm : string) : result Z :=
  match Py.split ":" hhmm with
  | [hs; ms] =>
      h <- Py.int hs ;;
      m <- Py.int ms ;;
      Ok (h * 60 + m)
  | hs :: ms :: _ :: _ =>
      _ <- Py.int hs ;;
      _ <- Py.int ms ;;
      Raise ValueError
  | [hs] =>
      _ <- Py.int hs ;;
      Raise ValueError
  | [] => Raise ValueError
  end.

(** Minutes since 00:00 to ['HH:MM']. *)
Definition minutes_to_hhmm (minutes : Z) : string :=
  let h := minutes / 60 in
  let m := minutes mod 60 in
  Py.format_02d h ++ ":" ++ Py.format_02d m.

(** ** Timetable data *)

(** One row of a timetable: [{"departure": "07:00", "arrival": "07:12"}].
    Both values are texts, as [load_timetable] returns them for every record
    that is at least as long as the header.  For a shorter record it returns
    [None] in place of a text, on which [parse_hhmm_to_minutes] raises
    [AttributeError]: such rows are not covered by [Train], nor that
    exception by [exn]. *)
Record Train : Type := mkTrain {
  departure : string;
  arrival : string
}.

Record Leg : Type := mkLeg {
  leg_from : string;
  leg_to : string;
  leg_line : string;
  trains : list Train
}.

(** [d[key]] for a dict written as its list of items. *)
Fixpoint getitem {V : Type} (d : list (string * V)) (key : string) : result V :=
  match d with
  | [] => Raise KeyError
  | (k, v) :: d' => if String.eqb k key then Ok v else getitem d' key
  end.

(** Average transfer time in minutes. *)
Definition TRANSFER_MINUTES : list (string * Z) :=
  [ ("溜池山王", 5);
    ("新橋", 7) ].

Section Timetable.

(** What [load_timetable] returns for the three CSV files under [data/]. *)
Variables ichigaya_tameike_csv tameike_shimbashi_csv shimbashi_kamakura_csv : list Train.

Definition ichigaya_tameike : Leg :=
  {| leg_from := "市ヶ谷"; leg_to := "溜池山王"; leg_line := "有楽町線→南北線";
     trains := ichigaya_tameike_csv |}.

Definition tameike_shimbashi : Leg :=
  {| leg_from := "溜池山王"; leg_to := "新橋"; leg_line := "銀座線";
     trains := tameike_shimbashi_csv |}.

Definition shimbashi_kamakura : Leg :=
  {| leg_from := "新橋"; leg_to := "鎌倉"; leg_line := "横須賀線";
     trains := shimbashi_kamakura_csv |}.

Definition TIMETABLE : list (string * Leg) :=
  [ ("ichigaya_tameike", ichigaya_tameike);
    ("tameike_shimbashi", tameike_shimbashi);
    ("shimbashi_kamakura", shimbashi_kamakura) ].

End Timetable.

(** ** Next-train matcher *)

(** The two loop variables [candidate] and [candidate_dep_min]. *)
Definition scan_state : Type := (option Train * option Z)%type.

(** One iteration of the [for t in trains] loop. *)
Definition find_next_step (earliest_departure_min : Z) (st : scan_state) (t : Train)
  : result scan_state :=
  dep_min <- parse_hhmm_to_minutes (departure t) ;;
  if dep_min >=? earliest_departure_min then
    match fst st with
    | None => Ok (Some t, Some dep_min)
    | Some _ =>
        match snd st with
        | Some candidate_dep_min =>
            if dep_min <? candidate_dep_min then Ok (Some t, Some dep_min) else Ok st
        | None => Raise TypeError
        end
    end
  else Ok st.

Fixpoint find_next_loop (earliest_departure_min : Z) (ts : list Train) (st : scan_state)
  : result scan_state :=
  match ts with
  | [] => Ok st
  | t :: ts' =>
      st' <- find_next_step earliest_departure_min st t ;;
      find_next_loop earliest_departure_min ts' st'
  end.

Definition find_next_train (ts : list Train) (earliest_departure_min : Z)
  : result (option Train) :=
  st <- find_next_loop earliest_departure_min ts (None, None) ;;
  Ok (fst st).

(** ** The route search *)

(** The fields of a [datetime] that the handler reads or prints; the
    microsecond and the time zone take no part in the computation. *)
Record datetime : Type := mkDatetime {
  year : Z;
  month : Z;
  day : Z;
  hour : Z;
  minute : Z;
  second : Z
}.

Definition valid_time (dt : datetime) : Prop :=
  0 <= hour dt < 24 /\ 0 <= minute dt < 60 /\ 0 <= second dt < 60.

(** Seconds into its day of [dt + timedelta(minutes=n)].  The sum carries
    whole days into the date, which the handler never reads. *)
Definition plus_minutes_seconds (dt : datetime) (n : Z) : Z :=
  (hour dt * 3600 + minute dt * 60 + second dt + n * 60) mod 86400.

(** [(dt + timedelta(minutes=n)).hour] *)
Definition plus_minutes_hour (dt : datetime) (n : Z) : Z :=
  plus_minutes_seconds dt n / 3600.

(** [(dt + timedelta(minutes=n)).minute] *)
Definition plus_minutes_minute (dt : datetime) (n : Z) : Z :=
  (plus_minutes_seconds dt n mod 3600) / 60.

(** [dt.strftime("%Y-%m-%d %H:%M:%S")], for a four-digit year. *)
Definition strftime (dt : datetime) : string :=
  Py.str (year dt) ++ "-" ++ Py.format_02d (month dt) ++ "-" ++ Py.format_02d (day dt)
  ++ " " ++ Py.format_02d (hour dt) ++ ":" ++ Py.format_02d (minute dt)
  ++ ":" ++ Py.format_02d (second dt).

Record Transfer : Type := mkTransfer {
  tr_from : string;
  tr_to : string;
  tr_line : string;
  tr_departure : string;
  tr_arrival : string
}.

Record Route : Type := mkRoute {
  departure_time : string;
  arrival_time : string;
  total_duration : string;
  fare : string;
  transfers : list Transfer
}.

(** The dictionary handed to [jsonify]. *)
Record Response : Type := mkResponse {
  search_time_jst : string;
  departure_base_jst : string;
  max_offset_minutes : Z;
  routes : list Route
}.

Definition transfer_of (leg : Leg) (t : Train) : Transfer :=
  {| tr_from := leg_from leg; tr_to := leg_to leg; tr_line := leg_line leg;
     tr_departure := departure t; tr_arrival := arrival t |}.

(** The query parameter [max_offset]: [None] when the request omits it.
    Covers the [try]/[except ValueError] and the two clamping tests. *)
Definition effective_max_offset (arg : option string) : result Z :=
  max_offset <-
    try_except_ValueError
      (match arg with
       | Some s => Py.int s
       | None => Ok 30
       end)
      (Ok 3) ;;
  let max_offset := if max_offset <? 0 then 0 else max_offset in
  let max_offset := if max_offset >? 60 then 60 else max_offset in
  Ok max_offset.

(** The body of [for t1 in first_leg["trains"]]: [None] stands for
    [continue], [Some route] for the route handed to [routes.append]. *)
Definition route_of_candidate (first_leg second_leg third_leg : Leg)
    (base_minutes latest_minutes : Z) (t1 : Train) : result (option Route) :=
  dep1_min <- parse_hhmm_to_minutes (departure t1) ;;
  if (dep1_min <? base_minutes) || (dep1_min >? latest_minutes) then Ok None
  else
    arr1_min <- parse_hhmm_to_minutes (arrival t1) ;;
    transfer1 <- getitem TRANSFER_MINUTES "溜池山王" ;;
    let earliest_dep2_min := arr1_min + transfer1 in
    found2 <- find_next_train (trains second_leg) earliest_dep2_min ;;
    match found2 with
    | None => Ok None
    | Some t2 =>
        dep2_min <- parse_hhmm_to_minutes (departure t2) ;;
        arr2_min <- parse_hhmm_to_minutes (arrival t2) ;;
        transfer2 <- getitem TRANSFER_MINUTES "新橋" ;;
        let earliest_dep3_min := arr2_min + transfer2 in
        found3 <- find_next_train (trains third_leg) earliest_dep3_min ;;
        match found3 with
        | None => Ok None
        | Some t3 =>
            dep3_min <- parse_hhmm_to_minutes (departure t3) ;;
            arr3_min <- parse_hhmm_to_minutes (arrival t3) ;;
            let total_duration_min := arr3_min - dep1_min in
            let total_duration_str := Py.str total_duration_min ++ "分" in
            let fare_str := "（料金未設定）" in
            Ok (Some
              {| departure_time := minutes_to_hhmm dep1_min;
                 arrival_time := minutes_to_hhmm arr3_min;
                 total_duration := total_duration_str;
                 fare := fare_str;
                 transfers := [ transfer_of first_leg t1;
                                transfer_of second_leg t2;
                                transfer_of third_leg t3 ] |})
        end
    end.

Fixpoint collect_routes (first_leg second_leg third_leg : Leg)
    (base_minutes latest_minutes : Z) (ts : list Train) (acc : list Route)
  : result (list Route) :=
  match ts with
  | [] => Ok acc
  | t1 :: ts' =>
      step <- route_of_candidate first_leg second_leg third_leg
                base_minutes latest_minutes t1 ;;
      collect_routes first_leg second_leg third_leg base_minutes latest_minutes ts'
        (match step with
         | Some route => acc ++ [route]
         | None => acc
         end)
  end.

(** [routes.sort(key=lambda r: r["departure_time"])]: the sort is stable and
    compares keys with [<] only, so its result is the one computed by this
    insertion of each element in front of the already sorted rest. *)
Fixpoint insert_by_key (r : Route) (sorted : list Route) : list Route :=
  match sorted with
  | [] => [r]
  | r' :: rest =>
      if String.ltb (departure_time r') (departure_time r)
      then r' :: insert_by_key r rest
      else r :: sorted
  end.

Fixpoint sort_by_departure_time (rs : list Route) : list Route :=
  match rs with
  | [] => []
  | r :: rest => insert_by_key r (sort_by_departure_time rest)
  end.

Section Handler.

Variables ichigaya_tameike_csv tameike_shimbashi_csv shimbashi_kamakura_csv : list Train.

Let timetable := TIMETABLE ichigaya_tameike_csv tameike_shimbashi_csv shimbashi_kamakura_csv.

(** [api_routes]: [arg] is the query parameter [max_offset] and [now_jst]
    the clock reading [datetime.now(ZoneInfo("Asia/Tokyo"))]. *)
Definition api_routes (arg : option string) (now_jst : datetime) : result Response :=
  max_offset <- effective_max_offset arg ;;
  let search_time_jst_str := strftime now_jst in
  let departure_base := now_jst in
  let departure_base_str := strftime departure_base in
  let base_minutes := hour departure_base * 60 + minute departure_base in
  let latest_minutes :=
    plus_minutes_hour departure_base max_offset * 60
    + plus_minutes_minute departure_base max_offset in
  first_leg <- getitem timetable "ichigaya_tameike" ;;
  second_leg <- getitem timetable "tameike_shimbashi" ;;
  third_leg <- getitem timetable "shimbashi_kamakura" ;;
  found <- collect_routes first_leg second_leg third_leg
             base_minutes latest_minutes (trains first_leg) [] ;;
  Ok {| search_time_jst := search_time_jst_str;
        departure_base_jst := departure_base_str;
        max_offset_minutes := max_offset;
        routes := sort_by_departure_time found |}.

End Handler.

(** * load_timetable: the rows read from a CSV file

    [load_timetable] is given here the records that [csv.reader] yields for
    the file, the header record first; decoding and the CSV syntax stay
    with the [csv] module.  [csv.DictReader] turns each later record into a
    dictionary from the names of the header to the fields. *)

(** A value of such a dictionary: a field, [None] for a column the record
    is too short for, or the list of the fields beyond the last column. *)
Inductive cell : Type :=
| Text (s : string)
| Missing
| Rest (fields : list string).

(** A dictionary of [DictReader]: its keys are column names, or [None],
    the key of the surplus fields. *)
Definition pydict : Type := list (option string * cell).

Definition key_eqb (k k' : option string) : bool :=
  match k, k' with
  | Some a, Some b => String.eqb a b
  | None, None => true
  | _, _ => false
  end.

(** [d[k] = v] *)
Fixpoint dict_set (d : pydict) (k : option string) (v : cell) : pydict :=
  match d with
  | [] => [(k, v)]
  | (k', v') :: d' =>
      if key_eqb k' k then (k', v) :: d' else (k', v') :: dict_set d' k v
  end.

(** [d[k]] *)
Fixpoint dict_get (d : pydict) (k : option string) : result cell :=
  match d with
  | [] => Raise KeyError
  | (k', v) :: d' => if key_eqb k' k then Ok v else dict_get d' k
  end.

(** [dict(zip(fieldnames, row))], continued from [d]. *)
Fixpoint dict_zip (fieldnames row : list string) (d : pydict) : pydict :=
  match fieldnames, row with
  | k :: fieldnames', v :: row' => dict_zip fieldnames' row' (dict_set d (Some k) (Text v))
  | _, _ => d
  end.

(** The dictionary [DictReader.__next__] builds from one record. *)
Definition DictReader_row (fieldnames row : list string) : pydict :=
  let d := dict_zip fieldnames row [] in
  let lf := List.length fieldnames in
  let lr := List.length row in
  if (lf <? lr)%nat then dict_set d None (Rest (skipn lf row))
  else if (lr <? lf)%nat then
    fold_left (fun d key => dict_set d (Some key) Missing) (skipn lr fieldnames) d
  else d.

Definition is_blank (row : list string) : bool :=
  match row with
  | [] => true
  | _ :: _ => false
  end.

(** The dictionaries [DictReader] yields: the first record gives the
    field names, blank records are passed over. *)
Definition DictReader (records : list (list string)) : list pydict :=
  match records with
  | [] => []
  | fieldnames :: rows =>
      map (DictReader_row fieldnames) (filter (fun row => negb (is_blank row)) rows)
  end.

(** One element of the list [load_timetable] returns. *)
Record RawTrain : Type := mkRaw {
  raw_departure : cell;
  raw_arrival : cell
}.

(** The loop [for row in reader]. *)
Fixpoint load_rows (rows : list pydict) (trains : list RawTrain)
  : result (list RawTrain) :=
  match rows with
  | [] => Ok trains
  | row :: rows' =>
      dep <- dict_get row (Some "departure"%string) ;;
      arr <- dict_get row (Some "arrival"%string) ;;
      load_rows rows' (trains ++ [mkRaw dep arr])
  end.

Definition load_timetable (records : list (list string)) : result (list RawTrain) :=
  load_rows (DictReader records) [].

(** * makecsv.py: the pairs taken from the raw text

    [re.findall(r"(\d{2}:\d{2})発\s+(\d{2}:\d{2})着", text)], written out as
    the matcher this one pattern stands for.  The text is a list of
    characters; which characters are decimal digits ([\d]) and white space
    ([\s]) is decided by the tables of the expression engine, taken in the
    matcher as the two predicates [digit] and [space] and given below as
    [Py.isdecimal] and [Py.isspace] on code points. *)

Section Extract.

Variable char : Type.
Variables digit space : char -> bool.
Variable char_eqb : char -> char -> bool.
Variable colon : char.
Variables hatsu chaku : list char.

(** The literal [lit] at the head of [s]: what follows it. *)
Fixpoint literal (lit s : list char) : option (list char) :=
  match lit with
  | [] => Some s
  | l :: lit' =>
      match s with
      | c :: s' => if char_eqb c l then literal lit' s' else None
      | [] => None
      end
  end.

(** [\d{2}:\d{2}] at the head of [s]: the five characters and the rest. *)
Definition time_field (s : list char) : option (list char * list char) :=
  match s with
  | a :: b :: c :: d :: e :: rest =>
      if digit a && digit b && char_eqb c colon && digit d && digit e
      then Some ([a; b; c; d; e], rest)
      else None
  | _ => None
  end.

(** [(\d{2}:\d{2})着] at the head of [s]. *)
Definition arrival_part (s : list char) : option (list char * list char) :=
  match time_field s with
  | Some (f2, rest) =>
      match literal chaku rest with
      | Some rest' => Some (f2, rest')
      | None => None
      end
  | None => None
  end.

(** The rest of [\s+(\d{2}:\d{2})着] once a first white-space character is
    taken: the repetition is greedy, it takes a further white-space
    character first and comes back to try the arrival here when that
    fails. *)
Fixpoint spaces_then_arrival (s : list char) : option (list char * list char) :=
  match s with
  | c :: s' =>
      if space c then
        match spaces_then_arrival s' with
        | Some r => Some r
        | None => arrival_part s
        end
      else arrival_part s
  | [] => arrival_part s
  end.

(** The whole pattern at the head of [s]: the two groups and what follows
    the match. *)
Definition match_here (s : list char)
  : option ((list char * list char) * list char) :=
  match time_field s with
  | Some (f1, r1) =>
      match literal hatsu r1 with
      | Some (c :: r3) =>
          if space c then
            match spaces_then_arrival r3 with
            | Some (f2, rest) => Some ((f1, f2), rest)
            | None => None
            end
          else None
      | _ => None
      end
  | None => None
  end.

(** The scan of [findall]: after a match it goes on where the match ends,
    otherwise one character further.  [fuel] bounds the number of steps. *)
Fixpoint findall_fuel (fuel : nat) (s : list char) : list (list char * list char) :=
  match fuel with
  | O => []
  | S fuel' =>
      match match_here s with
      | Some (p, rest) => p :: findall_fuel fuel' rest
      | None =>
          match s with
          | [] => []
          | _ :: s' => findall_fuel fuel' s'
          end
      end
  end.

Definition findall (text : list char) : list (list char * list char) :=
  findall_fuel (S (List.length text)) text.

End Extract.

(** The two literals of the pattern, as code points. *)
Definition hatsu : list N := Py.code_points "発".

Definition chaku : list N := Py.code_points "着".

(** [re.findall] with the pattern of makecsv.py on a list of code points:
    [\d] is the class of the decimal digits and [\s] the class of the white
    space. *)
Definition findall_code_points (text : list N) : list (list N * list N) :=
  findall N Py.isdecimal Py.isspace N.eqb 0x3A%N hatsu chaku text.

(** [pairs = re.findall(..., text)] on the text read from the file: each
    group is given back as a text. *)
Definition pairs (text : string) : list (string * string) :=
  map (fun p => (Py.encode (fst p), Py.encode (snd p)))
    (findall_code_points (Py.code_points text)).

(** The rows handed to the CSV writer: the header, then one row a pair. *)
Definition makecsv_rows (text : string) : list (list string) :=
  ["departure"; "arrival"]%string
  :: map (fun p => [fst p; snd p]) (pairs text).

(** * Vocabulary of the properties *)

(** ** Texts and numerals *)

Fixpoint string_forallb (p : ascii -> bool) (s : string) : bool :=
  match s with
  | EmptyString => true
  | String c s' => p c && string_forallb p s'
  end.

Definition is_digit (c : ascii) : bool :=
  match Py.digit_val c with
  | Some _ => true
  | None => false
  end.

Definition numeric_char (c : ascii) : bool := is_digit c || Ascii.eqb c "-".

Definition not_space (c : ascii) : bool := negb (Py.c_isspace c).

(** A character below U+007F: one byte, left as it is by [Py.ascii_form]. *)
Definition plain (c : ascii) : bool := (N_of_ascii c <? 0x7F)%N.

Definition not_colon (c : ascii) : bool := negb (Ascii.eqb c ":").

(** Value of a big-endian decimal numeral continued from [acc]. *)
Fixpoint uint_value (acc : Z) (d : uint) : Z :=
  match d with
  | Nil => acc
  | D0 d' => uint_value (acc * 10 + 0) d'
  | D1 d' => uint_value (acc * 10 + 1) d'
  | D2 d' => uint_value (acc * 10 + 2) d'
  | D3 d' => uint_value (acc * 10 + 3) d'
  | D4 d' => uint_value (acc * 10 + 4) d'
  | D5 d' => uint_value (acc * 10 + 5) d'
  | D6 d' => uint_value (acc * 10 + 6) d'
  | D7 d' => uint_value (acc * 10 + 7) d'
  | D8 d' => uint_value (acc * 10 + 8) d'
  | D9 d' => uint_value (acc * 10 + 9) d'
  end.

Definition digit_char (d : Z) : ascii := ascii_of_N (Z.to_N (d + 48)).

(** A number below one hundred written with exactly two digits. *)
Definition two_digits (n : Z) : string :=
  String (digit_char (n / 10)) (String (digit_char (n mod 10)) EmptyString).

(** Text of the form ["HH:MM"]: two digits, a colon, two digits, with the
    hour at most 23 and the minute at most 59. *)
Definition is_hhmm (s : string) : bool :=
  match s with
  | String a (String b (String sep (String c (String d EmptyString)))) =>
      match Py.digit_val a, Py.digit_val b, Py.digit_val c, Py.digit_val d with
      | Some x, Some y, Some z, Some w =>
          Ascii.eqb sep ":" && (10 * x + y <=? 23) && (10 * z + w <=? 59)
      | _, _, _, _ => false
      end
  | _ => false
  end.

(** ** Trains and the matcher *)

(** [t] leaves at minute [d]. *)
Definition departs (t : Train) (d : Z) : Prop :=
  parse_hhmm_to_minutes (departure t) = Ok d.

(** [t] arrives at minute [a]. *)
Definition arrives (t : Train) (a : Z) : Prop :=
  parse_hhmm_to_minutes (arrival t) = Ok a.

Definition departure_readable (t : Train) : Prop := exists d, departs t d.

Definition well_formed (t : Train) : Prop :=
  (exists d, departs t d) /\ (exists a, arrives t a).

(** [c], leaving at [cd], is the first train of [ts] with the least
    departure among those not before [e]. *)
Definition earliest_in (e : Z) (ts : list Train) (c : Train) (cd : Z) : Prop :=
  exists pre post,
    ts = (pre ++ c :: post)%list /\
    departs c cd /\ e <= cd /\
    (forall t d, In t pre -> departs t d -> e <= d -> cd < d) /\
    (forall t d, In t post -> departs t d -> e <= d -> cd <= d).

(** No train of [ts] leaves at [e] or later. *)
Definition none_from (e : Z) (ts : list Train) : Prop :=
  forall t d, In t ts -> departs t d -> d < e.

(** What the two loop variables hold once the trains [seen] are scanned. *)
Definition scanned (e : Z) (seen : list Train) (st : scan_state) : Prop :=
  match st with
  | (None, None) => none_from e seen
  | (Some c, Some cd) => earliest_in e seen c cd
  | _ => False
  end.

(** What [find_next_train] returns, as a property of the whole list. *)
Definition next_train_spec (e : Z) (ts : list Train) (found : option Train) : Prop :=
  match found with
  | None => none_from e ts
  | Some c => exists cd, earliest_in e ts c cd
  end.

(** Two answers over the same trains, in whatever order, leave at the same
    minute. *)
Definition same_departure (found found' : option Train) : Prop :=
  match found, found' with
  | None, None => True
  | Some c, Some c' => exists d, departs c d /\ departs c' d
  | _, _ => False
  end.

Definition Train_eq_dec (t t' : Train) : {t = t'} + {t <> t'}.
Proof. decide equality; apply string_dec. Defined.

Definition first_train_eq_dec (x y : option Train) : {x = y} + {x <> y}.
Proof. decide equality; apply Train_eq_dec. Defined.

(** ** Window, offset and routes *)

Definition base_minutes_of (now : datetime) : Z := hour now * 60 + minute now.

Definition latest_minutes_of (now : datetime) (off : Z) : Z :=
  plus_minutes_hour now off * 60 + plus_minutes_minute now off.

Definition clamp (n : Z) : Z := Z.max 0 (Z.min 60 n).

(** The trains a route is made of, read back from its transfer records. *)
Definition legs_of (r : Route) : list Train :=
  map (fun tr => mkTrain (tr_departure tr) (tr_arrival tr)) (transfers r).

Definition first_train (r : Route) : option Train := hd_error (legs_of r).

(** [r] is the chain that starts with [t1]: [t1] leaves inside the window,
    [t2] and [t3] are what the matcher answers on the next two legs. *)
Inductive chain (L1 L2 L3 : Leg) (base latest : Z) (t1 : Train) (r : Route) : Prop :=
| mkChain (t2 t3 : Train) (d1 a1 a2 a3 : Z)
    (Hdeparts1 : departs t1 d1)
    (Hwindow : base <= d1 <= latest)
    (Harrives1 : arrives t1 a1)
    (Hmatch2 : find_next_train (trains L2) (a1 + 5) = Ok (Some t2))
    (Harrives2 : arrives t2 a2)
    (Hmatch3 : find_next_train (trains L3) (a2 + 7) = Ok (Some t3))
    (Harrives3 : arrives t3 a3)
    (Hroute :
      r = {| departure_time := minutes_to_hhmm d1;
             arrival_time := minutes_to_hhmm a3;
             total_duration := (Py.str (a3 - d1) ++ "分")%string;
             fare := "（料金未設定）";
             transfers := [ transfer_of L1 t1;
                            transfer_of L2 t2;
                            transfer_of L3 t3 ] |}).

(** The routes one candidate adds: one or none. *)
Definition candidate_routes (L1 L2 L3 : Leg) (base latest : Z) (t1 : Train)
  : list Route :=
  match route_of_candidate L1 L2 L3 base latest t1 with
  | Ok (Some r) => [r]
  | _ => []
  end.

Definition found_routes (csv1 csv2 csv3 : list Train) (base latest : Z) : list Route :=
  flat_map
    (candidate_routes (ichigaya_tameike csv1) (tameike_shimbashi csv2)
       (shimbashi_kamakura csv3) base latest)
    csv1.

Definition key_le (r r' : Route) : Prop :=
  String.leb (departure_time r) (departure_time r') = true.

(** The first train of [r] leaves no later than the first train of [r']. *)
Definition leg1_no_later (r r' : Route) : Prop :=
  exists t t' d d',
    first_train r = Some t /\ first_train r' = Some t' /\
    departs t d /\ departs t' d' /\ d <= d'.

(** The key of [r] is the formatted departure of its first train, a minute
    of the day. *)
Definition keyed_by_minute (r : Route) : Prop :=
  exists t d,
    first_train r = Some t /\ departs t d /\
    departure_time r = minutes_to_hhmm d /\ 0 <= d < 1440.

(** ** The worked scenario *)

Definition scenario_leg1 : list Train := [mkTrain "07:00" "07:12"].

Definition scenario_leg2 : list Train :=
  [mkTrain "07:17" "07:30"; mkTrain "07:40" "07:55"].

Definition scenario_leg3 : list Train :=
  [mkTrain "07:37" "08:05"; mkTrain "08:10" "08:40"].

Definition scenario_route : Route :=
  {| departure_time := "07:00";
     arrival_time := "08:05";
     total_duration := "65分";
     fare := "（料金未設定）";
     transfers :=
       [ {| tr_from := "市ヶ谷"; tr_to := "溜池山王"; tr_line := "有楽町線→南北線";
            tr_departure := "07:00"; tr_arrival := "07:12" |};
         {| tr_from := "溜池山王"; tr_to := "新橋"; tr_line := "銀座線";
            tr_departure := "07:17"; tr_arrival := "07:30" |};
         {| tr_from := "新橋"; tr_to := "鎌倉"; tr_line := "横須賀線";
            tr_departure := "07:37"; tr_arrival := "08:05" |} ] |}.

Definition scenario_now : datetime := mkDatetime 2025 4 1 7 0 0.

Definition scenario_response : Response :=
  {| search_time_jst := "2025-04-01 07:00:00";
     departure_base_jst := "2025-04-01 07:00:00";
     max_offset_minutes := 30;
     routes := [scenario_route] |}.

(** A quarter of an hour before midnight, with a train ten minutes later. *)
Definition late_now : datetime := mkDatetime 2025 4 1 23 45 10.

Definition late_leg1 : list Train := [mkTrain "23:50" "23:58"].

(** Three leg-1 rows out of order: the second leaves first, the third
    leaves after the window of the scenario. *)
Definition shuffled_leg1 : list Train :=
  [mkTrain "07:05" "07:15"; mkTrain "07:00" "07:12"; mkTrain "07:31" "07:40"].

(** The same rows in order of departure. *)
Definition ascending_leg1 : list Train :=
  [mkTrain "07:00" "07:12"; mkTrain "07:05" "07:15"; mkTrain "07:31" "07:40"].

(** The route of the row that leaves at 07:05. *)
Definition second_route : Route :=
  {| departure_time := "07:05";
     arrival_time := "08:40";
     total_duration := "95分";
     fare := "（料金未設定）";
     transfers :=
       [ {| tr_from := "市ヶ谷"; tr_to := "溜池山王"; tr_line := "有楽町線→南北線";
            tr_departure := "07:05"; tr_arrival := "07:15" |};
         {| tr_from := "溜池山王"; tr_to := "新橋"; tr_line := "銀座線";
            tr_departure := "07:40"; tr_arrival := "07:55" |};
         {| tr_from := "新橋"; tr_to := "鎌倉"; tr_line := "横須賀線";
            tr_departure := "08:10"; tr_arrival := "08:40" |} ] |}.

Definition two_routes_response : Response :=
  {| search_time_jst := "2025-04-01 07:00:00";
     departure_base_jst := "2025-04-01 07:00:00";
     max_offset_minutes := 30;
     routes := [scenario_route; second_route] |}.

(** Three rows out of order, two of them leaving together. *)
Definition tied_trains : list Train :=
  [mkTrain "07:40" "07:55"; mkTrain "07:17" "07:30"; mkTrain "07:17" "07:31"].

(** ** Further vocabulary for the matcher *)

(** The loop variables hold a candidate and its minute together, or
    neither. *)
Definition state_ok (st : scan_state) : Prop :=
  match st with
  | (None, None) | (Some _, Some _) => True
  | _ => False
  end.

(** The state with its candidate rewritten by [g]. *)
Definition map_state (g : Train -> Train) (st : scan_state) : scan_state :=
  (option_map g (fst st), snd st).

(** The candidate [c1] of minute [d1] against a later state: the later one
    wins only when it leaves strictly earlier. *)
Definition merge_state (c1 : Train) (d1 : Z) (st : scan_state) : scan_state :=
  match st with
  | (Some c2, Some d2) => if d2 <? d1 then st else (Some c1, Some d1)
  | _ => (Some c1, Some d1)
  end.

(** Of two answers, the one that leaves earlier; the first on a tie. *)
Definition earlier_of (f1 f2 : option Train) : option Train :=
  match f1, f2 with
  | None, _ => f2
  | Some _, None => f1
  | Some c1, Some c2 =>
      match parse_hhmm_to_minutes (departure c1),
            parse_hhmm_to_minutes (departure c2) with
      | Ok d1, Ok d2 => if d2 <? d1 then f2 else f1
      | _, _ => f1
      end
  end.

(** The rows leave in non-decreasing order. *)
Definition ascending (ts : list Train) : Prop :=
  StronglySorted (fun t t' => forall d d', departs t d -> departs t' d' -> d <= d') ts.

(** ** Vocabulary for the extraction *)

Section ExtractSpec.

Variable char : Type.
Variables digit space : char -> bool.
Variable colon : char.
Variables hatsu chaku : list char.

(** Two digits, the colon, two digits. *)
Definition is_time (f : list char) : Prop :=
  exists a b d e,
    f = [a; b; colon; d; e] /\
    digit a = true /\ digit b = true /\ digit d = true /\ digit e = true.

(** [m] is one entry of the listing and [p] its two times: the first time,
    発, some white space, the second time, 着. *)
Definition is_entry (m : list char) (p : list char * list char) : Prop :=
  exists sp,
    m = (fst p ++ hatsu ++ sp ++ snd p ++ chaku)%list /\
    sp <> [] /\ forallb space sp = true /\
    is_time (fst p) /\ is_time (snd p).

(** A listing with one entry a line: [sp] between the two times, [nl]
    after each entry. *)
Definition render (sp nl : char) (ps : list (list char * list char)) : list char :=
  flat_map (fun p => (fst p ++ hatsu ++ [sp] ++ snd p ++ chaku ++ [nl])%list) ps.

End ExtractSpec.

(** The timetable row of a pair. *)
Definition train_of_pair (p : string * string) : Train := mkTrain (fst p) (snd p).

(** A short raw text: a stray character, one entry written with full-width
    digits and an ideographic space, the start of another entry. *)
Definition raw_sample : list N := Py.code_points "x０７:００発　07:12着 08:".

Definition raw_sample_pair : list N * list N :=
  (Py.code_points "０７:００", Py.code_points "07:12").

(** An entry without white space between 発 and the second time. *)
Definition raw_unspaced : list N := Py.code_points "07:00発07:12着".

(** The ten characters from the zero [z] on are digits and no white space,
    they are code points, and none lies below U+007F unless [z] is the
    ASCII zero. *)
Definition digit_run_ok (z : N) : bool :=
  forallb
    (fun k =>
       let c := (z + k)%N in
       negb (Py.isspace c) && (c <? 0x110000)%N && ((0x7F <=? c)%N || (z =? 0x30)%N))
    [0; 1; 2; 3; 4; 5; 6; 7; 8; 9]%N.

(** ** Vocabulary for the loading of a timetable *)

(** The value under the name [k] in a record laid under the header
    [fieldnames]: the field below the last column called [k], [Missing] when
    the record ends before that column, nothing when no column is called
    [k]. *)
Fixpoint column (fieldnames row : list string) (k : string) : option cell :=
  match fieldnames with
  | [] => None
  | f :: fieldnames' =>
      match column fieldnames' (tl row) k with
      | Some c => Some c
      | None =>
          if String.eqb f k
          then Some (match row with
                     | v :: _ => Text v
                     | [] => Missing
                     end)
          else None
      end
  end.

Definition has_column (fieldnames : list string) (k : string) : bool :=
  existsb (String.eqb k) fieldnames.

Definition field_of (fieldnames row : list string) (k : string) : cell :=
  match column fieldnames row k with
  | Some c => c
  | None => Missing
  end.

(** The records that are not blank. *)
Definition data_rows (rows : list (list string)) : list (list string) :=
  filter (fun row => negb (is_blank row)) rows.

(** [DictReader_row], continued from a dictionary [d]. *)
Definition row_from (d : pydict) (fieldnames row : list string) : pydict :=
  let d1 := dict_zip fieldnames row d in
  let lf := List.length fieldnames in
  let lr := List.length row in
  if (lf <? lr)%nat then dict_set d1 None (Rest (skipn lf row))
  else if (lr <? lf)%nat then
    fold_left (fun d key => dict_set d (Some key) Missing) (skipn lr fieldnames) d1
  else d1.

(** The timetable row of a loaded element, when both its values are
    fields. *)
Definition train_of_raw (t : RawTrain) : option Train :=
  match raw_departure t, raw_arrival t with
  | Text d, Text a => Some (mkTrain d a)
  | _, _ => None
  end.

(** * Properties *)

(** ** The embedding on small inputs *)

Example parse_plain : parse_hhmm_to_minutes "07:05" = Ok 425.
Proof. reflexivity. Qed.

Example parse_unpadded : parse_hhmm_to_minutes "7:5" = Ok 425.
Proof. reflexivity. Qed.

Example parse_spaced : parse_hhmm_to_minutes " 07 : 05 " = Ok 425.
Proof. reflexivity. Qed.

Example parse_no_colon : parse_hhmm_to_minutes "0705" = Raise ValueError.
Proof. reflexivity. Qed.

Example parse_three_fields : parse_hhmm_to_minutes "07:05:00" = Raise ValueError.
Proof. reflexivity. Qed.

Example parse_letters : parse_hhmm_to_minutes "07:xx" = Raise ValueError.
Proof. reflexivity. Qed.

Example format_morning : minutes_to_hhmm 425 = "07:05"%string.
Proof. reflexivity. Qed.

Example format_next_day : minutes_to_hhmm 1500 = "25:00"%string.
Proof. reflexivity. Qed.

Example format_negative : minutes_to_hhmm (-61) = "-2:59"%string.
Proof. reflexivity. Qed.

Example int_underscore : Py.int "1_000" = Ok 1000.
Proof. reflexivity. Qed.

Example int_sign_then_space : Py.int "- 7" = Raise ValueError.
Proof. reflexivity. Qed.

Example int_empty : Py.int "" = Raise ValueError.
Proof. reflexivity. Qed.

(** [int] reads the digits of other scripts and drops other white space,
    but not the separators U+001C to U+001F. *)
Example int_full_width : Py.int "１０" = Ok 10.
Proof. reflexivity. Qed.

Example int_ideographic_space : Py.int "　-٧५　" = Ok (-75).
Proof. reflexivity. Qed.

Example int_separator : Py.int (String (ascii_of_N 0x1C) "7") = Raise ValueError.
Proof. reflexivity. Qed.

Example parse_full_width : parse_hhmm_to_minutes "０７:０５" = Ok 425.
Proof. reflexivity. Qed.

Example parse_separator :
  parse_hhmm_to_minutes (String (ascii_of_N 0x1C) "7:05") = Raise ValueError.
Proof. reflexivity. Qed.

Example code_points_literals :
  Py.code_points "a発𝟗" = [0x61; 0x767A; 0x1D7D7]%N /\
  Py.encode [0x61; 0x767A; 0x1D7D7]%N = "a発𝟗"%string.
Proof. split; reflexivity. Qed.

(** The pattern of makecsv.py takes the digits of other scripts, and any
    white space between 発 and the second time, the separator U+001C
    included. *)
Example pairs_full_width :
  pairs "x０７:００発　 07:12着08:00発08:10着"
  = [("０７:００"%string, "07:12"%string)].
Proof. reflexivity. Qed.

Example pairs_separator :
  pairs ("07:00発" ++ String (ascii_of_N 0x1C) "07:12着")
  = [("07:00"%string, "07:12"%string)].
Proof. reflexivity. Qed.

Example matcher_tie :
  find_next_train tied_trains 437 = Ok (Some (mkTrain "07:17" "07:30")).
Proof. reflexivity. Qed.

Example matcher_none : find_next_train tied_trains 461 = Ok None.
Proof. reflexivity. Qed.

Example matcher_unreadable :
  find_next_train [mkTrain "07:17" "07:30"; mkTrain "0740" "07:55"] 0
  = Raise ValueError.
Proof. reflexivity. Qed.

(** Leg-1 rows out of order come back in order of departure. *)
Example handler_sorts :
  match api_routes
          [mkTrain "07:05" "07:15"; mkTrain "07:00" "07:12"; mkTrain "07:31" "07:40"]
          scenario_leg2 scenario_leg3 None scenario_now with
  | Ok resp => map departure_time (routes resp)
  | Raise _ => []
  end = ["07:00"%string; "07:05"%string].
Proof. vm_compute. reflexivity. Qed.

(** ** Facts on the result monad *)

Lemma bind_Ok_inv {A B : Type} (r : result A) (k : A -> result B) (b : B) :
  bind r k = Ok b -> exists a, r = Ok a /\ k a = Ok b.
Proof.
  destruct r as [a|e]; simpl; intros H; [eauto | discriminate].
Qed.

Ltac bind_inv H :=
  let x := fresh "x" in
  let Hx := fresh "Hx" in
  apply bind_Ok_inv in H; destruct H as (x & Hx & H).

(** ** Decimal text *)

Lemma string_forallb_app p s t :
  string_forallb p (s ++ t) = string_forallb p s && string_forallb p t.
Proof.
  induction s as [|c s IH]; simpl; [reflexivity|].
  now rewrite IH, andb_assoc.
Qed.

Lemma string_forallb_impl (p q : ascii -> bool) s :
  (forall c, p c = true -> q c = true) ->
  string_forallb p s = true -> string_forallb q s = true.
Proof.
  intros Hpq. induction s as [|c s IH]; simpl; [easy|].
  rewrite !andb_true_iff. intros [Hc Hs]. auto.
Qed.

Lemma string_length_app (s t : string) :
  String.length (s ++ t) = (String.length s + String.length t)%nat.
Proof. induction s; simpl; congruence. Qed.

Lemma of_uint_acc_value d acc :
  Z.pos (Pos.of_uint_acc d acc) = uint_value (Z.pos acc) d.
Proof.
  revert acc. induction d; intros acc; cbn [Pos.of_uint_acc uint_value];
    try reflexivity; rewrite IHd; f_equal; lia.
Qed.

Lemma of_uint_value d : Z.of_N (Pos.of_uint d) = uint_value 0 d.
Proof.
  induction d; cbn [Pos.of_uint uint_value]; try reflexivity; try assumption;
    cbn [Z.of_N]; rewrite of_uint_acc_value; reflexivity.
Qed.

Lemma to_uint_value p : uint_value 0 (Pos.to_uint p) = Z.pos p.
Proof.
  rewrite <- of_uint_value, DecimalPos.Unsigned.of_to. reflexivity.
Qed.

Lemma digits_value_uint d acc :
  Py.digits_value acc true (NilEmpty.string_of_uint d) = Some (uint_value acc d).
Proof.
  revert acc. induction d; intros acc; simpl; try reflexivity; apply IHd.
Qed.

Lemma digits_value_uint_nonnil d acc b :
  d <> Nil ->
  Py.digits_value acc b (NilEmpty.string_of_uint d) = Some (uint_value acc d).
Proof.
  destruct d; intros Hd; try congruence; simpl; apply digits_value_uint.
Qed.

Lemma uint_all_digits d : string_forallb is_digit (NilEmpty.string_of_uint d) = true.
Proof. induction d; simpl; auto. Qed.

Lemma uint_length_nonnil d : d <> Nil -> (1 <= String.length (NilEmpty.string_of_uint d))%nat.
Proof. destruct d; intros Hd; try congruence; simpl; lia. Qed.

(** [str] of a natural number: digits only, and they denote the number. *)
Lemma str_nonneg_digits n :
  0 <= n ->
  string_forallb is_digit (Py.str n) = true /\
  (1 <= String.length (Py.str n))%nat /\
  forall b, Py.digits_value 0 b (Py.str n) = Some n.
Proof.
  intros Hn. unfold Py.str. destruct n as [|p|p]; [| |lia].
  - repeat split; simpl; auto.
  - simpl. unfold NilZero.string_of_uint.
    pose proof (DecimalPos.Unsigned.to_uint_nonnil p) as Hnil.
    destruct (Pos.to_uint p) eqn:E; try congruence; rewrite <- E;
      (split; [apply uint_all_digits|]);
      (split; [apply uint_length_nonnil; congruence|]);
      intros b; rewrite digits_value_uint_nonnil by congruence;
      f_equal; apply to_uint_value.
Qed.

Lemma str_neg n : n < 0 -> Py.str n = String "-" (Py.str (- n)).
Proof.
  destruct n as [|p|p]; try lia. intros _. unfold Py.str. simpl.
  unfold NilZero.string_of_uint.
  pose proof (DecimalPos.Unsigned.to_uint_nonnil p) as Hnil.
  destruct (Pos.to_uint p); try congruence; reflexivity.
Qed.

(** ** Reading back formatted numbers *)

Ltac by_ascii_cases c :=
  destruct c as [[] [] [] [] [] [] [] []]; try discriminate; try reflexivity.

Lemma digit_numeric c : is_digit c = true -> numeric_char c = true.
Proof. unfold numeric_char. intros ->. reflexivity. Qed.

Lemma numeric_not_space c : numeric_char c = true -> not_space c = true.
Proof. by_ascii_cases c. Qed.

Lemma numeric_not_colon c : numeric_char c = true -> not_colon c = true.
Proof. by_ascii_cases c. Qed.

Lemma lstrip_id c s : not_space c = true -> Py.lstrip (String c s) = String c s.
Proof.
  unfold not_space. simpl. destruct (Py.c_isspace c); [discriminate | reflexivity].
Qed.

Lemma rstrip_id s : string_forallb not_space s = true -> Py.rstrip s = s.
Proof.
  induction s as [|c s IH]; simpl; [reflexivity|].
  rewrite andb_true_iff. intros [Hc Hs]. rewrite (IH Hs).
  unfold not_space in Hc. destruct s; [|reflexivity].
  destruct (Py.c_isspace c); [discriminate | reflexivity].
Qed.

Lemma strip_id s : string_forallb not_space s = true -> Py.strip s = s.
Proof.
  intros H. unfold Py.strip. destruct s as [|c s]; [reflexivity|].
  simpl in H. apply andb_true_iff in H as H'. destruct H' as [Hc _].
  rewrite (lstrip_id _ _ Hc). now apply rstrip_id.
Qed.

Lemma numeric_plain c : numeric_char c = true -> plain c = true.
Proof. by_ascii_cases c. Qed.

(** A text of characters below U+007F is its own ASCII form. *)
Lemma ascii_form_plain s :
  string_forallb plain s = true -> Py.ascii_form (Py.code_points s) = s.
Proof.
  unfold Py.code_points.
  induction s as [|c s IH]; cbn [Py.code_points_from Py.ascii_form string_forallb];
    [reflexivity|].
  rewrite andb_true_iff. intros [Hc Hs]. unfold plain in Hc. apply N.ltb_lt in Hc.
  destruct (N.ltb_spec (N_of_ascii c) 0x80) as [_|Hge]; [|lia].
  cbn [Py.ascii_form]. destruct (N.ltb_spec (N_of_ascii c) 0x7F) as [_|Hge]; [|lia].
  now rewrite ascii_N_embedding, IH.
Qed.

Lemma int_plain s : string_forallb plain s = true -> Py.int s = Py.int_of_ascii s.
Proof. intros H. unfold Py.int. now rewrite ascii_form_plain. Qed.

Lemma digits_plain s : string_forallb is_digit s = true -> string_forallb plain s = true.
Proof.
  apply string_forallb_impl. intros c Hc. now apply numeric_plain, digit_numeric.
Qed.

(** [int] on an unsigned run of digits. *)
Lemma int_digits s n :
  string_forallb is_digit s = true ->
  Py.digits_value 0 false s = Some n ->
  Py.int s = Ok n.
Proof.
  intros Hd Hv. rewrite int_plain by now apply digits_plain. unfold Py.int_of_ascii.
  rewrite strip_id
    by (eapply string_forallb_impl; [|exact Hd];
        intros c Hc; now apply numeric_not_space, digit_numeric).
  destruct s as [|c s]; [discriminate|].
  simpl in Hd. apply andb_true_iff in Hd. destruct Hd as [Hc _].
  assert (Hsign : c <> "+"%char /\ c <> "-"%char)
    by (split; intros ->; discriminate).
  destruct Hsign as [Hplus Hminus].
  assert (Hm : match String c s with
               | String "+" ds => Py.digits_value 0 false ds
               | String "-" ds => option_map Z.opp (Py.digits_value 0 false ds)
               | _ => Py.digits_value 0 false (String c s)
               end = Py.digits_value 0 false (String c s)).
  { clear Hv Hc. by_ascii_cases c; congruence. }
  rewrite Hm, Hv. reflexivity.
Qed.

(** [int] on a minus sign followed by a run of digits. *)
Lemma int_minus_digits s n :
  string_forallb is_digit s = true ->
  Py.digits_value 0 false s = Some n ->
  Py.int (String "-" s) = Ok (- n).
Proof.
  intros Hd Hv.
  rewrite int_plain by (cbn [string_forallb]; now rewrite digits_plain).
  unfold Py.int_of_ascii.
  rewrite strip_id.
  - rewrite Hv. reflexivity.
  - simpl. eapply string_forallb_impl; [|exact Hd].
    intros c Hc. now apply numeric_not_space, digit_numeric.
Qed.

Lemma zeros_digits k : string_forallb is_digit (Py.zeros k) = true.
Proof. induction k; simpl; auto. Qed.

Lemma zeros_length k : String.length (Py.zeros k) = k.
Proof. induction k; simpl; congruence. Qed.

Lemma digits_value_zeros k s b :
  exists b', Py.digits_value 0 b (Py.zeros k ++ s) = Py.digits_value 0 b' s.
Proof.
  revert b. induction k as [|k IH]; intros b; simpl; eauto.
Qed.

Lemma format_02d_nonneg n :
  0 <= n ->
  Py.format_02d n = Py.zeros (2 - String.length (Py.str n)) ++ Py.str n.
Proof.
  intros Hn. unfold Py.format_02d.
  destruct (Z.ltb_spec n 0); [lia | reflexivity].
Qed.

Lemma format_02d_neg n : n < 0 -> Py.format_02d n = Py.str n.
Proof.
  intros Hn. unfold Py.format_02d.
  destruct (Z.ltb_spec n 0); [|lia].
  destruct (str_nonneg_digits (- n)) as (_ & Hlen & _); [lia|].
  replace (1 - String.length (Py.str (- n)))%nat with 0%nat by lia.
  simpl. symmetry. now apply str_neg.
Qed.

Lemma format_02d_nonneg_digits n :
  0 <= n -> string_forallb is_digit (Py.format_02d n) = true.
Proof.
  intros Hn. rewrite format_02d_nonneg by assumption.
  rewrite string_forallb_app, zeros_digits.
  now destruct (str_nonneg_digits n Hn) as (-> & _).
Qed.

Lemma format_02d_numeric n : string_forallb numeric_char (Py.format_02d n) = true.
Proof.
  destruct (Z.lt_ge_cases n 0) as [Hn|Hn].
  - rewrite format_02d_neg, str_neg by assumption. simpl.
    destruct (str_nonneg_digits (- n)) as (Hd & _); [lia|].
    eapply string_forallb_impl; [|exact Hd]. apply digit_numeric.
  - eapply string_forallb_impl; [|apply format_02d_nonneg_digits; assumption].
    apply digit_numeric.
Qed.

(** The formatted number reads back as itself, whatever its sign. *)
Lemma int_format_02d n : Py.int (Py.format_02d n) = Ok n.
Proof.
  destruct (Z.lt_ge_cases n 0) as [Hn|Hn].
  - rewrite format_02d_neg, str_neg by assumption.
    destruct (str_nonneg_digits (- n)) as (Hd & _ & Hv); [lia|].
    rewrite (int_minus_digits _ (- n) Hd (Hv false)). f_equal. lia.
  - apply int_digits; [now apply format_02d_nonneg_digits|].
    rewrite format_02d_nonneg by assumption.
    destruct (digits_value_zeros (2 - String.length (Py.str n)) (Py.str n) false)
      as (b' & ->).
    now destruct (str_nonneg_digits n Hn) as (_ & _ & ->).
Qed.

Lemma format_02d_length n :
  0 <= n -> (2 <= String.length (Py.format_02d n))%nat.
Proof.
  intros Hn. rewrite format_02d_nonneg, string_length_app, zeros_length by assumption. lia.
Qed.

(** ** Splitting at the colon *)

Lemma split_single s :
  string_forallb not_colon s = true -> Py.split ":" s = [s].
Proof.
  induction s as [|c s IH]; simpl; [reflexivity|].
  rewrite andb_true_iff. intros [Hc Hs]. unfold not_colon in Hc.
  destruct (Ascii.eqb c ":"); [discriminate|]. now rewrite (IH Hs).
Qed.

Lemma split_at_colon a b :
  string_forallb not_colon a = true ->
  Py.split ":" (a ++ String ":" b) = a :: Py.split ":" b.
Proof.
  induction a as [|c a IH]; simpl; [reflexivity|].
  rewrite andb_true_iff. intros [Hc Ha]. unfold not_colon in Hc.
  destruct (Ascii.eqb c ":"); [discriminate|]. now rewrite (IH Ha).
Qed.

Lemma split_minutes_to_hhmm n :
  Py.split ":" (minutes_to_hhmm n)
  = [Py.format_02d (n / 60); Py.format_02d (n mod 60)].
Proof.
  unfold minutes_to_hhmm.
  assert (Hnc : forall k, string_forallb not_colon (Py.format_02d k) = true).
  { intros k. eapply string_forallb_impl; [|apply format_02d_numeric].
    apply numeric_not_colon. }
  change (":" ++ Py.format_02d (n mod 60)) with (String ":" (Py.format_02d (n mod 60))).
  rewrite split_at_colon by apply Hnc. now rewrite split_single by apply Hnc.
Qed.

(** Parsing undoes formatting, for every integer. *)
Lemma parse_minutes_to_hhmm n : parse_hhmm_to_minutes (minutes_to_hhmm n) = Ok n.
Proof.
  unfold parse_hhmm_to_minutes. rewrite split_minutes_to_hhmm.
  rewrite !int_format_02d. simpl. f_equal.
  pose proof (Z.div_mod n 60). lia.
Qed.

(** ** Two-digit fields *)

Lemma below_forallb (f : Z -> bool) (k : nat) :
  forallb f (map Z.of_nat (seq 0 k)) = true ->
  forall n, 0 <= n < Z.of_nat k -> f n = true.
Proof.
  intros H n Hn. rewrite forallb_forall in H. apply H.
  rewrite <- (Z2Nat.id n) by lia. apply in_map, in_seq. lia.
Qed.

Lemma format_02d_two_digits n :
  0 <= n < 100 -> Py.format_02d n = two_digits n.
Proof.
  intros Hn. apply String.eqb_eq.
  revert n Hn.
  apply (below_forallb (fun n => String.eqb (Py.format_02d n) (two_digits n)) 100).
  vm_compute. reflexivity.
Qed.

Lemma digit_val_char c d :
  Py.digit_val c = Some d -> 0 <= d <= 9 /\ c = digit_char d.
Proof.
  unfold Py.digit_val, digit_char.
  destruct (N.leb_spec 48 (N_of_ascii c)); simpl; [|discriminate].
  destruct (N.leb_spec (N_of_ascii c) 57); simpl; [|discriminate].
  intros [= <-]. split; [lia|].
  replace (Z.to_N (Z.of_N (N_of_ascii c) - 48 + 48)) with (N_of_ascii c) by lia.
  symmetry. apply ascii_N_embedding.
Qed.

Lemma digit_char_code d : 0 <= d <= 9 -> N_of_ascii (digit_char d) = Z.to_N (d + 48).
Proof.
  intros Hd. unfold digit_char. apply N_ascii_embedding. lia.
Qed.

Lemma minutes_to_hhmm_two_digits h m :
  0 <= h < 100 -> 0 <= m < 60 ->
  minutes_to_hhmm (h * 60 + m) = two_digits h ++ String ":" (two_digits m).
Proof.
  intros Hh Hm. unfold minutes_to_hhmm.
  replace ((h * 60 + m) / 60) with h by (apply Z.div_unique with m; lia).
  replace ((h * 60 + m) mod 60) with m by (apply Z.mod_unique with h; lia).
  rewrite !format_02d_two_digits by lia. reflexivity.
Qed.

(** Every ["HH:MM"] text is the formatting of a minute of the day. *)
Lemma is_hhmm_shape s :
  is_hhmm s = true ->
  exists h m, 0 <= h <= 23 /\ 0 <= m <= 59 /\ s = minutes_to_hhmm (h * 60 + m).
Proof.
  destruct s as [|a [|b [|sep [|c [|d [|? ?]]]]]];
    cbn -[Z.mul Z.add Z.leb Py.digit_val]; try discriminate.
  destruct (Py.digit_val a) as [x|] eqn:Ha; [|discriminate].
  destruct (Py.digit_val b) as [y|] eqn:Hb; [|discriminate].
  destruct (Py.digit_val c) as [z|] eqn:Hc; [|discriminate].
  destruct (Py.digit_val d) as [w|] eqn:Hd; [|discriminate].
  rewrite !andb_true_iff, Ascii.eqb_eq, !Z.leb_le. intros [[-> Hh] Hm].
  apply digit_val_char in Ha, Hb, Hc, Hd.
  destruct Ha as [Hx ->], Hb as [Hy ->], Hc as [Hz ->], Hd as [Hw ->].
  exists (10 * x + y), (10 * z + w). repeat split; try lia.
  rewrite minutes_to_hhmm_two_digits by lia. unfold two_digits.
  cbn [String.append].
  replace ((10 * x + y) / 10) with x by (apply Z.div_unique with y; lia).
  replace ((10 * x + y) mod 10) with y by (apply Z.mod_unique with x; lia).
  replace ((10 * z + w) / 10) with z by (apply Z.div_unique with w; lia).
  replace ((10 * z + w) mod 10) with w by (apply Z.mod_unique with z; lia).
  reflexivity.
Qed.

Lemma minutes_to_hhmm_is_hhmm n : 0 <= n < 1440 -> is_hhmm (minutes_to_hhmm n) = true.
Proof.
  intros Hn.
  revert n Hn.
  apply (below_forallb (fun n => is_hhmm (minutes_to_hhmm n)) 1440).
  vm_compute. reflexivity.
Qed.

(** ** Order of clock texts *)

Lemma compare_digit_char x y :
  0 <= x <= 9 -> 0 <= y <= 9 ->
  Ascii.compare (digit_char x) (digit_char y) = (x ?= y).
Proof.
  intros Hx Hy. unfold Ascii.compare. rewrite !digit_char_code by assumption.
  rewrite (Z2N.inj_compare (x + 48) (y + 48)) by lia.
  rewrite (Z.add_comm x), (Z.add_comm y). apply Z.add_compare_mono_l.
Qed.

Lemma compare_two_digits h1 h2 s1 s2 :
  0 <= h1 < 100 -> 0 <= h2 < 100 ->
  String.compare (two_digits h1 ++ s1) (two_digits h2 ++ s2)
  = match h1 ?= h2 with
    | Eq => String.compare s1 s2
    | ne => ne
    end.
Proof.
  intros H1 H2. unfold two_digits. simpl.
  assert (B1 : 0 <= h1 / 10 <= 9 /\ 0 <= h1 mod 10 <= 9) by (Z.div_mod_to_equations; lia).
  assert (B2 : 0 <= h2 / 10 <= 9 /\ 0 <= h2 mod 10 <= 9) by (Z.div_mod_to_equations; lia).
  rewrite !compare_digit_char by tauto.
  pose proof (Z.div_mod h1 10) as E1. pose proof (Z.div_mod h2 10) as E2.
  destruct (Z.compare_spec (h1 / 10) (h2 / 10)) as [Hq|Hq|Hq].
  - destruct (Z.compare_spec (h1 mod 10) (h2 mod 10)) as [Hr|Hr|Hr].
    + replace h2 with h1 by lia. now rewrite Z.compare_refl.
    + replace (h1 ?= h2) with Lt by (symmetry; apply Z.compare_lt_iff; lia).
      reflexivity.
    + replace (h1 ?= h2) with Gt by (symmetry; apply Z.compare_gt_iff; lia).
      reflexivity.
  - replace (h1 ?= h2) with Lt by (symmetry; apply Z.compare_lt_iff; lia).
    reflexivity.
  - replace (h1 ?= h2) with Gt by (symmetry; apply Z.compare_gt_iff; lia).
    reflexivity.
Qed.

(** On minutes of one day the order of the texts is the order of the
    numbers. *)
Lemma compare_minutes_to_hhmm a b :
  0 <= a < 1440 -> 0 <= b < 1440 ->
  String.compare (minutes_to_hhmm a) (minutes_to_hhmm b) = (a ?= b).
Proof.
  intros Ha Hb.
  pose proof (Z.div_mod a 60) as Ea. pose proof (Z.div_mod b 60) as Eb.
  pose proof (Z.mod_pos_bound a 60) as Ma. pose proof (Z.mod_pos_bound b 60) as Mb.
  assert (Qa : 0 <= a / 60 < 100) by (Z.div_mod_to_equations; lia).
  assert (Qb : 0 <= b / 60 < 100) by (Z.div_mod_to_equations; lia).
  replace a with (a / 60 * 60 + a mod 60) at 1 by lia.
  replace b with (b / 60 * 60 + b mod 60) at 1 by lia.
  rewrite !minutes_to_hhmm_two_digits by lia.
  rewrite compare_two_digits by lia.
  cbn [String.compare]. change (Ascii.compare ":" ":") with Eq. cbv iota.
  change (two_digits (a mod 60)) with (two_digits (a mod 60) ++ "").
  change (two_digits (b mod 60)) with (two_digits (b mod 60) ++ "").
  rewrite compare_two_digits by lia. simpl String.compare.
  destruct (Z.compare_spec (a / 60) (b / 60)) as [Hq|Hq|Hq].
  - destruct (Z.compare_spec (a mod 60) (b mod 60)) as [Hr|Hr|Hr];
      symmetry; [apply Z.compare_eq_iff | apply Z.compare_lt_iff
                | apply Z.compare_gt_iff]; lia.
  - symmetry; apply Z.compare_lt_iff; lia.
  - symmetry; apply Z.compare_gt_iff; lia.
Qed.

Lemma leb_minutes_to_hhmm a b :
  0 <= a < 1440 -> 0 <= b < 1440 ->
  String.leb (minutes_to_hhmm a) (minutes_to_hhmm b) = (a <=? b).
Proof.
  intros Ha Hb. unfold String.leb. rewrite compare_minutes_to_hhmm by assumption.
  unfold Z.leb. destruct (a ?= b); reflexivity.
Qed.

Lemma str_length_two n : 10 <= n -> (2 <= String.length (Py.str n))%nat.
Proof.
  intros Hn. destruct n as [|p|p]; try lia.
  pose proof (to_uint_value p) as Hv.
  unfold Py.str. cbn [Z.to_int NilZero.string_of_int]. unfold NilZero.string_of_uint.
  destruct (Pos.to_uint p) as [|d|d|d|d|d|d|d|d|d|d];
    cbn [uint_value] in Hv; try lia;
    destruct d; cbn [uint_value] in Hv; try lia; simpl; lia.
Qed.

Lemma format_02d_wide n : 10 <= n -> Py.format_02d n = Py.str n.
Proof.
  intros Hn. rewrite format_02d_nonneg by lia.
  pose proof (str_length_two n Hn).
  replace (2 - String.length (Py.str n))%nat with 0%nat by lia. reflexivity.
Qed.

(** ** The clock-text utilities *)

(** C7: for every text [s] of the form ["HH:MM"] with two two-digit fields,
    hour at most 23 and minute at most 59, parsing succeeds with some number
    of minutes and formatting that number gives [s] back. *)
Theorem hhmm_round_trip (s : string) (Hs : is_hhmm s = true) :
  exists n,
    parse_hhmm_to_minutes s = Ok n /\
    0 <= n < 1440 /\
    minutes_to_hhmm n = s.
Proof.
  destruct (is_hhmm_shape s Hs) as (h & m & Hh & Hm & ->).
  exists (h * 60 + m). split; [apply parse_minutes_to_hhmm|]. split; [lia | reflexivity].
Qed.

Lemma hhmm_round_trip_witness :
  is_hhmm "07:05" = true /\
  exists n,
    parse_hhmm_to_minutes "07:05" = Ok n /\ 0 <= n < 1440 /\
    minutes_to_hhmm n = "07:05"%string.
Proof. split; [reflexivity | apply (hhmm_round_trip "07:05"); reflexivity]. Defined.

(** C9: from 1440 minutes on, [minutes_to_hhmm] writes the hour field as the
    plain decimal text of [minutes / 60], which is at least 24 and has at
    least two digits, and the minute field as the two digits of
    [minutes mod 60]; nothing is reduced modulo a day, so the text reads
    back as the very same number of minutes. *)
Theorem minutes_to_hhmm_beyond_day (minutes : Z) (Hday : 1440 <= minutes) :
  let h := minutes / 60 in
  let m := minutes mod 60 in
  minutes_to_hhmm minutes = Py.str h ++ ":" ++ two_digits m /\
  Py.split ":" (minutes_to_hhmm minutes) = [Py.str h; two_digits m] /\
  24 <= h /\ 0 <= m < 60 /\
  string_forallb is_digit (Py.str h) = true /\
  (2 <= String.length (Py.str h))%nat /\
  Py.int (Py.str h) = Ok h /\
  Py.int (two_digits m) = Ok m /\
  parse_hhmm_to_minutes (minutes_to_hhmm minutes) = Ok minutes.
Proof.
  intros h m.
  assert (Hh : 24 <= h) by (subst h; Z.div_mod_to_equations; lia).
  assert (Hm : 0 <= m < 60) by (subst m; Z.div_mod_to_equations; lia).
  assert (Eh : Py.format_02d h = Py.str h) by (apply format_02d_wide; lia).
  assert (Em : Py.format_02d m = two_digits m) by (apply format_02d_two_digits; lia).
  split; [unfold minutes_to_hhmm; fold h; fold m; now rewrite Eh, Em|].
  split; [rewrite split_minutes_to_hhmm; fold h; fold m; now rewrite Eh, Em|].
  split; [exact Hh|]. split; [exact Hm|].
  split; [apply str_nonneg_digits; lia|].
  split; [apply str_length_two; lia|].
  split; [rewrite <- Eh; apply int_format_02d|].
  split; [rewrite <- Em; apply int_format_02d|].
  apply parse_minutes_to_hhmm.
Qed.

Lemma minutes_to_hhmm_beyond_day_witness :
  1440 <= 1500 /\
  minutes_to_hhmm 1500 = "25:00"%string /\
  parse_hhmm_to_minutes "25:00" = Ok 1500.
Proof.
  assert (Hday : 1440 <= 1500) by lia.
  split; [exact Hday|].
  pose proof (minutes_to_hhmm_beyond_day 1500 Hday) as H.
  cbv zeta in H. destruct H as (H1 & _ & _ & _ & _ & _ & _ & _ & H2).
  split; [exact H1 | exact H2].
Defined.

(** ** The matcher *)

Local Open Scope list_scope.

Lemma departs_fun t d d' : departs t d -> departs t d' -> d = d'.
Proof. unfold departs. congruence. Qed.

Lemma earliest_in_least e ts c cd :
  earliest_in e ts c cd ->
  In c ts /\ departs c cd /\ e <= cd /\
  forall t d, In t ts -> departs t d -> e <= d -> cd <= d.
Proof.
  intros (pre & post & -> & Hc & Hle & Hpre & Hpost).
  split; [apply in_or_app; right; left; reflexivity|].
  split; [assumption|]. split; [assumption|].
  intros t d Hin Hd Hed. apply in_app_or in Hin. destruct Hin as [Hin|[<-|Hin]].
  - specialize (Hpre t d Hin Hd Hed). lia.
  - rewrite (departs_fun _ _ _ Hc Hd). lia.
  - exact (Hpost t d Hin Hd Hed).
Qed.

Lemma find_next_step_scanned e seen st t d :
  scanned e seen st -> departs t d ->
  exists st', find_next_step e st t = Ok st' /\ scanned e (seen ++ [t]) st'.
Proof.
  intros Hst Hd. unfold find_next_step. unfold departs in Hd. rewrite Hd.
  cbn [bind]. fold (departs t d) in Hd.
  destruct st as [[c|] [cd|]]; cbn [scanned fst snd] in *; try contradiction.
  - (* a candidate is held *)
    destruct (Z.geb_spec d e) as [Hge|Hlt].
    + destruct (Z.ltb_spec d cd) as [Hbetter|Hworse].
      * eexists; split; [reflexivity|]. cbn [scanned].
        exists seen, []. split; [reflexivity|]. split; [assumption|].
        split; [lia|]. split; [|intros ? ? []].
        intros t' d' Hin Hd' Hed'.
        destruct (earliest_in_least _ _ _ _ Hst) as (_ & _ & _ & Hmin).
        specialize (Hmin t' d' Hin Hd' Hed'). lia.
      * eexists; split; [reflexivity|]. cbn [scanned].
        destruct Hst as (pre & post & -> & Hc & Hle & Hpre & Hpost).
        exists pre, (post ++ [t]). split; [now rewrite <- app_assoc|].
        split; [assumption|]. split; [assumption|]. split; [assumption|].
        intros t' d' Hin Hd' Hed'. apply in_app_or in Hin.
        destruct Hin as [Hin|[<-|[]]]; [eauto|].
        rewrite <- (departs_fun _ _ _ Hd Hd'). lia.
    + eexists; split; [reflexivity|]. cbn [scanned].
      destruct Hst as (pre & post & -> & Hc & Hle & Hpre & Hpost).
      exists pre, (post ++ [t]). split; [now rewrite <- app_assoc|].
      split; [assumption|]. split; [assumption|]. split; [assumption|].
      intros t' d' Hin Hd' Hed'. apply in_app_or in Hin.
      destruct Hin as [Hin|[<-|[]]]; [eauto|].
      rewrite <- (departs_fun _ _ _ Hd Hd') in Hed'. lia.
  - (* no candidate yet *)
    destruct (Z.geb_spec d e) as [Hge|Hlt].
    + eexists; split; [reflexivity|]. cbn [scanned].
      exists seen, []. split; [reflexivity|]. split; [assumption|].
      split; [lia|]. split; [|intros ? ? []].
      intros t' d' Hin Hd' Hed'. specialize (Hst t' d' Hin Hd'). lia.
    + eexists; split; [reflexivity|]. cbn [scanned].
      intros t' d' Hin Hd'. apply in_app_or in Hin.
      destruct Hin as [Hin|[<-|[]]]; [eauto|].
      rewrite <- (departs_fun _ _ _ Hd Hd'). lia.
Qed.

Lemma find_next_loop_scanned e ts :
  Forall departure_readable ts ->
  forall seen st, scanned e seen st ->
  exists st', find_next_loop e ts st = Ok st' /\ scanned e (seen ++ ts) st'.
Proof.
  induction 1 as [|t ts [d Hd] Hts IH]; intros seen st Hst.
  - exists st. rewrite app_nil_r. split; [reflexivity | assumption].
  - destruct (find_next_step_scanned e seen st t d Hst Hd) as (st1 & Hstep & Hst1).
    destruct (IH _ _ Hst1) as (st' & Hloop & Hst').
    exists st'. cbn [find_next_loop]. rewrite Hstep. cbn [bind].
    split; [assumption|]. now rewrite <- app_assoc in Hst'.
Qed.

Lemma find_next_train_spec ts e :
  Forall departure_readable ts ->
  exists found, find_next_train ts e = Ok found /\ next_train_spec e ts found.
Proof.
  intros Hts.
  destruct (find_next_loop_scanned e ts Hts [] (None, None)) as (st & Hloop & Hst).
  { intros t d []. }
  unfold find_next_train. rewrite Hloop. cbn [bind].
  exists (fst st). split; [reflexivity|]. cbn [app] in Hst.
  destruct st as [[c|] [cd|]]; cbn [scanned fst next_train_spec] in *;
    try contradiction; eauto.
Qed.

Lemma next_train_spec_perm e ts ts' found found' :
  Permutation ts ts' ->
  next_train_spec e ts found -> next_train_spec e ts' found' ->
  same_departure found found'.
Proof.
  intros Hperm H H'.
  destruct found as [c|], found' as [c'|]; cbn [next_train_spec same_departure] in *.
  - destruct H as (cd & H), H' as (cd' & H').
    apply earliest_in_least in H, H'.
    destruct H as (Hin & Hc & Hle & Hmin), H' as (Hin' & Hc' & Hle' & Hmin').
    assert (cd <= cd') by (apply (Hmin c'); auto; eapply Permutation_in;
                           [apply Permutation_sym|]; eassumption).
    assert (cd' <= cd) by (apply (Hmin' c); auto; eapply Permutation_in; eassumption).
    exists cd. split; [assumption|]. now replace cd with cd' by lia.
  - destruct H as (cd & H). apply earliest_in_least in H.
    destruct H as (Hin & Hc & Hle & _).
    specialize (H' c cd (Permutation_in _ Hperm Hin) Hc). lia.
  - destruct H' as (cd' & H'). apply earliest_in_least in H'.
    destruct H' as (Hin' & Hc' & Hle' & _).
    specialize (H c' cd' (Permutation_in _ (Permutation_sym Hperm) Hin') Hc'). lia.
  - exact I.
Qed.

(** C1: when every departure text of [ts] reads as a time, [find_next_train]
    returns normally; a returned train leaves at or after the bound, no
    train before it in the list that is at or after the bound leaves as early,
    and none after it leaves earlier; [None] is returned exactly when every
    train leaves before the bound; and over any reordering of the list the
    answer leaves at the same minute (it is the same train when departures
    are pairwise distinct). *)
Theorem find_next_train_earliest (ts : list Train) (e : Z)
    (Hts : Forall departure_readable ts) :
  exists found,
    find_next_train ts e = Ok found /\
    next_train_spec e ts found /\
    (found = None <-> none_from e ts) /\
    forall ts', Permutation ts ts' ->
      exists found',
        find_next_train ts' e = Ok found' /\
        same_departure found found' /\
        ((forall t t' d, In t ts -> In t' ts -> departs t d -> departs t' d -> t = t') ->
         found' = found).
Proof.
  destruct (find_next_train_spec ts e Hts) as (found & Hrun & Hspec).
  exists found. split; [assumption|]. split; [assumption|]. split.
  - split.
    + intros ->. exact Hspec.
    + intros Hnone. destruct found as [c|]; [|reflexivity].
      destruct Hspec as (cd & Hc). apply earliest_in_least in Hc.
      destruct Hc as (Hin & Hc & Hle & _). specialize (Hnone c cd Hin Hc). lia.
  - intros ts' Hperm.
    assert (Hts' : Forall departure_readable ts')
      by (eapply Permutation_Forall; eassumption).
    destruct (find_next_train_spec ts' e Hts') as (found' & Hrun' & Hspec').
    exists found'. split; [assumption|].
    pose proof (next_train_spec_perm _ _ _ _ _ Hperm Hspec Hspec') as Hsame.
    split; [assumption|]. intros Hinj.
    destruct found as [c|], found' as [c'|]; cbn [same_departure] in Hsame;
      try contradiction; [|reflexivity].
    destruct Hsame as (d & Hd & Hd'). f_equal.
    destruct Hspec as (cd & Hc), Hspec' as (cd' & Hc').
    apply earliest_in_least in Hc, Hc'.
    destruct Hc as (Hin & _), Hc' as (Hin' & _).
    apply (Hinj c' c d); auto.
    eapply Permutation_in; [apply Permutation_sym|]; eassumption.
Qed.

Lemma find_next_train_earliest_witness :
  Forall departure_readable tied_trains /\
  exists found,
    find_next_train tied_trains 437 = Ok found /\
    next_train_spec 437 tied_trains found /\
    found = Some (mkTrain "07:17" "07:30").
Proof.
  assert (H : Forall departure_readable tied_trains)
    by (repeat constructor; eexists; reflexivity).
  split; [exact H|].
  destruct (find_next_train_earliest tied_trains 437 H) as (found & Hrun & Hspec & _).
  exists found. split; [exact Hrun|]. split; [exact Hspec|].
  vm_compute in Hrun. now injection Hrun as <-.
Defined.

(** A run of the matcher that returns has read every departure. *)
Lemma find_next_loop_readable e ts :
  forall st st', find_next_loop e ts st = Ok st' -> Forall departure_readable ts.
Proof.
  induction ts as [|t ts IH]; intros st st' H; [constructor|].
  cbn [find_next_loop] in H. bind_inv H. constructor; [|eauto].
  unfold find_next_step in Hx.
  destruct (parse_hhmm_to_minutes (departure t)) as [d|] eqn:Hd; [|discriminate].
  now exists d.
Qed.

Lemma find_next_train_sound ts e found :
  find_next_train ts e = Ok found ->
  Forall departure_readable ts /\ next_train_spec e ts found.
Proof.
  intros H. assert (Hts : Forall departure_readable ts).
  { unfold find_next_train in H. bind_inv H. eapply find_next_loop_readable; eauto. }
  split; [assumption|].
  destruct (find_next_train_spec ts e Hts) as (found' & Hrun & Hspec). congruence.
Qed.

Lemma find_next_train_Some ts e c :
  find_next_train ts e = Ok (Some c) ->
  In c ts /\ exists cd, departs c cd /\ e <= cd.
Proof.
  intros H. apply find_next_train_sound in H. destruct H as (_ & cd & H).
  apply earliest_in_least in H. destruct H as (Hin & Hc & Hle & _). eauto.
Qed.

(** ** The search window *)

Lemma base_minutes_range now : valid_time now -> 0 <= base_minutes_of now < 1440.
Proof. unfold valid_time, base_minutes_of. lia. Qed.

(** The upper bound is the wall-clock minute of [now + off], a minute of
    the day of its own: it wraps at midnight. *)
Lemma latest_minutes_wraps now off :
  valid_time now ->
  latest_minutes_of now off = (base_minutes_of now + off) mod 1440.
Proof.
  unfold valid_time, latest_minutes_of, base_minutes_of, plus_minutes_hour,
    plus_minutes_minute, plus_minutes_seconds.
  intros (Hh & Hm & Hs). Z.div_mod_to_equations. lia.
Qed.

Lemma latest_minutes_le now off :
  valid_time now -> 0 <= off ->
  latest_minutes_of now off <= base_minutes_of now + off.
Proof.
  intros Hnow Hoff. rewrite latest_minutes_wraps by assumption.
  pose proof (base_minutes_range now Hnow). Z.div_mod_to_equations. lia.
Qed.

Lemma latest_minutes_range now off :
  valid_time now -> 0 <= latest_minutes_of now off < 1440.
Proof.
  intros Hnow. rewrite latest_minutes_wraps by assumption.
  apply Z.mod_pos_bound. lia.
Qed.

(** ** The query parameter *)

Lemma int_raises s e : Py.int s = Raise e -> e = ValueError.
Proof.
  unfold Py.int, Py.int_of_ascii.
  destruct (match Py.strip (Py.ascii_form (Py.code_points s)) with
            | String "+" ds => Py.digits_value 0 false ds
            | String "-" ds => option_map Z.opp (Py.digits_value 0 false ds)
            | _ => Py.digits_value 0 false (Py.strip (Py.ascii_form (Py.code_points s)))
            end); congruence.
Qed.

Lemma effective_max_offset_cases arg :
  effective_max_offset arg
  = Ok (match arg with
        | None => 30
        | Some s =>
            match Py.int s with
            | Ok n => clamp n
            | Raise _ => 3
            end
        end).
Proof.
  unfold effective_max_offset, clamp. destruct arg as [s|]; [|reflexivity].
  destruct (Py.int s) as [n|e] eqn:Hs.
  - cbn [try_except_ValueError bind]. f_equal.
    destruct (Z.ltb_spec n 0); destruct (Z.gtb_spec n 60);
      try (destruct (Z.gtb_spec 0 60)); lia.
  - rewrite (int_raises _ _ Hs). reflexivity.
Qed.

Lemma effective_max_offset_range arg off :
  effective_max_offset arg = Ok off -> 0 <= off <= 60.
Proof.
  rewrite effective_max_offset_cases. intros [= <-].
  destruct arg as [s|]; [|lia]. destruct (Py.int s); unfold clamp; lia.
Qed.

(** ** One leg-1 candidate *)

Lemma train_of_transfer leg t :
  mkTrain (tr_departure (transfer_of leg t)) (tr_arrival (transfer_of leg t)) = t.
Proof. destruct t; reflexivity. Qed.

Lemma transfer_tameike : getitem TRANSFER_MINUTES "溜池山王" = Ok 5.
Proof. reflexivity. Qed.

Lemma transfer_shimbashi : getitem TRANSFER_MINUTES "新橋" = Ok 7.
Proof. reflexivity. Qed.

Lemma route_of_candidate_Some L1 L2 L3 base latest t1 r :
  route_of_candidate L1 L2 L3 base latest t1 = Ok (Some r) ->
  chain L1 L2 L3 base latest t1 r.
Proof.
  unfold route_of_candidate. intros H.
  bind_inv H. rename x into d1, Hx into Hd1.
  destruct (Z.ltb_spec d1 base) as [|Hlo]; [discriminate|].
  destruct (Z.gtb_spec d1 latest) as [|Hhi]; [discriminate|].
  cbn [orb] in H.
  bind_inv H. rename x into a1, Hx into Ha1.
  rewrite transfer_tameike in H. cbn [bind] in H.
  bind_inv H. destruct x as [t2|]; [|discriminate]. rename Hx into H2.
  bind_inv H. rename x into d2, Hx into Hd2.
  bind_inv H. rename x into a2, Hx into Ha2.
  rewrite transfer_shimbashi in H. cbn [bind] in H.
  bind_inv H. destruct x as [t3|]; [|discriminate]. rename Hx into H3.
  bind_inv H. rename x into d3, Hx into Hd3.
  bind_inv H. rename x into a3, Hx into Ha3.
  injection H as <-.
  exact (mkChain L1 L2 L3 base latest t1 _ t2 t3 d1 a1 a2 a3
           Hd1 (conj Hlo Hhi) Ha1 H2 Ha2 H3 Ha3 eq_refl).
Qed.

(** Inside the window the bounds play no further part. *)
Lemma route_of_candidate_inside L1 L2 L3 base latest t1 d1 :
  departs t1 d1 -> base <= d1 <= latest ->
  route_of_candidate L1 L2 L3 base latest t1
  = route_of_candidate L1 L2 L3 d1 d1 t1.
Proof.
  intros Hd1 Hin. unfold route_of_candidate. unfold departs in Hd1.
  rewrite Hd1. cbn [bind].
  destruct (Z.ltb_spec d1 base); [lia|].
  destruct (Z.gtb_spec d1 latest); [lia|].
  destruct (Z.ltb_spec d1 d1); [lia|].
  destruct (Z.gtb_spec d1 d1); [lia|]. reflexivity.
Qed.

Lemma route_of_candidate_outside L1 L2 L3 base latest t1 d1 :
  departs t1 d1 -> d1 < base \/ latest < d1 ->
  route_of_candidate L1 L2 L3 base latest t1 = Ok None.
Proof.
  intros Hd1 Hout. unfold route_of_candidate. unfold departs in Hd1.
  rewrite Hd1. cbn [bind].
  destruct (Z.ltb_spec d1 base); [reflexivity|].
  destruct (Z.gtb_spec d1 latest); [reflexivity | lia].
Qed.

(** No train on leg 2: the candidate is dropped. *)
Lemma route_of_candidate_no_second L1 L2 L3 base latest t1 a1 s :
  arrives t1 a1 ->
  find_next_train (trains L2) (a1 + 5) = Ok None ->
  route_of_candidate L1 L2 L3 base latest t1 = Ok s ->
  s = None.
Proof.
  intros Ha1 H2 H. destruct s as [r|]; [|reflexivity].
  apply route_of_candidate_Some in H.
  destruct H as [t2 t3 d1 a1' a2 a3 _ _ Ha1' H2' _ _ _ _].
  unfold arrives in *. congruence.
Qed.

(** No train on leg 3: the candidate is dropped. *)
Lemma route_of_candidate_no_third L1 L2 L3 base latest t1 a1 t2 a2 s :
  arrives t1 a1 ->
  find_next_train (trains L2) (a1 + 5) = Ok (Some t2) ->
  arrives t2 a2 ->
  find_next_train (trains L3) (a2 + 7) = Ok None ->
  route_of_candidate L1 L2 L3 base latest t1 = Ok s ->
  s = None.
Proof.
  intros Ha1 H2 Ha2 H3 H. destruct s as [r|]; [|reflexivity].
  apply route_of_candidate_Some in H.
  destruct H as [t2' t3 d1 a1' a2' a3 _ _ Ha1' H2' Ha2' H3' _ _].
  unfold arrives in *.
  assert (a1' = a1) by congruence. subst a1'.
  assert (t2' = t2) by congruence. subst t2'.
  assert (a2' = a2) by congruence. subst a2'.
  congruence.
Qed.

Lemma chain_first_train L1 L2 L3 base latest t1 r :
  chain L1 L2 L3 base latest t1 r -> first_train r = Some t1.
Proof.
  intros []. subst r. unfold first_train, legs_of. cbn [transfers map hd_error].
  now rewrite train_of_transfer.
Qed.

Lemma chain_fun L1 L2 L3 base latest t1 r r' :
  chain L1 L2 L3 base latest t1 r -> chain L1 L2 L3 base latest t1 r' -> r = r'.
Proof.
  intros [t2 t3 d1 a1 a2 a3 Hd1 _ Ha1 H2 Ha2 H3 Ha3 ->]
         [t2' t3' d1' a1' a2' a3' Hd1' _ Ha1' H2' Ha2' H3' Ha3' ->].
  unfold departs, arrives in *.
  assert (d1' = d1) by congruence. subst d1'.
  assert (a1' = a1) by congruence. subst a1'.
  assert (t2' = t2) by congruence. subst t2'.
  assert (a2' = a2) by congruence. subst a2'.
  assert (t3' = t3) by congruence. subst t3'.
  assert (a3' = a3) by congruence. subst a3'.
  reflexivity.
Qed.

(** ** The loop over leg 1 *)

Lemma collect_routes_Ok L1 L2 L3 base latest ts :
  forall acc rs,
    collect_routes L1 L2 L3 base latest ts acc = Ok rs ->
    rs = acc ++ flat_map (candidate_routes L1 L2 L3 base latest) ts.
Proof.
  induction ts as [|t ts IH]; intros acc rs H; cbn [collect_routes flat_map] in *.
  - injection H as <-. now rewrite app_nil_r.
  - bind_inv H. apply IH in H. subst rs. unfold candidate_routes at 2. rewrite Hx.
    destruct x as [r|]; [now rewrite <- app_assoc | reflexivity].
Qed.

Lemma collect_routes_returns L1 L2 L3 base latest ts :
  Forall (fun t => exists s, route_of_candidate L1 L2 L3 base latest t = Ok s) ts ->
  forall acc, exists rs, collect_routes L1 L2 L3 base latest ts acc = Ok rs.
Proof.
  induction 1 as [|t ts [s Hs] _ IH]; intros acc; cbn [collect_routes]; [eauto|].
  rewrite Hs. cbn [bind]. apply IH.
Qed.

Lemma candidate_routes_chain L1 L2 L3 base latest ts r :
  In r (flat_map (candidate_routes L1 L2 L3 base latest) ts) ->
  exists t1, In t1 ts /\ chain L1 L2 L3 base latest t1 r.
Proof.
  rewrite in_flat_map. intros (t1 & Hin & Hr). exists t1. split; [assumption|].
  unfold candidate_routes in Hr.
  destruct (route_of_candidate L1 L2 L3 base latest t1) as [[r'|]|] eqn:E;
    try contradiction.
  destruct Hr as [<-|[]]. now apply route_of_candidate_Some.
Qed.

Lemma route_of_candidate_returns L1 L2 L3 base latest t1 :
  well_formed t1 ->
  Forall well_formed (trains L2) -> Forall well_formed (trains L3) ->
  exists s, route_of_candidate L1 L2 L3 base latest t1 = Ok s.
Proof.
  intros [[d1 Hd1] [a1 Ha1]] HL2 HL3. unfold route_of_candidate.
  unfold departs, arrives in *. rewrite Hd1. cbn [bind].
  destruct ((d1 <? base) || (d1 >? latest))%bool; [eauto|].
  rewrite Ha1, transfer_tameike. cbn [bind].
  destruct (find_next_train_spec (trains L2) (a1 + 5)) as (found2 & H2 & S2).
  { eapply Forall_impl; [|exact HL2]. now intros t [Hd _]. }
  rewrite H2. cbn [bind]. destruct found2 as [t2|]; [|eauto].
  destruct (find_next_train_Some _ _ _ H2) as (Hin2 & _).
  rewrite Forall_forall in HL2. destruct (HL2 t2 Hin2) as [[d2 Hd2] [a2 Ha2]].
  unfold departs, arrives in *. rewrite Hd2, Ha2, transfer_shimbashi. cbn [bind].
  destruct (find_next_train_spec (trains L3) (a2 + 7)) as (found3 & H3 & S3).
  { eapply Forall_impl; [|exact HL3]. now intros t [Hd _]. }
  rewrite H3. cbn [bind]. destruct found3 as [t3|]; [|eauto].
  destruct (find_next_train_Some _ _ _ H3) as (Hin3 & _).
  rewrite Forall_forall in HL3. destruct (HL3 t3 Hin3) as [[d3 Hd3] [a3 Ha3]].
  unfold departs, arrives in *. rewrite Hd3, Ha3. cbn [bind]. eauto.
Qed.

(** With an empty window the loop only reads the departures. *)
Lemma collect_routes_empty_window L1 L2 L3 base latest ts :
  latest < base -> Forall departure_readable ts ->
  forall acc, collect_routes L1 L2 L3 base latest ts acc = Ok acc.
Proof.
  intros Hempty. induction 1 as [|t ts [d Hd] _ IH]; intros acc;
    cbn [collect_routes]; [reflexivity|].
  rewrite (route_of_candidate_outside L1 L2 L3 base latest t d Hd) by lia.
  cbn [bind]. apply IH.
Qed.

(** ** The final sort *)

Lemma insert_by_key_perm r l : Permutation (insert_by_key r l) (r :: l).
Proof.
  induction l as [|r' l IH]; cbn [insert_by_key]; [apply Permutation_refl|].
  destruct (String.ltb (departure_time r') (departure_time r)).
  - eapply Permutation_trans; [apply perm_skip, IH | apply perm_swap].
  - apply Permutation_refl.
Qed.

Lemma sort_by_departure_time_perm l : Permutation (sort_by_departure_time l) l.
Proof.
  induction l as [|r l IH]; cbn [sort_by_departure_time]; [constructor|].
  eapply Permutation_trans; [apply insert_by_key_perm | now apply perm_skip].
Qed.

Lemma ltb_key_le s s' : String.ltb s s' = true -> String.leb s s' = true.
Proof. unfold String.ltb, String.leb. destruct (String.compare s s'); congruence. Qed.

Lemma not_ltb_key_le s s' : String.ltb s' s = false -> String.leb s s' = true.
Proof.
  unfold String.ltb, String.leb. rewrite (String.compare_antisym s s').
  destruct (String.compare s' s); cbn [CompOpp]; congruence.
Qed.

Lemma insert_by_key_HdRel a r l :
  key_le a r -> HdRel key_le a l -> HdRel key_le a (insert_by_key r l).
Proof.
  intros Har Hal. destruct l as [|r' l]; cbn [insert_by_key]; [now constructor|].
  destruct (String.ltb (departure_time r') (departure_time r));
    constructor; [now inversion Hal | assumption].
Qed.

Lemma insert_by_key_sorted r l :
  Sorted key_le l -> Sorted key_le (insert_by_key r l).
Proof.
  induction 1 as [|r' l Hl IH Hhd]; cbn [insert_by_key]; [repeat constructor|].
  destruct (String.ltb (departure_time r') (departure_time r)) eqn:E.
  - constructor; [assumption|]. apply insert_by_key_HdRel; [|assumption].
    now apply ltb_key_le.
  - constructor; [now constructor|]. constructor. now apply not_ltb_key_le.
Qed.

Lemma sort_by_departure_time_sorted l : Sorted key_le (sort_by_departure_time l).
Proof.
  induction l as [|r l IH]; cbn [sort_by_departure_time]; [constructor|].
  now apply insert_by_key_sorted.
Qed.

Lemma string_compare_refl s : String.compare s s = Eq.
Proof.
  induction s as [|c s IH]; cbn [String.compare]; [reflexivity|].
  unfold Ascii.compare. now rewrite N.compare_refl.
Qed.

(** The sort is stable: routes with one and the same key keep the order
    they were found in. *)
Lemma insert_by_key_stable k r l :
  filter (fun x => String.eqb (departure_time x) k) (insert_by_key r l)
  = filter (fun x => String.eqb (departure_time x) k) (r :: l).
Proof.
  induction l as [|r' l IH]; cbn [insert_by_key]; [reflexivity|].
  destruct (String.ltb (departure_time r') (departure_time r)) eqn:E; [|reflexivity].
  cbn [filter] in *. rewrite IH.
  destruct (String.eqb_spec (departure_time r) k) as [Hr|Hr];
    destruct (String.eqb_spec (departure_time r') k) as [Hr'|Hr']; try reflexivity.
  unfold String.ltb in E. rewrite Hr, Hr', string_compare_refl in E. discriminate.
Qed.

Lemma sort_by_departure_time_stable k l :
  filter (fun x => String.eqb (departure_time x) k) (sort_by_departure_time l)
  = filter (fun x => String.eqb (departure_time x) k) l.
Proof.
  induction l as [|r l IH]; cbn [sort_by_departure_time]; [reflexivity|].
  rewrite insert_by_key_stable. cbn [filter]. now rewrite IH.
Qed.

(** ** The handler as a whole *)

Lemma api_routes_Ok csv1 csv2 csv3 arg now resp :
  api_routes csv1 csv2 csv3 arg now = Ok resp ->
  exists off,
    effective_max_offset arg = Ok off /\
    resp = {| search_time_jst := strftime now;
              departure_base_jst := strftime now;
              max_offset_minutes := off;
              routes := sort_by_departure_time
                          (found_routes csv1 csv2 csv3 (base_minutes_of now)
                             (latest_minutes_of now off)) |}.
Proof.
  unfold api_routes. intros H. bind_inv H. rename x into off. exists off.
  split; [assumption|].
  change (getitem (TIMETABLE csv1 csv2 csv3) "ichigaya_tameike")
    with (Ok (ichigaya_tameike csv1)) in H.
  change (getitem (TIMETABLE csv1 csv2 csv3) "tameike_shimbashi")
    with (Ok (tameike_shimbashi csv2)) in H.
  change (getitem (TIMETABLE csv1 csv2 csv3) "shimbashi_kamakura")
    with (Ok (shimbashi_kamakura csv3)) in H.
  cbn [bind] in H. bind_inv H. injection H as <-.
  apply collect_routes_Ok in Hx0. cbn [app trains ichigaya_tameike] in Hx0.
  subst x. reflexivity.
Qed.

Lemma api_routes_Ok_collect csv1 csv2 csv3 arg now resp :
  api_routes csv1 csv2 csv3 arg now = Ok resp ->
  exists off rs,
    effective_max_offset arg = Ok off /\
    collect_routes (ichigaya_tameike csv1) (tameike_shimbashi csv2)
      (shimbashi_kamakura csv3) (base_minutes_of now) (latest_minutes_of now off)
      csv1 [] = Ok rs /\
    resp = {| search_time_jst := strftime now;
              departure_base_jst := strftime now;
              max_offset_minutes := off;
              routes := sort_by_departure_time rs |}.
Proof.
  unfold api_routes. intros H. bind_inv H. rename x into off.
  change (getitem (TIMETABLE csv1 csv2 csv3) "ichigaya_tameike")
    with (Ok (ichigaya_tameike csv1)) in H.
  change (getitem (TIMETABLE csv1 csv2 csv3) "tameike_shimbashi")
    with (Ok (tameike_shimbashi csv2)) in H.
  change (getitem (TIMETABLE csv1 csv2 csv3) "shimbashi_kamakura")
    with (Ok (shimbashi_kamakura csv3)) in H.
  cbn [bind] in H. bind_inv H. injection H as <-.
  exists off, x. split; [assumption|]. split; [exact Hx0 | reflexivity].
Qed.

Lemma api_routes_run csv1 csv2 csv3 arg now off rs :
  effective_max_offset arg = Ok off ->
  collect_routes (ichigaya_tameike csv1) (tameike_shimbashi csv2)
    (shimbashi_kamakura csv3) (base_minutes_of now) (latest_minutes_of now off)
    csv1 [] = Ok rs ->
  api_routes csv1 csv2 csv3 arg now
  = Ok {| search_time_jst := strftime now;
          departure_base_jst := strftime now;
          max_offset_minutes := off;
          routes := sort_by_departure_time rs |}.
Proof.
  intros Hoff Hrs. unfold api_routes. rewrite Hoff. cbn [bind].
  change (getitem (TIMETABLE csv1 csv2 csv3) "ichigaya_tameike")
    with (Ok (ichigaya_tameike csv1)).
  change (getitem (TIMETABLE csv1 csv2 csv3) "tameike_shimbashi")
    with (Ok (tameike_shimbashi csv2)).
  change (getitem (TIMETABLE csv1 csv2 csv3) "shimbashi_kamakura")
    with (Ok (shimbashi_kamakura csv3)).
  cbn [bind trains ichigaya_tameike].
  unfold base_minutes_of, latest_minutes_of in Hrs. rewrite Hrs. reflexivity.
Qed.

(** On timetables whose texts all read as times the handler answers. *)
Lemma api_routes_returns csv1 csv2 csv3 arg now :
  Forall well_formed csv1 -> Forall well_formed csv2 -> Forall well_formed csv3 ->
  exists resp, api_routes csv1 csv2 csv3 arg now = Ok resp.
Proof.
  intros H1 H2 H3.
  destruct (effective_max_offset arg) as [off|] eqn:Hoff;
    [|rewrite effective_max_offset_cases in Hoff; discriminate].
  destruct (collect_routes_returns (ichigaya_tameike csv1) (tameike_shimbashi csv2)
              (shimbashi_kamakura csv3) (base_minutes_of now)
              (latest_minutes_of now off) csv1) with (acc := @nil Route) as (rs & Hrs).
  { eapply Forall_impl; [|exact H1]. intros t Ht.
    apply route_of_candidate_returns; [exact Ht | exact H2 | exact H3]. }
  eexists. apply api_routes_run with (off := off) (rs := rs); assumption.
Qed.

Lemma routes_are_chains csv1 csv2 csv3 arg now resp :
  api_routes csv1 csv2 csv3 arg now = Ok resp ->
  forall r, In r (routes resp) ->
  exists t1, In t1 csv1 /\
    chain (ichigaya_tameike csv1) (tameike_shimbashi csv2) (shimbashi_kamakura csv3)
      (base_minutes_of now) (latest_minutes_of now (max_offset_minutes resp)) t1 r.
Proof.
  intros H r Hr. apply api_routes_Ok in H. destruct H as (off & _ & ->).
  cbn [routes max_offset_minutes] in *.
  apply (Permutation_in _ (sort_by_departure_time_perm _)) in Hr.
  now apply candidate_routes_chain in Hr.
Qed.

Lemma chain_departure_time L1 L2 L3 base latest t1 r :
  chain L1 L2 L3 base latest t1 r ->
  exists d, departs t1 d /\ base <= d <= latest /\
            departure_time r = minutes_to_hhmm d.
Proof. intros [t2 t3 d1 a1 a2 a3 Hd1 Hw _ _ _ _ _ ->]. exists d1. auto. Qed.

(** C2: in every answer of the handler, each route starts with a leg-1
    train of the timetable whose departure [d] satisfies
    [base <= d <= base + max_offset], where [base] is the minute of the day
    of [now] and [max_offset] the effective offset of the answer; a leg-1
    train that leaves outside this closed window is skipped by the loop and
    is the first train of no returned route. *)
Theorem routes_within_window (csv1 csv2 csv3 : list Train) (arg : option string)
    (now : datetime) (resp : Response)
    (Hnow : valid_time now)
    (Hrun : api_routes csv1 csv2 csv3 arg now = Ok resp) :
  let base := base_minutes_of now in
  let off := max_offset_minutes resp in
  (forall r, In r (routes resp) ->
     exists t1 d,
       In t1 csv1 /\ first_train r = Some t1 /\ departs t1 d /\
       departure_time r = minutes_to_hhmm d /\
       base <= d <= base + off) /\
  (forall t1 d, departs t1 d -> d < base \/ base + off < d ->
     route_of_candidate (ichigaya_tameike csv1) (tameike_shimbashi csv2)
       (shimbashi_kamakura csv3) base (latest_minutes_of now off) t1 = Ok None /\
     forall r, In r (routes resp) -> first_train r <> Some t1) /\
  (base + off < 1440 ->
   forall t1 d, departs t1 d -> base <= d <= base + off ->
     route_of_candidate (ichigaya_tameike csv1) (tameike_shimbashi csv2)
       (shimbashi_kamakura csv3) base (latest_minutes_of now off) t1
     = route_of_candidate (ichigaya_tameike csv1) (tameike_shimbashi csv2)
         (shimbashi_kamakura csv3) d d t1).
Proof.
  intros base off.
  assert (Hoff : 0 <= off).
  { destruct (api_routes_Ok _ _ _ _ _ _ Hrun) as (off' & Hoff' & ->).
    apply effective_max_offset_range in Hoff'. subst off. cbn. lia. }
  pose proof (latest_minutes_le now off Hnow Hoff) as Hlatest. fold base in Hlatest.
  assert (Hin : forall r, In r (routes resp) ->
     exists t1 d,
       In t1 csv1 /\ first_train r = Some t1 /\ departs t1 d /\
       departure_time r = minutes_to_hhmm d /\
       base <= d <= base + off).
  { intros r Hr.
    destruct (routes_are_chains _ _ _ _ _ _ Hrun r Hr) as (t1 & Hin & Hchain).
    destruct (chain_departure_time _ _ _ _ _ _ _ Hchain) as (d & Hd & Hw & Hkey).
    fold base off in Hw. exists t1, d.
    split; [assumption|]. split; [eapply chain_first_train; eassumption|].
    split; [assumption|]. split; [assumption | lia]. }
  split; [exact Hin|]. split.
  - intros t1 d Hd Hout. split.
    + apply route_of_candidate_outside with (d1 := d); [assumption | lia].
    + intros r Hr Hfirst.
      destruct (Hin r Hr) as (t1' & d' & _ & Hfirst' & Hd' & _ & Hw).
      assert (t1' = t1) by congruence. subst t1'.
      rewrite (departs_fun _ _ _ Hd Hd') in Hout. lia.
  - intros Hday t1 d Hd Hw.
    assert (Hl : latest_minutes_of now off = base + off).
    { rewrite latest_minutes_wraps by assumption. fold base.
      pose proof (base_minutes_range now Hnow) as Hb. fold base in Hb.
      apply Z.mod_small. lia. }
    rewrite Hl. apply route_of_candidate_inside; assumption.
Qed.

Lemma routes_within_window_witness :
  valid_time scenario_now /\
  api_routes scenario_leg1 scenario_leg2 scenario_leg3 None scenario_now
  = Ok scenario_response /\
  forall r, In r (routes scenario_response) ->
    exists t1 d,
      In t1 scenario_leg1 /\ first_train r = Some t1 /\ departs t1 d /\
      departure_time r = minutes_to_hhmm d /\
      420 <= d <= 420 + 30.
Proof.
  assert (Hnow : valid_time scenario_now) by (unfold valid_time; cbn; lia).
  assert (Hrun : api_routes scenario_leg1 scenario_leg2 scenario_leg3 None scenario_now
                 = Ok scenario_response) by (vm_compute; reflexivity).
  split; [exact Hnow|]. split; [exact Hrun|].
  exact (proj1 (routes_within_window _ _ _ _ _ _ Hnow Hrun)).
Defined.

(** C3: in every answer each route is made of three trains, one per leg;
    the leg-2 train is the matcher's answer for the leg-1 arrival plus the
    5 minutes of 溜池山王 and leaves no earlier than that, the leg-3 train is
    the matcher's answer for the leg-2 arrival plus the 7 minutes of 新橋 and
    leaves no earlier than that; a leg-1 train for which either matcher call
    answers [None] is the first train of no returned route. *)
Theorem routes_respect_transfers (csv1 csv2 csv3 : list Train) (arg : option string)
    (now : datetime) (resp : Response)
    (Hrun : api_routes csv1 csv2 csv3 arg now = Ok resp) :
  getitem TRANSFER_MINUTES "溜池山王" = Ok 5 /\
  getitem TRANSFER_MINUTES "新橋" = Ok 7 /\
  (forall r, In r (routes resp) ->
     exists t1 t2 t3 a1 d2 a2 d3,
       legs_of r = [t1; t2; t3] /\
       In t1 csv1 /\ In t2 csv2 /\ In t3 csv3 /\
       arrives t1 a1 /\ departs t2 d2 /\ a1 + 5 <= d2 /\
       arrives t2 a2 /\ departs t3 d3 /\ a2 + 7 <= d3 /\
       find_next_train csv2 (a1 + 5) = Ok (Some t2) /\
       find_next_train csv3 (a2 + 7) = Ok (Some t3)) /\
  (forall t1 a1, arrives t1 a1 ->
     find_next_train csv2 (a1 + 5) = Ok None ->
     forall r, In r (routes resp) -> first_train r <> Some t1) /\
  (forall t1 a1 t2 a2, arrives t1 a1 ->
     find_next_train csv2 (a1 + 5) = Ok (Some t2) ->
     arrives t2 a2 ->
     find_next_train csv3 (a2 + 7) = Ok None ->
     forall r, In r (routes resp) -> first_train r <> Some t1).
Proof.
  split; [reflexivity|]. split; [reflexivity|].
  assert (Hin : forall r, In r (routes resp) ->
     exists t1 t2 t3 a1 d2 a2 d3,
       legs_of r = [t1; t2; t3] /\
       In t1 csv1 /\ In t2 csv2 /\ In t3 csv3 /\
       arrives t1 a1 /\ departs t2 d2 /\ a1 + 5 <= d2 /\
       arrives t2 a2 /\ departs t3 d3 /\ a2 + 7 <= d3 /\
       find_next_train csv2 (a1 + 5) = Ok (Some t2) /\
       find_next_train csv3 (a2 + 7) = Ok (Some t3)).
  { intros r Hr.
    destruct (routes_are_chains _ _ _ _ _ _ Hrun r Hr) as (t1 & Hin1 & Hchain).
    destruct Hchain as [t2 t3 d1 a1 a2 a3 Hd1 Hw Ha1 H2 Ha2 H3 Ha3 ->].
    cbn [trains tameike_shimbashi shimbashi_kamakura] in H2, H3.
    destruct (find_next_train_Some _ _ _ H2) as (Hin2 & d2 & Hd2 & Hle2).
    destruct (find_next_train_Some _ _ _ H3) as (Hin3 & d3 & Hd3 & Hle3).
    exists t1, t2, t3, a1, d2, a2, d3.
    split; [unfold legs_of; cbn [transfers map]; now rewrite !train_of_transfer|].
    repeat (split; [assumption|]). assumption. }
  split; [exact Hin|]. split.
  - intros t1 a1 Ha1 Hnone r Hr Hfirst.
    destruct (Hin r Hr) as (t1' & t2 & t3 & a1' & d2 & a2 & d3 & Hlegs & _ & _ & _
                            & Ha1' & _ & _ & _ & _ & _ & H2 & _).
    unfold first_train in Hfirst. rewrite Hlegs in Hfirst. cbn in Hfirst.
    injection Hfirst as ->. unfold arrives in *. congruence.
  - intros t1 a1 t2 a2 Ha1 Hsome Ha2 Hnone r Hr Hfirst.
    destruct (Hin r Hr) as (t1' & t2' & t3 & a1' & d2 & a2' & d3 & Hlegs & _ & _ & _
                            & Ha1' & _ & _ & Ha2' & _ & _ & H2 & H3).
    unfold first_train in Hfirst. rewrite Hlegs in Hfirst. cbn in Hfirst.
    injection Hfirst as ->. unfold arrives in *.
    assert (a1' = a1) by congruence. subst a1'.
    assert (t2' = t2) by congruence. subst t2'.
    assert (a2' = a2) by congruence. subst a2'. congruence.
Qed.

Lemma routes_respect_transfers_witness :
  api_routes scenario_leg1 scenario_leg2 scenario_leg3 None scenario_now
  = Ok scenario_response /\
  forall r, In r (routes scenario_response) ->
    exists t1 t2 t3 a1 d2 a2 d3,
      legs_of r = [t1; t2; t3] /\
      In t1 scenario_leg1 /\ In t2 scenario_leg2 /\ In t3 scenario_leg3 /\
      arrives t1 a1 /\ departs t2 d2 /\ a1 + 5 <= d2 /\
      arrives t2 a2 /\ departs t3 d3 /\ a2 + 7 <= d3 /\
      find_next_train scenario_leg2 (a1 + 5) = Ok (Some t2) /\
      find_next_train scenario_leg3 (a2 + 7) = Ok (Some t3).
Proof.
  assert (Hrun : api_routes scenario_leg1 scenario_leg2 scenario_leg3 None scenario_now
                 = Ok scenario_response) by (vm_compute; reflexivity).
  split; [exact Hrun|].
  exact (proj1 (proj2 (proj2 (routes_respect_transfers _ _ _ _ _ _ Hrun)))).
Defined.

(** ** Order of the answer *)

Lemma Sorted_strengthen {A : Type} (R R' : A -> A -> Prop) (P : A -> Prop) l :
  Forall P l ->
  (forall x y, P x -> P y -> R x y -> R' x y) ->
  (forall x y z, P x -> P y -> P z -> R' x y -> R' y z -> R' x z) ->
  Sorted R l -> StronglySorted R' l.
Proof.
  intros HP Hstep Htrans Hs. induction Hs as [|a l Hl IH Hhd]; [constructor|].
  inversion HP as [|? ? Pa Pl]; subst. specialize (IH Pl).
  constructor; [assumption|].
  destruct Hhd as [|b l' Hab]; [constructor|].
  inversion Pl as [|? ? Pb Pl']; subst.
  assert (Rab : R' a b) by auto. constructor; [assumption|].
  inversion IH as [|? ? _ Hall]; subst.
  rewrite Forall_forall in Hall, Pl' |- *. intros x Hx.
  apply (Htrans a b x); auto.
Qed.

Lemma key_le_minutes r r' :
  keyed_by_minute r -> keyed_by_minute r' -> key_le r r' -> leg1_no_later r r'.
Proof.
  intros (t & d & Ht & Hd & Hk & Hr) (t' & d' & Ht' & Hd' & Hk' & Hr') Hle.
  unfold key_le in Hle. rewrite Hk, Hk', leb_minutes_to_hhmm in Hle by assumption.
  apply Z.leb_le in Hle. exists t, t', d, d'. auto.
Qed.

Lemma leg1_no_later_trans r1 r2 r3 :
  keyed_by_minute r1 -> keyed_by_minute r2 -> keyed_by_minute r3 ->
  leg1_no_later r1 r2 -> leg1_no_later r2 r3 -> leg1_no_later r1 r3.
Proof.
  intros _ _ _ (t1 & t2 & d1 & d2 & Ht1 & Ht2 & Hd1 & Hd2 & H12)
         (t2' & t3 & d2' & d3 & Ht2' & Ht3 & Hd2' & Hd3 & H23).
  assert (t2' = t2) by congruence. subst t2'.
  rewrite (departs_fun _ _ _ Hd2' Hd2) in H23.
  exists t1, t3, d1, d3. repeat (split; [assumption|]). lia.
Qed.

Lemma hhmm_order s s' n n' :
  is_hhmm s = true -> is_hhmm s' = true ->
  parse_hhmm_to_minutes s = Ok n -> parse_hhmm_to_minutes s' = Ok n' ->
  String.leb s s' = (n <=? n').
Proof.
  intros Hs Hs' Hn Hn'.
  destruct (is_hhmm_shape s Hs) as (h & m & Hh & Hm & ->).
  destruct (is_hhmm_shape s' Hs') as (h' & m' & Hh' & Hm' & ->).
  rewrite parse_minutes_to_hhmm in Hn, Hn'.
  injection Hn as <-. injection Hn' as <-.
  apply leb_minutes_to_hhmm; lia.
Qed.

(** C4: the routes of an answer are the routes the loop found, every one
    of them and no other (a permutation), in non-decreasing order of their
    key [departure_time] under the lexicographic order of texts, routes of
    the same key in the order in which the loop found them; every key is
    the ["HH:MM"] text of the first train's departure, so the routes are
    also in non-decreasing order of that departure in minutes; and on any
    two ["HH:MM"] texts the lexicographic order is the order of the minutes
    they denote. *)
Theorem routes_sorted (csv1 csv2 csv3 : list Train) (arg : option string)
    (now : datetime) (resp : Response)
    (Hnow : valid_time now)
    (Hrun : api_routes csv1 csv2 csv3 arg now = Ok resp) :
  (exists found,
     collect_routes (ichigaya_tameike csv1) (tameike_shimbashi csv2)
       (shimbashi_kamakura csv3) (base_minutes_of now)
       (latest_minutes_of now (max_offset_minutes resp)) csv1 [] = Ok found /\
     Permutation (routes resp) found /\
     forall k,
       filter (fun r => String.eqb (departure_time r) k) (routes resp)
       = filter (fun r => String.eqb (departure_time r) k) found) /\
  Sorted key_le (routes resp) /\
  Forall (fun r => is_hhmm (departure_time r) = true /\ keyed_by_minute r)
    (routes resp) /\
  StronglySorted leg1_no_later (routes resp) /\
  (forall s s' n n',
     is_hhmm s = true -> is_hhmm s' = true ->
     parse_hhmm_to_minutes s = Ok n -> parse_hhmm_to_minutes s' = Ok n' ->
     String.leb s s' = (n <=? n')).
Proof.
  assert (Hfound : exists found,
             collect_routes (ichigaya_tameike csv1) (tameike_shimbashi csv2)
               (shimbashi_kamakura csv3) (base_minutes_of now)
               (latest_minutes_of now (max_offset_minutes resp)) csv1 [] = Ok found /\
             Permutation (routes resp) found /\
             forall k,
               filter (fun r => String.eqb (departure_time r) k) (routes resp)
               = filter (fun r => String.eqb (departure_time r) k) found).
  { destruct (api_routes_Ok_collect _ _ _ _ _ _ Hrun) as (off & rs & _ & Hrs & ->).
    cbn [routes max_offset_minutes]. exists rs. split; [exact Hrs|].
    split; [apply sort_by_departure_time_perm|].
    intros k. apply sort_by_departure_time_stable. }
  assert (Hsorted : Sorted key_le (routes resp)).
  { destruct (api_routes_Ok _ _ _ _ _ _ Hrun) as (off & _ & ->).
    apply sort_by_departure_time_sorted. }
  assert (Hkeys : Forall keyed_by_minute (routes resp)).
  { rewrite Forall_forall. intros r Hr.
    destruct (routes_are_chains _ _ _ _ _ _ Hrun r Hr) as (t1 & _ & Hchain).
    destruct (chain_departure_time _ _ _ _ _ _ _ Hchain) as (d & Hd & Hw & Hkey).
    pose proof (base_minutes_range now Hnow).
    pose proof (latest_minutes_range now (max_offset_minutes resp) Hnow).
    exists t1, d. split; [eapply chain_first_train; eassumption|].
    split; [assumption|]. split; [assumption | lia]. }
  split; [exact Hfound|]. split; [assumption|]. split; [|split].
  - eapply Forall_impl; [|exact Hkeys]. intros r Hk. split; [|assumption].
    destruct Hk as (t & d & _ & _ & -> & Hd). now apply minutes_to_hhmm_is_hhmm.
  - apply (Sorted_strengthen key_le leg1_no_later keyed_by_minute);
      [assumption | apply key_le_minutes | apply leg1_no_later_trans | assumption].
  - apply hhmm_order.
Qed.

Lemma routes_sorted_witness :
  valid_time scenario_now /\
  api_routes shuffled_leg1 scenario_leg2 scenario_leg3 None scenario_now
  = Ok two_routes_response /\
  map departure_time (routes two_routes_response) = ["07:00"%string; "07:05"%string] /\
  (exists found,
     collect_routes (ichigaya_tameike shuffled_leg1) (tameike_shimbashi scenario_leg2)
       (shimbashi_kamakura scenario_leg3) 420 450 shuffled_leg1 [] = Ok found /\
     map departure_time found = ["07:05"%string; "07:00"%string] /\
     Permutation (routes two_routes_response) found) /\
  Sorted key_le (routes two_routes_response) /\
  StronglySorted leg1_no_later (routes two_routes_response).
Proof.
  assert (Hnow : valid_time scenario_now) by (unfold valid_time; cbn; lia).
  assert (Hrun : api_routes shuffled_leg1 scenario_leg2 scenario_leg3 None scenario_now
                 = Ok two_routes_response) by (vm_compute; reflexivity).
  split; [exact Hnow|]. split; [exact Hrun|]. split; [reflexivity|].
  destruct (routes_sorted _ _ _ _ _ _ Hnow Hrun)
    as ((found & Hfound & Hperm & _) & H1 & _ & H2 & _).
  split; [|split; [exact H1 | exact H2]].
  exists found. split; [exact Hfound|]. split; [|exact Hperm].
  assert (Hloop : collect_routes (ichigaya_tameike shuffled_leg1)
            (tameike_shimbashi scenario_leg2) (shimbashi_kamakura scenario_leg3)
            (base_minutes_of scenario_now)
            (latest_minutes_of scenario_now (max_offset_minutes two_routes_response))
            shuffled_leg1 [] = Ok [second_route; scenario_route])
    by (vm_compute; reflexivity).
  rewrite Hloop in Hfound. injection Hfound as <-. reflexivity.
Defined.

(** ** One route per leg-1 train *)

Lemma candidate_routes_cases L1 L2 L3 base latest t1 :
  candidate_routes L1 L2 L3 base latest t1 = [] \/
  exists r, candidate_routes L1 L2 L3 base latest t1 = [r] /\
            chain L1 L2 L3 base latest t1 r.
Proof.
  unfold candidate_routes.
  destruct (route_of_candidate L1 L2 L3 base latest t1) as [[r|]|] eqn:E; auto.
  right. exists r. split; [reflexivity|]. now apply route_of_candidate_Some.
Qed.

Lemma candidate_routes_count L1 L2 L3 base latest ts t1 :
  (count_occ first_train_eq_dec
     (map first_train (flat_map (candidate_routes L1 L2 L3 base latest) ts)) (Some t1)
   <= count_occ Train_eq_dec ts t1)%nat.
Proof.
  induction ts as [|t ts IH]; cbn [flat_map]; [cbn; lia|].
  rewrite map_app, count_occ_app.
  destruct (candidate_routes_cases L1 L2 L3 base latest t) as [->|(r & -> & Hr)].
  - cbn [map count_occ]. destruct (Train_eq_dec t t1); lia.
  - cbn [map]. rewrite (chain_first_train _ _ _ _ _ _ _ Hr). cbn [count_occ].
    destruct (first_train_eq_dec (Some t) (Some t1)) as [E|N];
      destruct (Train_eq_dec t t1) as [E'|N']; try lia; congruence.
Qed.

Lemma candidate_routes_length L1 L2 L3 base latest ts :
  (List.length (flat_map (candidate_routes L1 L2 L3 base latest) ts) <= List.length ts)%nat.
Proof.
  induction ts as [|t ts IH]; cbn [flat_map]; [cbn; lia|].
  rewrite List.length_app. cbn [List.length].
  destruct (candidate_routes_cases L1 L2 L3 base latest t) as [->|(r & -> & _)];
    cbn [List.length]; lia.
Qed.

(** C5: an answer holds no more routes than leg 1 has trains; a train is
    the first train of at most as many routes as it has rows in the leg-1
    timetable, so of at most one when the rows are distinct; two routes of
    an answer with the same first train are the same route, its leg-2 and
    leg-3 trains being the single answers of the matcher. *)
Theorem one_route_per_first_train (csv1 csv2 csv3 : list Train) (arg : option string)
    (now : datetime) (resp : Response)
    (Hrun : api_routes csv1 csv2 csv3 arg now = Ok resp) :
  (List.length (routes resp) <= List.length csv1)%nat /\
  (forall t1,
     (count_occ first_train_eq_dec (map first_train (routes resp)) (Some t1)
      <= count_occ Train_eq_dec csv1 t1)%nat) /\
  (NoDup csv1 -> NoDup (map first_train (routes resp))) /\
  (forall r r', In r (routes resp) -> In r' (routes resp) ->
     first_train r = first_train r' -> r = r') /\
  (forall r, In r (routes resp) ->
     exists t1 t2 t3 a1 a2,
       legs_of r = [t1; t2; t3] /\ arrives t1 a1 /\ arrives t2 a2 /\
       find_next_train csv2 (a1 + 5) = Ok (Some t2) /\
       find_next_train csv3 (a2 + 7) = Ok (Some t3)).
Proof.
  destruct (api_routes_Ok _ _ _ _ _ _ Hrun) as (off & Hoff & Hresp).
  assert (Hperm : Permutation (routes resp)
            (found_routes csv1 csv2 csv3 (base_minutes_of now) (latest_minutes_of now off))).
  { subst resp. apply sort_by_departure_time_perm. }
  assert (Hcount : forall t1,
     (count_occ first_train_eq_dec (map first_train (routes resp)) (Some t1)
      <= count_occ Train_eq_dec csv1 t1)%nat).
  { intros t1.
    rewrite (proj1 (Permutation_count_occ first_train_eq_dec _ _)
               (Permutation_map first_train Hperm) (Some t1)).
    apply candidate_routes_count. }
  assert (Hchains : forall r, In r (routes resp) ->
     exists t1, chain (ichigaya_tameike csv1) (tameike_shimbashi csv2)
       (shimbashi_kamakura csv3) (base_minutes_of now) (latest_minutes_of now off) t1 r).
  { intros r Hr. destruct (routes_are_chains _ _ _ _ _ _ Hrun r Hr) as (t1 & _ & Hc).
    subst resp. eauto. }
  split; [|split; [exact Hcount|split; [|split]]].
  - rewrite (Permutation_length Hperm). apply candidate_routes_length.
  - intros Hnodup. apply (NoDup_count_occ first_train_eq_dec). intros [t1|].
    + specialize (Hcount t1).
      pose proof (proj1 (NoDup_count_occ Train_eq_dec csv1) Hnodup t1). lia.
    + replace (count_occ first_train_eq_dec (map first_train (routes resp)) None)
        with 0%nat; [lia|].
      symmetry. apply count_occ_not_In. rewrite in_map_iff. intros (r & Hnone & Hr).
      destruct (Hchains r Hr) as (t1 & Hc).
      rewrite (chain_first_train _ _ _ _ _ _ _ Hc) in Hnone. discriminate.
  - intros r r' Hr Hr' Hsame.
    destruct (Hchains r Hr) as (t1 & Hc), (Hchains r' Hr') as (t1' & Hc').
    rewrite (chain_first_train _ _ _ _ _ _ _ Hc),
            (chain_first_train _ _ _ _ _ _ _ Hc') in Hsame.
    injection Hsame as <-. eapply chain_fun; eassumption.
  - intros r Hr. destruct (Hchains r Hr) as (t1 & Hc).
    destruct Hc as [t2 t3 d1 a1 a2 a3 Hd1 Hw Ha1 H2 Ha2 H3 Ha3 ->].
    exists t1, t2, t3, a1, a2.
    split; [unfold legs_of; cbn [transfers map]; now rewrite !train_of_transfer|].
    auto.
Qed.

Lemma one_route_per_first_train_witness :
  api_routes scenario_leg1 scenario_leg2 scenario_leg3 None scenario_now
  = Ok scenario_response /\
  (List.length (routes scenario_response) <= List.length scenario_leg1)%nat /\
  forall r r', In r (routes scenario_response) -> In r' (routes scenario_response) ->
    first_train r = first_train r' -> r = r'.
Proof.
  assert (Hrun : api_routes scenario_leg1 scenario_leg2 scenario_leg3 None scenario_now
                 = Ok scenario_response) by (vm_compute; reflexivity).
  split; [exact Hrun|].
  destruct (one_route_per_first_train _ _ _ _ _ _ Hrun) as (H1 & _ & _ & H2 & _).
  split; [exact H1 | exact H2].
Defined.

(** ** The query parameter and the window at midnight *)



(** C10: when the minute of the day of [now] plus the effective offset
    reaches 1440, the upper bound of the window, taken from the wall clock of
    [now + max_offset], is that sum reduced modulo 1440 and lies strictly
    below the lower bound; no departure is inside such a window, and the
    handler, having read the leg-1 departures, answers with no route. *)
Theorem window_across_midnight (csv1 csv2 csv3 : list Train) (arg : option string)
    (now : datetime) (off : Z)
    (Hnow : valid_time now)
    (Hoff : effective_max_offset arg = Ok off)
    (Hcross : 1440 <= base_minutes_of now + off)
    (Hdeps : Forall departure_readable csv1) :
  latest_minutes_of now off = (base_minutes_of now + off) mod 1440 /\
  latest_minutes_of now off = base_minutes_of now + off - 1440 /\
  latest_minutes_of now off < base_minutes_of now /\
  (forall d, ~ (base_minutes_of now <= d <= latest_minutes_of now off)) /\
  api_routes csv1 csv2 csv3 arg now
  = Ok {| search_time_jst := strftime now;
          departure_base_jst := strftime now;
          max_offset_minutes := off;
          routes := [] |}.
Proof.
  pose proof (latest_minutes_wraps now off Hnow) as Hwrap.
  pose proof (base_minutes_range now Hnow) as Hbase.
  pose proof (effective_max_offset_range arg off Hoff) as Hrange.
  assert (Hlatest : latest_minutes_of now off = base_minutes_of now + off - 1440).
  { rewrite Hwrap. symmetry. apply Z.mod_unique with 1; lia. }
  split; [assumption|]. split; [assumption|]. split; [lia|]. split; [lia|].
  change (@nil Route) with (sort_by_departure_time []).
  apply api_routes_run; [assumption|].
  apply collect_routes_empty_window; [lia | assumption].
Qed.

Lemma window_across_midnight_witness :
  valid_time late_now /\
  effective_max_offset None = Ok 30 /\
  1440 <= base_minutes_of late_now + 30 /\
  Forall departure_readable late_leg1 /\
  latest_minutes_of late_now 30 = 15 /\
  api_routes late_leg1 scenario_leg2 scenario_leg3 None late_now
  = Ok {| search_time_jst := strftime late_now;
          departure_base_jst := strftime late_now;
          max_offset_minutes := 30;
          routes := [] |}.
Proof.
  assert (Hnow : valid_time late_now) by (unfold valid_time; cbn; lia).
  assert (Hoff : effective_max_offset None = Ok 30) by reflexivity.
  assert (Hcross : 1440 <= base_minutes_of late_now + 30) by (cbn; lia).
  assert (Hdeps : Forall departure_readable late_leg1)
    by (repeat constructor; eexists; reflexivity).
  split; [exact Hnow|]. split; [exact Hoff|]. split; [exact Hcross|].
  split; [exact Hdeps|].
  destruct (window_across_midnight late_leg1 scenario_leg2 scenario_leg3 None
              late_now 30 Hnow Hoff Hcross Hdeps) as (_ & Hlatest & _ & _ & Hrun).
  split; [exact Hlatest | exact Hrun].
Defined.

(** ** The worked scenario, checked *)

(** C6: on the scenario timetables, with the window from 07:00 to 07:30, the
    loop and the handler (at 07:00, offset 30, given or by default) return
    exactly one route: it leaves at 07:00, takes the 07:17 train on leg 2 and
    the 07:37 train on leg 3, arrives at 08:05 and lasts "65分". *)
Theorem scenario_single_route :
  parse_hhmm_to_minutes "07:00" = Ok 420 /\
  parse_hhmm_to_minutes "07:30" = Ok 450 /\
  collect_routes (ichigaya_tameike scenario_leg1) (tameike_shimbashi scenario_leg2)
    (shimbashi_kamakura scenario_leg3) 420 450 scenario_leg1 []
  = Ok [scenario_route] /\
  sort_by_departure_time [scenario_route] = [scenario_route] /\
  (forall y mo d,
     api_routes scenario_leg1 scenario_leg2 scenario_leg3 None (mkDatetime y mo d 7 0 0)
     = Ok {| search_time_jst := strftime (mkDatetime y mo d 7 0 0);
             departure_base_jst := strftime (mkDatetime y mo d 7 0 0);
             max_offset_minutes := 30;
             routes := [scenario_route] |}) /\
  (forall y mo d,
     api_routes scenario_leg1 scenario_leg2 scenario_leg3 (Some "30"%string)
       (mkDatetime y mo d 7 0 0)
     = Ok {| search_time_jst := strftime (mkDatetime y mo d 7 0 0);
             departure_base_jst := strftime (mkDatetime y mo d 7 0 0);
             max_offset_minutes := 30;
             routes := [scenario_route] |}) /\
  legs_of scenario_route
  = [mkTrain "07:00" "07:12"; mkTrain "07:17" "07:30"; mkTrain "07:37" "08:05"] /\
  arrival_time scenario_route = "08:05"%string /\
  total_duration scenario_route = "65分"%string.
Proof.
  assert (Hloop : collect_routes (ichigaya_tameike scenario_leg1)
            (tameike_shimbashi scenario_leg2) (shimbashi_kamakura scenario_leg3)
            420 450 scenario_leg1 [] = Ok [scenario_route])
    by (vm_compute; reflexivity).
  repeat split; try reflexivity; try exact Hloop; intros y mo d;
    change [scenario_route] with (sort_by_departure_time [scenario_route]);
    (apply api_routes_run; [reflexivity | exact Hloop]).
Qed.

(** * Further properties of the clock-text utilities *)

Lemma minutes_to_hhmm_inj n m : minutes_to_hhmm n = minutes_to_hhmm m -> n = m.
Proof.
  intros H. pose proof (parse_minutes_to_hhmm n) as Hn.
  rewrite H, parse_minutes_to_hhmm in Hn. congruence.
Qed.

Lemma parse_raises s e : parse_hhmm_to_minutes s = Raise e -> e = ValueError.
Proof.
  unfold parse_hhmm_to_minutes.
  destruct (Py.split ":" s) as [|hs [|ms [|x fs]]]; [congruence| | |];
    destruct (Py.int hs) as [h|e1] eqn:Hh; cbn [bind];
    try (intros [= <-]; now apply (int_raises hs)); try congruence;
    destruct (Py.int ms) as [m|e2] eqn:Hm; cbn [bind];
    try (intros [= <-]; now apply (int_raises ms)); congruence.
Qed.

Lemma split_fields_no_colon s :
  Forall (fun f => string_forallb not_colon f = true) (Py.split ":" s).
Proof.
  induction s as [|c s IH]; cbn [Py.split]; [repeat constructor|].
  destruct (Ascii.eqb c ":") eqn:E; [constructor; [reflexivity | assumption]|].
  destruct (Py.split ":" s) as [|f fs]; [repeat constructor; cbn; unfold not_colon; now rewrite E|].
  inversion IH as [|? ? Hf Hfs]; subst. constructor; [|assumption].
  cbn [string_forallb]. unfold not_colon at 1. now rewrite E, Hf.
Qed.

Lemma split_nonempty s : Py.split ":" s <> [].
Proof.
  destruct s as [|c s]; cbn [Py.split]; [discriminate|].
  destruct (Ascii.eqb c ":"); [discriminate|].
  destruct (Py.split ":" s); discriminate.
Qed.

(** Joining the fields with colons gives the text back. *)
Lemma split_join s : String.concat ":" (Py.split ":" s) = s.
Proof.
  induction s as [|c s IH]; cbn [Py.split]; [reflexivity|].
  pose proof (split_nonempty s) as Hne.
  destruct (Ascii.eqb_spec c ":") as [->|Hc].
  - cbn [String.concat]. destruct (Py.split ":" s) as [|f fs]; [congruence|].
    cbn [String.append]. now rewrite IH.
  - destruct (Py.split ":" s) as [|f fs]; [congruence|].
    destruct fs as [|g gs]; cbn [String.concat String.append] in *; now rewrite IH.
Qed.

(** X1: parsing undoes formatting on every integer, the negative ones and
    those beyond a day included; so two numbers are formatted alike only
    when they are equal. *)
Theorem minutes_to_hhmm_read_back (n m : Z) :
  parse_hhmm_to_minutes (minutes_to_hhmm n) = Ok n /\
  String.eqb (minutes_to_hhmm n) (minutes_to_hhmm m) = (n =? m).
Proof.
  split; [apply parse_minutes_to_hhmm|].
  destruct (Z.eqb_spec n m) as [->|Hne]; [apply String.eqb_refl|].
  apply String.eqb_neq. intros H. apply Hne. now apply minutes_to_hhmm_inj.
Qed.

(** X2: [minutes_to_hhmm] yields a text of the form ["HH:MM"] exactly on the
    minutes of one day, from 0 to 1439. *)
Theorem minutes_to_hhmm_day_form (n : Z) :
  is_hhmm (minutes_to_hhmm n) = (0 <=? n) && (n <? 1440).
Proof.
  destruct (Z.leb_spec 0 n) as [Hlo|Hlo]; destruct (Z.ltb_spec n 1440) as [Hhi|Hhi];
    cbn [andb]; try (apply minutes_to_hhmm_is_hhmm; lia);
    destruct (is_hhmm (minutes_to_hhmm n)) eqn:E; try reflexivity;
    destruct (is_hhmm_shape _ E) as (h & m & Hh & Hm & Heq);
    apply minutes_to_hhmm_inj in Heq; lia.
Qed.

(** X3: [parse_hhmm_to_minutes] returns exactly on a text made of two fields
    around a single colon, both accepted by [int], and then returns sixty
    times the first plus the second; on every other text it raises
    [ValueError].  The fields are read as [int] reads them: digits of any
    script, white space around them, a sign, single underscores between
    digits. *)
Theorem parse_hhmm_to_minutes_cases (s : string) :
  match parse_hhmm_to_minutes s with
  | Ok n =>
      exists hs ms h m,
        s = (hs ++ ":" ++ ms)%string /\
        string_forallb not_colon hs = true /\
        string_forallb not_colon ms = true /\
        Py.int hs = Ok h /\ Py.int ms = Ok m /\
        n = h * 60 + m
  | Raise e =>
      e = ValueError /\
      forall hs ms,
        s = (hs ++ ":" ++ ms)%string ->
        string_forallb not_colon hs = true ->
        string_forallb not_colon ms = true ->
        Py.int hs = Raise ValueError \/ Py.int ms = Raise ValueError
  end.
Proof.
  destruct (parse_hhmm_to_minutes s) as [n|e] eqn:Hp.
  - unfold parse_hhmm_to_minutes in Hp.
    pose proof (split_join s) as Hjoin. pose proof (split_fields_no_colon s) as Hnc.
    destruct (Py.split ":" s) as [|hs [|ms [|x fs]]]; try discriminate.
    + bind_inv Hp. discriminate.
    + bind_inv Hp. rename x into h, Hx into Hh. bind_inv Hp. rename x into m, Hx into Hm.
      injection Hp as <-. inversion Hnc as [|? ? Hhs Hrest]; subst.
      inversion Hrest as [|? ? Hms _]; subst.
      exists hs, ms, h, m. repeat split; try assumption; reflexivity.
    + bind_inv Hp. bind_inv Hp. discriminate.
  - split; [now apply (parse_raises s)|].
    intros hs ms -> Hhs Hms. unfold parse_hhmm_to_minutes in Hp.
    change (":" ++ ms)%string with (String ":" ms) in Hp.
    rewrite split_at_colon, split_single in Hp by assumption.
    destruct (Py.int hs) as [h|e1] eqn:Hh.
    + destruct (Py.int ms) as [m|e2] eqn:Hm; [discriminate|].
      right. now rewrite (int_raises _ _ Hm).
    + left. now rewrite (int_raises _ _ Hh).
Qed.

Lemma parse_hhmm_to_minutes_cases_witness :
  parse_hhmm_to_minutes "07-05" = Raise ValueError /\
  parse_hhmm_to_minutes (String (ascii_of_N 0x1C) "7:05") = Raise ValueError /\
  parse_hhmm_to_minutes "7:5" = Ok 425 /\
  parse_hhmm_to_minutes "０７:０５" = Ok 425 /\
  exists hs ms h m,
    "０７:０５"%string = (hs ++ ":" ++ ms)%string /\
    Py.int hs = Ok h /\ Py.int ms = Ok m /\ 425 = h * 60 + m.
Proof.
  split; [reflexivity|]. split; [reflexivity|]. split; [reflexivity|].
  split; [reflexivity|].
  pose proof (parse_hhmm_to_minutes_cases "０７:０５") as H.
  change (parse_hhmm_to_minutes "０７:０５") with (Ok 425 : result Z) in H.
  destruct H as (hs & ms & h & m & Hs & _ & _ & Hh & Hm & Hn).
  exists hs, ms, h, m. auto.
Defined.

(** * Further properties of the matcher *)

Lemma find_next_step_ok e st t st' :
  state_ok st -> find_next_step e st t = Ok st' -> state_ok st'.
Proof.
  unfold find_next_step. intros Hst H. bind_inv H.
  destruct st as [[c|] [cd|]]; cbn [state_ok fst snd] in *; try contradiction;
    destruct (x >=? e); try destruct (x <? cd); injection H as <-; exact I.
Qed.





Lemma find_next_loop_map (g : Train -> Train) e ts :
  (forall t, departure (g t) = departure t) ->
  forall st,
    find_next_loop e (map g ts) (map_state g st)
    = match find_next_loop e ts st with
      | Ok st' => Ok (map_state g st')
      | Raise x => Raise x
      end.
Proof.
  intros Hg. induction ts as [|t ts IH]; intros st; cbn [map find_next_loop];
    [reflexivity|].
  assert (Hstep : find_next_step e (map_state g st) (g t)
                  = match find_next_step e st t with
                    | Ok st' => Ok (map_state g st')
                    | Raise x => Raise x
                    end).
  { unfold find_next_step. rewrite Hg.
    destruct (parse_hhmm_to_minutes (departure t)) as [d|x]; cbn [bind]; [|reflexivity].
    destruct st as [[c|] [cd|]]; cbn [map_state option_map fst snd];
      destruct (d >=? e); try destruct (d <? cd); reflexivity. }
  rewrite Hstep. destruct (find_next_step e st t) as [st1|x]; cbn [bind]; [|reflexivity].
  apply IH.
Qed.

(** X5: the matcher looks at departures only: rewriting the rows by any [g]
    that keeps every departure text rewrites the answer by [g] and changes
    nothing else. *)
Theorem find_next_train_departures_only (g : Train -> Train) (ts : list Train) (e : Z)
    (Hg : forall t, departure (g t) = departure t) :
  find_next_train (map g ts) e
  = match find_next_train ts e with
    | Ok found => Ok (option_map g found)
    | Raise x => Raise x
    end.
Proof.
  unfold find_next_train.
  pose proof (find_next_loop_map g e ts Hg (None, None)) as H.
  change (map_state g (None, None)) with (@None Train, @None Z) in H.
  rewrite H. destruct (find_next_loop e ts (None, None)) as [st|x]; reflexivity.
Qed.

Lemma find_next_train_departures_only_witness :
  (forall t, departure (mkTrain (departure t) "") = departure t) /\
  find_next_train (map (fun t => mkTrain (departure t) "") tied_trains) 437
  = Ok (Some (mkTrain "07:17" "")).
Proof.
  assert (Hg : forall t, departure (mkTrain (departure t) "") = departure t)
    by (intros t; reflexivity).
  split; [exact Hg|].
  rewrite (find_next_train_departures_only (fun t => mkTrain (departure t) "")
             tied_trains 437 Hg).
  reflexivity.
Defined.

Lemma first_occurrence_unique {A : Type} (P : A -> Prop) (p p' q q' : list A) x x' :
  p ++ x :: q = p' ++ x' :: q' ->
  P x -> P x' ->
  (forall y, In y p -> ~ P y) -> (forall y, In y p' -> ~ P y) ->
  p = p' /\ x = x' /\ q = q'.
Proof.
  revert p'. induction p as [|a p IH]; intros [|a' p'] Heq Px Px' Hp Hp';
    cbn [app] in Heq; injection Heq as Ha Hrest.
  - subst. auto.
  - exfalso. apply (Hp' a'); [now left | now rewrite <- Ha].
  - exfalso. apply (Hp a); [now left | now rewrite Ha].
  - subst a'. destruct (IH p' Hrest Px Px') as (-> & -> & ->).
    + intros y Hy. apply Hp. now right.
    + intros y Hy. apply Hp'. now right.
    + auto.
Qed.

Lemma earliest_in_fun e ts c cd c' cd' :
  earliest_in e ts c cd -> earliest_in e ts c' cd' -> c = c' /\ cd = cd'.
Proof.
  intros H H'.
  assert (Hcd : cd = cd').
  { destruct (earliest_in_least _ _ _ _ H) as (Hin & Hc & Hle & Hmin).
    destruct (earliest_in_least _ _ _ _ H') as (Hin' & Hc' & Hle' & Hmin').
    pose proof (Hmin c' cd' Hin' Hc' Hle'). pose proof (Hmin' c cd Hin Hc Hle). lia. }
  subst cd'. split; [|reflexivity].
  destruct H as (pre & post & -> & Hc & Hle & Hpre & _).
  destruct H' as (pre' & post' & Heq & Hc' & _ & Hpre' & _).
  destruct (first_occurrence_unique (fun t => departs t cd) _ _ _ _ _ _ Heq Hc Hc')
    as (_ & Hx & _); [| |now symmetry].
  - intros y Hy Hd. specialize (Hpre y cd Hy Hd Hle). lia.
  - intros y Hy Hd. specialize (Hpre' y cd Hy Hd Hle). lia.
Qed.

Lemma earliest_in_raise_bound e e' ts c cd :
  earliest_in e ts c cd -> e <= e' <= cd -> earliest_in e' ts c cd.
Proof.
  intros (pre & post & -> & Hc & Hle & Hpre & Hpost) He.
  exists pre, post. split; [reflexivity|]. split; [assumption|]. split; [lia|].
  split; intros t d Hin Hd Hed; [apply (Hpre t d) | apply (Hpost t d)];
    auto; lia.
Qed.

(** X6: the answer for a bound stays the answer for every later bound up to
    its own departure; in particular asking again from the departure found
    gives the same train. *)
Theorem find_next_train_bound_stable (ts : list Train) (e e' : Z) (c : Train) (cd : Z)
    (Hrun : find_next_train ts e = Ok (Some c))
    (Hc : departs c cd)
    (He : e <= e' <= cd) :
  find_next_train ts e' = Ok (Some c).
Proof.
  destruct (find_next_train_sound _ _ _ Hrun) as (Hts & cd0 & Hspec).
  assert (cd0 = cd).
  { destruct (earliest_in_least _ _ _ _ Hspec) as (_ & Hc0 & _).
    exact (departs_fun _ _ _ Hc0 Hc). }
  subst cd0. pose proof (earliest_in_raise_bound _ _ _ _ _ Hspec He) as Hspec'.
  destruct (find_next_train_spec ts e' Hts) as (found' & Hrun' & Hfound').
  rewrite Hrun'. destruct found' as [c'|]; cbn [next_train_spec] in Hfound'.
  - destruct Hfound' as (cd' & Hc').
    destruct (earliest_in_fun _ _ _ _ _ _ Hspec' Hc') as [-> _]. reflexivity.
  - destruct (earliest_in_least _ _ _ _ Hspec') as (Hin & Hd & Hle & _).
    specialize (Hfound' c cd Hin Hd). lia.
Qed.

Lemma find_next_train_bound_stable_witness :
  find_next_train tied_trains 400 = Ok (Some (mkTrain "07:17" "07:30")) /\
  departs (mkTrain "07:17" "07:30") 437 /\
  400 <= 437 <= 437 /\
  find_next_train tied_trains 437 = Ok (Some (mkTrain "07:17" "07:30")).
Proof.
  assert (Hrun : find_next_train tied_trains 400 = Ok (Some (mkTrain "07:17" "07:30")))
    by reflexivity.
  assert (Hc : departs (mkTrain "07:17" "07:30") 437) by reflexivity.
  assert (He : 400 <= 437 <= 437) by lia.
  split; [exact Hrun|]. split; [exact Hc|]. split; [exact He|].
  exact (find_next_train_bound_stable tied_trains 400 437 _ 437 Hrun Hc He).
Defined.

(** X7: raising the bound never brings the answer forward: when the matcher
    returns for a bound it returns for every later bound, with a train that
    leaves no earlier, or with [None]; and [None] stays [None]. *)
Theorem find_next_train_monotone (ts : list Train) (e e' : Z) (found : option Train)
    (Hrun : find_next_train ts e = Ok found)
    (He : e <= e') :
  exists found',
    find_next_train ts e' = Ok found' /\
    match found, found' with
    | Some c, Some c' => exists cd cd', departs c cd /\ departs c' cd' /\ cd <= cd'
    | None, Some _ => False
    | _, None => True
    end.
Proof.
  destruct (find_next_train_sound _ _ _ Hrun) as (Hts & Hspec).
  destruct (find_next_train_spec ts e' Hts) as (found' & Hrun' & Hspec').
  exists found'. split; [assumption|].
  destruct found' as [c'|]; [|destruct found; exact I].
  destruct Hspec' as (cd' & Hc').
  destruct (earliest_in_least _ _ _ _ Hc') as (Hin' & Hd' & Hle' & _).
  destruct found as [c|]; cbn [next_train_spec] in Hspec.
  - destruct Hspec as (cd & Hc).
    destruct (earliest_in_least _ _ _ _ Hc) as (_ & Hd & _ & Hmin).
    exists cd, cd'. split; [assumption|]. split; [assumption|].
    apply (Hmin c' cd'); auto; lia.
  - specialize (Hspec c' cd' Hin' Hd'). lia.
Qed.

Lemma find_next_train_monotone_witness :
  find_next_train tied_trains 400 = Ok (Some (mkTrain "07:17" "07:30")) /\
  400 <= 450 /\
  exists found',
    find_next_train tied_trains 450 = Ok found' /\
    match found' with
    | Some c' =>
        exists cd cd', departs (mkTrain "07:17" "07:30") cd /\ departs c' cd' /\ cd <= cd'
    | None => True
    end.
Proof.
  assert (Hrun : find_next_train tied_trains 400 = Ok (Some (mkTrain "07:17" "07:30")))
    by reflexivity.
  assert (He : 400 <= 450) by lia.
  split; [exact Hrun|]. split; [exact He|].
  exact (find_next_train_monotone tied_trains 400 450 _ Hrun He).
Defined.

Lemma find_next_loop_app e l1 l2 :
  forall st,
    find_next_loop e (l1 ++ l2) st
    = (st1 <- find_next_loop e l1 st ;; find_next_loop e l2 st1).
Proof.
  induction l1 as [|t l1 IH]; intros st; [reflexivity|].
  rewrite <- app_comm_cons. cbn [find_next_loop].
  destruct (find_next_step e st t) as [st1|x]; cbn [bind]; [apply IH | reflexivity].
Qed.

Lemma find_next_step_merge e c1 d1 st t :
  state_ok st ->
  find_next_step e (merge_state c1 d1 st) t
  = match find_next_step e st t with
    | Ok st' => Ok (merge_state c1 d1 st')
    | Raise x => Raise x
    end.
Proof.
  intros Hst. unfold find_next_step.
  destruct (parse_hhmm_to_minutes (departure t)) as [d|x]; cbn [bind]; [|reflexivity].
  destruct st as [[c2|] [d2|]]; cbn [state_ok] in Hst; try contradiction;
    cbn [merge_state fst snd].
  - destruct (Z.geb_spec d e); cbn [merge_state]; [|reflexivity].
    destruct (Z.ltb_spec d2 d1); cbn [fst snd];
      destruct (Z.ltb_spec d d2); cbn [merge_state];
      repeat match goal with
             | |- context [?a <? ?b] => destruct (Z.ltb_spec a b)
             end; try reflexivity; lia.
  - destruct (Z.geb_spec d e); cbn [merge_state]; [|reflexivity].
    destruct (Z.ltb_spec d d1); reflexivity.
Qed.

Lemma find_next_loop_merge e c1 d1 l :
  forall st, state_ok st ->
    find_next_loop e l (merge_state c1 d1 st)
    = match find_next_loop e l st with
      | Ok st' => Ok (merge_state c1 d1 st')
      | Raise x => Raise x
      end.
Proof.
  induction l as [|t l IH]; intros st Hst; cbn [find_next_loop]; [reflexivity|].
  rewrite find_next_step_merge by assumption.
  destruct (find_next_step e st t) as [st1|x] eqn:Hstep; cbn [bind]; [|reflexivity].
  apply IH. eapply find_next_step_ok; eassumption.
Qed.

Lemma find_next_loop_state e ts st :
  find_next_loop e ts (None, None) = Ok st ->
  match st with
  | (None, None) => True
  | (Some c, Some cd) => departs c cd
  | _ => False
  end.
Proof.
  intros H.
  destruct (find_next_loop_scanned e ts (find_next_loop_readable _ _ _ _ H) []
              (None, None)) as (st' & Hrun & Hst').
  { intros t d []. }
  assert (st' = st) by congruence. subst st'.
  destruct st as [[c|] [cd|]]; cbn [scanned] in Hst'; try contradiction; [|exact I].
  now destruct (earliest_in_least _ _ _ _ Hst') as (_ & Hc & _).
Qed.

(** X8: the answer over two timetables put end to end is the earlier of the
    two answers, the one of the first timetable on a tie; a [None] answer
    gives way to the other one, and an unreadable row of either part raises. *)
Theorem find_next_train_app (l1 l2 : list Train) (e : Z) :
  find_next_train (l1 ++ l2) e
  = match find_next_train l1 e with
    | Raise x => Raise x
    | Ok f1 =>
        match find_next_train l2 e with
        | Raise x => Raise x
        | Ok f2 => Ok (earlier_of f1 f2)
        end
    end.
Proof.
  unfold find_next_train. rewrite find_next_loop_app.
  destruct (find_next_loop e l1 (None, None)) as [st1|x] eqn:H1; cbn [bind];
    [|reflexivity].
  pose proof (find_next_loop_state _ _ _ H1) as Hst1.
  destruct st1 as [[c1|] [d1|]]; try contradiction; cbn [fst].
  - change (Some c1, Some d1) with (merge_state c1 d1 (None, None)).
    rewrite find_next_loop_merge by exact I.
    destruct (find_next_loop e l2 (None, None)) as [st2|x] eqn:H2; cbn [bind];
      [|reflexivity].
    pose proof (find_next_loop_state _ _ _ H2) as Hst2.
    destruct st2 as [[c2|] [d2|]]; try contradiction;
      cbn [merge_state fst earlier_of]; [|reflexivity].
    unfold departs in Hst1, Hst2. rewrite Hst1, Hst2.
    destruct (d2 <? d1); reflexivity.
  - destruct (find_next_loop e l2 (None, None)) as [st2|x]; reflexivity.
Qed.

(** X9: on a timetable whose departures ascend, the answer is the first row
    that leaves at or after the bound: every row before it leaves before the
    bound and every row after it leaves at or after the bound. *)
Theorem find_next_train_first_from (ts : list Train) (e : Z) (c : Train)
    (Hasc : ascending ts)
    (Hrun : find_next_train ts e = Ok (Some c)) :
  exists pre post,
    ts = pre ++ c :: post /\
    (forall t d, In t pre -> departs t d -> d < e) /\
    (forall t d, In t post -> departs t d -> e <= d).
Proof.
  destruct (find_next_train_sound _ _ _ Hrun) as (Hts & cd & Hspec).
  destruct Hspec as (pre & post & -> & Hc & Hle & Hpre & Hpost).
  exists pre, post. split; [reflexivity|].
  unfold ascending in Hasc.
  assert (Hmid : StronglySorted
            (fun t t' => forall d d', departs t d -> departs t' d' -> d <= d')
            (c :: post) /\
          forall t, In t pre -> forall d, departs t d -> d <= cd).
  { clear Hpre Hpost Hts Hrun. induction pre as [|a pre IH]; cbn [app] in Hasc.
    - split; [assumption | intros t []].
    - inversion Hasc as [|? ? Hrest Hall]; subst. destruct (IH Hrest) as (Hs & Hp).
      split; [assumption|]. intros t [<-|Hin] d Hd; [|eauto].
      rewrite Forall_forall in Hall.
      apply (Hall c); [apply in_or_app; right; now left | assumption | assumption]. }
  destruct Hmid as (Hs & Hbefore). split.
  - intros t d Hin Hd. destruct (Z.lt_ge_cases d e) as [|Hge]; [assumption|].
    specialize (Hpre t d Hin Hd Hge). specialize (Hbefore t Hin d Hd). lia.
  - intros t d Hin Hd. inversion Hs as [|? ? _ Hall]; subst.
    rewrite Forall_forall in Hall. specialize (Hall t Hin cd d Hc Hd). lia.
Qed.

Lemma find_next_train_first_from_witness :
  ascending scenario_leg2 /\
  find_next_train scenario_leg2 450 = Ok (Some (mkTrain "07:40" "07:55")) /\
  exists pre post,
    scenario_leg2 = pre ++ mkTrain "07:40" "07:55" :: post /\
    (forall t d, In t pre -> departs t d -> d < 450) /\
    (forall t d, In t post -> departs t d -> 450 <= d).
Proof.
  assert (Hasc : ascending scenario_leg2).
  { unfold ascending, scenario_leg2. repeat constructor.
    unfold departs. cbn. intros d d' [= <-] [= <-]. lia. }
  assert (Hrun : find_next_train scenario_leg2 450 = Ok (Some (mkTrain "07:40" "07:55")))
    by reflexivity.
  split; [exact Hasc|]. split; [exact Hrun|].
  exact (find_next_train_first_from scenario_leg2 450 _ Hasc Hrun).
Defined.

(** * Further properties of the handler *)






Lemma chain_route_of_candidate L1 L2 L3 base latest t1 r :
  chain L1 L2 L3 base latest t1 r ->
  route_of_candidate L1 L2 L3 base latest t1 = Ok (Some r).
Proof.
  intros [t2 t3 d1 a1 a2 a3 Hd1 Hw Ha1 H2 Ha2 H3 Ha3 ->].
  destruct (find_next_train_Some _ _ _ H2) as (_ & d2 & Hd2 & _).
  destruct (find_next_train_Some _ _ _ H3) as (_ & d3 & Hd3 & _).
  unfold route_of_candidate. unfold departs, arrives in *.
  rewrite Hd1. cbn [bind].
  destruct (Z.ltb_spec d1 base); [lia|]. destruct (Z.gtb_spec d1 latest); [lia|].
  cbn [orb]. rewrite Ha1, transfer_tameike. cbn [bind]. rewrite H2. cbn [bind].
  rewrite Hd2, Ha2, transfer_shimbashi. cbn [bind]. rewrite H3. cbn [bind].
  rewrite Hd3, Ha3. reflexivity.
Qed.

Lemma chain_in_found csv1 csv2 csv3 base latest t1 r :
  In t1 csv1 ->
  chain (ichigaya_tameike csv1) (tameike_shimbashi csv2) (shimbashi_kamakura csv3)
    base latest t1 r ->
  In r (found_routes csv1 csv2 csv3 base latest).
Proof.
  intros Hin Hc. unfold found_routes. apply in_flat_map. exists t1.
  split; [assumption|]. unfold candidate_routes.
  rewrite (chain_route_of_candidate _ _ _ _ _ _ _ Hc). now left.
Qed.

(** X11: the answer holds exactly the chains of the leg-1 rows: a route is
    returned if and only if some leg-1 row leaves inside the window and the
    matcher finds its leg-2 and leg-3 trains; no such row is left out. *)
Theorem routes_exactly_chains (csv1 csv2 csv3 : list Train) (arg : option string)
    (now : datetime) (resp : Response) (r : Route)
    (Hrun : api_routes csv1 csv2 csv3 arg now = Ok resp) :
  In r (routes resp) <->
  exists t1,
    In t1 csv1 /\
    chain (ichigaya_tameike csv1) (tameike_shimbashi csv2) (shimbashi_kamakura csv3)
      (base_minutes_of now) (latest_minutes_of now (max_offset_minutes resp)) t1 r.
Proof.
  split; [apply (routes_are_chains _ _ _ _ _ _ Hrun)|].
  intros (t1 & Hin & Hc).
  destruct (api_routes_Ok _ _ _ _ _ _ Hrun) as (off & _ & ->).
  cbn [routes max_offset_minutes] in *.
  apply (Permutation_in _ (Permutation_sym (sort_by_departure_time_perm _))).
  now apply chain_in_found with (t1 := t1).
Qed.

Lemma routes_exactly_chains_witness :
  api_routes scenario_leg1 scenario_leg2 scenario_leg3 None scenario_now
  = Ok scenario_response /\
  (In scenario_route (routes scenario_response) <->
   exists t1,
     In t1 scenario_leg1 /\
     chain (ichigaya_tameike scenario_leg1) (tameike_shimbashi scenario_leg2)
       (shimbashi_kamakura scenario_leg3) 420 450 t1 scenario_route).
Proof.
  assert (Hrun : api_routes scenario_leg1 scenario_leg2 scenario_leg3 None scenario_now
                 = Ok scenario_response) by (vm_compute; reflexivity).
  split; [exact Hrun|].
  exact (routes_exactly_chains _ _ _ _ _ _ scenario_route Hrun).
Defined.

(** X12: every returned route has the same shape: the fare placeholder,
    three transfer records naming 市ヶ谷 → 溜池山王 → 新橋 → 鎌倉 with their
    lines, the departure of its first train and the arrival of its third
    train as clock texts, and as duration the decimal text of their
    difference in minutes followed by 分. *)
Theorem route_record_shape (csv1 csv2 csv3 : list Train) (arg : option string)
    (now : datetime) (resp : Response) (r : Route)
    (Hrun : api_routes csv1 csv2 csv3 arg now = Ok resp)
    (Hr : In r (routes resp)) :
  fare r = "（料金未設定）"%string /\
  map tr_from (transfers r) = ["市ヶ谷"; "溜池山王"; "新橋"]%string /\
  map tr_to (transfers r) = ["溜池山王"; "新橋"; "鎌倉"]%string /\
  map tr_line (transfers r) = ["有楽町線→南北線"; "銀座線"; "横須賀線"]%string /\
  exists t1 t2 t3 d1 a3,
    legs_of r = [t1; t2; t3] /\
    departs t1 d1 /\ arrives t3 a3 /\
    departure_time r = minutes_to_hhmm d1 /\
    arrival_time r = minutes_to_hhmm a3 /\
    total_duration r = (Py.str (a3 - d1) ++ "分")%string.
Proof.
  destruct (routes_are_chains _ _ _ _ _ _ Hrun r Hr) as (t1 & _ & Hc).
  destruct Hc as [t2 t3 d1 a1 a2 a3 Hd1 Hw Ha1 H2 Ha2 H3 Ha3 ->].
  repeat (split; [reflexivity|]).
  exists t1, t2, t3, d1, a3.
  split; [unfold legs_of; cbn [transfers map]; now rewrite !train_of_transfer|].
  auto.
Qed.

Lemma route_record_shape_witness :
  api_routes scenario_leg1 scenario_leg2 scenario_leg3 None scenario_now
  = Ok scenario_response /\
  In scenario_route (routes scenario_response) /\
  fare scenario_route = "（料金未設定）"%string /\
  map tr_to (transfers scenario_route) = ["溜池山王"; "新橋"; "鎌倉"]%string.
Proof.
  assert (Hrun : api_routes scenario_leg1 scenario_leg2 scenario_leg3 None scenario_now
                 = Ok scenario_response) by (vm_compute; reflexivity).
  assert (Hr : In scenario_route (routes scenario_response)) by (left; reflexivity).
  split; [exact Hrun|]. split; [exact Hr|].
  destruct (route_record_shape _ _ _ _ _ _ _ Hrun Hr) as (H1 & _ & H2 & _).
  split; [exact H1 | exact H2].
Defined.

(** X13: when no train of the three timetables arrives before it leaves,
    every returned route lasts at least the two transfer buffers, twelve
    minutes: its duration is never negative. *)
Theorem route_duration_at_least_buffers (csv1 csv2 csv3 : list Train)
    (arg : option string) (now : datetime) (resp : Response) (r : Route)
    (Hsane : forall t d a, In t (csv1 ++ csv2 ++ csv3) ->
                           departs t d -> arrives t a -> d <= a)
    (Hrun : api_routes csv1 csv2 csv3 arg now = Ok resp)
    (Hr : In r (routes resp)) :
  exists d1 a3,
    departure_time r = minutes_to_hhmm d1 /\
    arrival_time r = minutes_to_hhmm a3 /\
    total_duration r = (Py.str (a3 - d1) ++ "分")%string /\
    12 <= a3 - d1.
Proof.
  destruct (routes_are_chains _ _ _ _ _ _ Hrun r Hr) as (t1 & Hin1 & Hc).
  destruct Hc as [t2 t3 d1 a1 a2 a3 Hd1 Hw Ha1 H2 Ha2 H3 Ha3 ->].
  cbn [trains tameike_shimbashi shimbashi_kamakura] in H2, H3.
  destruct (find_next_train_Some _ _ _ H2) as (Hin2 & d2 & Hd2 & Hle2).
  destruct (find_next_train_Some _ _ _ H3) as (Hin3 & d3 & Hd3 & Hle3).
  exists d1, a3. repeat (split; [reflexivity|]).
  assert (d1 <= a1) by (apply (Hsane t1); auto; apply in_or_app; now left).
  assert (d2 <= a2)
    by (apply (Hsane t2); auto; apply in_or_app; right; apply in_or_app; now left).
  assert (d3 <= a3)
    by (apply (Hsane t3); auto; apply in_or_app; right; apply in_or_app; now right).
  lia.
Qed.

Lemma route_duration_at_least_buffers_witness :
  (forall t d a, In t (scenario_leg1 ++ scenario_leg2 ++ scenario_leg3) ->
                 departs t d -> arrives t a -> d <= a) /\
  api_routes scenario_leg1 scenario_leg2 scenario_leg3 None scenario_now
  = Ok scenario_response /\
  exists d1 a3,
    total_duration scenario_route = (Py.str (a3 - d1) ++ "分")%string /\
    12 <= a3 - d1.
Proof.
  assert (Hsane : forall t d a, In t (scenario_leg1 ++ scenario_leg2 ++ scenario_leg3) ->
                                departs t d -> arrives t a -> d <= a).
  { intros t d a Hin. unfold departs, arrives. cbn in Hin.
    repeat (destruct Hin as [<-|Hin]; [cbn; intros [= <-] [= <-]; lia|]).
    destruct Hin. }
  assert (Hrun : api_routes scenario_leg1 scenario_leg2 scenario_leg3 None scenario_now
                 = Ok scenario_response) by (vm_compute; reflexivity).
  assert (Hr : In scenario_route (routes scenario_response)) by (left; reflexivity).
  split; [exact Hsane|]. split; [exact Hrun|].
  destruct (route_duration_at_least_buffers _ _ _ _ _ _ _ Hsane Hrun Hr)
    as (d1 & a3 & _ & _ & Hdur & Hle).
  exists d1, a3. split; [exact Hdur | exact Hle].
Defined.

Lemma chain_widen L1 L2 L3 base latest latest' t1 r :
  chain L1 L2 L3 base latest t1 r -> latest <= latest' ->
  chain L1 L2 L3 base latest' t1 r.
Proof.
  intros [t2 t3 d1 a1 a2 a3 Hd1 Hw Ha1 H2 Ha2 H3 Ha3 Hr] Hle.
  apply (mkChain L1 L2 L3 base latest' t1 r t2 t3 d1 a1 a2 a3); auto. lia.
Qed.

(** X14: as long as the window stays inside the day, a larger offset only
    adds routes: every route returned for an offset is returned for every
    larger one. *)
Theorem routes_grow_with_offset (csv1 csv2 csv3 : list Train) (arg arg' : option string)
    (now : datetime) (resp resp' : Response)
    (Hnow : valid_time now)
    (Hrun : api_routes csv1 csv2 csv3 arg now = Ok resp)
    (Hrun' : api_routes csv1 csv2 csv3 arg' now = Ok resp')
    (Hle : max_offset_minutes resp <= max_offset_minutes resp')
    (Hday : base_minutes_of now + max_offset_minutes resp' < 1440) :
  incl (routes resp) (routes resp').
Proof.
  intros r Hr.
  apply (routes_exactly_chains _ _ _ _ _ _ r Hrun').
  destruct (routes_are_chains _ _ _ _ _ _ Hrun r Hr) as (t1 & Hin & Hc).
  exists t1. split; [assumption|]. eapply chain_widen; [exact Hc|].
  pose proof (base_minutes_range now Hnow) as Hb.
  assert (Hoff : 0 <= max_offset_minutes resp).
  { destruct (api_routes_Ok _ _ _ _ _ _ Hrun) as (off & Hoff & ->).
    apply effective_max_offset_range in Hoff. cbn. lia. }
  rewrite !latest_minutes_wraps by assumption.
  rewrite !Z.mod_small by lia. lia.
Qed.

Lemma routes_grow_with_offset_witness :
  valid_time scenario_now /\
  (exists resp resp',
     api_routes scenario_leg1 scenario_leg2 scenario_leg3 (Some "0"%string) scenario_now
     = Ok resp /\
     api_routes scenario_leg1 scenario_leg2 scenario_leg3 (Some "45"%string) scenario_now
     = Ok resp' /\
     max_offset_minutes resp <= max_offset_minutes resp' /\
     base_minutes_of scenario_now + max_offset_minutes resp' < 1440 /\
     incl (routes resp) (routes resp')).
Proof.
  assert (Hnow : valid_time scenario_now) by (unfold valid_time; cbn; lia).
  split; [exact Hnow|].
  destruct (api_routes scenario_leg1 scenario_leg2 scenario_leg3 (Some "0"%string)
              scenario_now) as [resp|] eqn:Hrun; [|vm_compute in Hrun; discriminate].
  destruct (api_routes scenario_leg1 scenario_leg2 scenario_leg3 (Some "45"%string)
              scenario_now) as [resp'|] eqn:Hrun'; [|vm_compute in Hrun'; discriminate].
  assert (Hle : max_offset_minutes resp <= max_offset_minutes resp')
    by (vm_compute in Hrun, Hrun'; injection Hrun as <-; injection Hrun' as <-;
        cbn; lia).
  assert (Hday : base_minutes_of scenario_now + max_offset_minutes resp' < 1440)
    by (vm_compute in Hrun'; injection Hrun' as <-; cbn; lia).
  exists resp, resp'. repeat (split; [first [reflexivity | assumption]|]).
  exact (routes_grow_with_offset _ _ _ _ _ _ _ _ Hnow Hrun Hrun' Hle Hday).
Defined.

Lemma sort_by_departure_time_id l :
  Sorted key_le l -> sort_by_departure_time l = l.
Proof.
  induction 1 as [|a l Hl IH Hhd]; cbn [sort_by_departure_time]; [reflexivity|].
  rewrite IH. destruct Hhd as [|b l' Hab]; cbn [insert_by_key]; [reflexivity|].
  unfold key_le, String.leb in Hab. unfold String.ltb.
  rewrite (String.compare_antisym (departure_time b) (departure_time a)).
  destruct (String.compare (departure_time a) (departure_time b));
    cbn [CompOpp]; try reflexivity; discriminate.
Qed.

Lemma found_routes_sorted L1 L2 L3 base latest ts :
  0 <= base -> latest < 1440 -> ascending ts ->
  StronglySorted key_le (flat_map (candidate_routes L1 L2 L3 base latest) ts).
Proof.
  intros Hb Hl Hasc. unfold ascending in Hasc.
  induction Hasc as [|t ts Hts IH Hall]; cbn [flat_map]; [constructor|].
  destruct (candidate_routes_cases L1 L2 L3 base latest t) as [->|(r & -> & Hr)];
    [exact IH|].
  cbn [app]. constructor; [exact IH|].
  rewrite Forall_forall in Hall |- *. intros r' Hr'.
  destruct (candidate_routes_chain _ _ _ _ _ _ _ Hr') as (t' & Hin' & Hc').
  destruct (chain_departure_time _ _ _ _ _ _ _ Hr) as (d & Hd & Hw & Hk).
  destruct (chain_departure_time _ _ _ _ _ _ _ Hc') as (d' & Hd' & Hw' & Hk').
  unfold key_le. rewrite Hk, Hk', leb_minutes_to_hhmm by lia.
  apply Z.leb_le. exact (Hall t' Hin' d d' Hd Hd').
Qed.

(** X15: over a leg-1 timetable whose departures ascend, the final sort
    changes nothing: the routes come back in the order of their leg-1 rows. *)
Theorem routes_in_timetable_order (csv1 csv2 csv3 : list Train) (arg : option string)
    (now : datetime) (resp : Response)
    (Hnow : valid_time now)
    (Hasc : ascending csv1)
    (Hrun : api_routes csv1 csv2 csv3 arg now = Ok resp) :
  routes resp
  = found_routes csv1 csv2 csv3 (base_minutes_of now)
      (latest_minutes_of now (max_offset_minutes resp)).
Proof.
  destruct (api_routes_Ok _ _ _ _ _ _ Hrun) as (off & _ & ->).
  cbn [routes max_offset_minutes]. apply sort_by_departure_time_id.
  apply StronglySorted_Sorted. apply found_routes_sorted; [| |assumption].
  - pose proof (base_minutes_range now Hnow). lia.
  - pose proof (latest_minutes_range now off Hnow). lia.
Qed.

Lemma routes_in_timetable_order_witness :
  valid_time scenario_now /\
  ascending ascending_leg1 /\
  api_routes ascending_leg1 scenario_leg2 scenario_leg3 None scenario_now
  = Ok two_routes_response /\
  routes two_routes_response = [scenario_route; second_route] /\
  routes two_routes_response
  = found_routes ascending_leg1 scenario_leg2 scenario_leg3 420
      (latest_minutes_of scenario_now 30).
Proof.
  assert (Hnow : valid_time scenario_now) by (unfold valid_time; cbn; lia).
  assert (Hasc : ascending ascending_leg1).
  { repeat constructor; intros d d' Hd Hd'; unfold departs in Hd, Hd';
      vm_compute in Hd, Hd'; injection Hd as <-; injection Hd' as <-; lia. }
  assert (Hrun : api_routes ascending_leg1 scenario_leg2 scenario_leg3 None scenario_now
                 = Ok two_routes_response) by (vm_compute; reflexivity).
  split; [exact Hnow|]. split; [exact Hasc|]. split; [exact Hrun|].
  split; [reflexivity|].
  exact (routes_in_timetable_order _ _ _ _ _ _ Hnow Hasc Hrun).
Defined.

(** X16: with an empty leg-2 or leg-3 timetable the handler, when it
    answers, answers with no route. *)
Theorem routes_empty_without_connection (csv1 csv2 csv3 : list Train)
    (arg : option string) (now : datetime) (resp : Response)
    (Hempty : csv2 = [] \/ csv3 = [])
    (Hrun : api_routes csv1 csv2 csv3 arg now = Ok resp) :
  routes resp = [].
Proof.
  destruct (routes resp) as [|r rs] eqn:E; [reflexivity|].
  destruct (routes_are_chains _ _ _ _ _ _ Hrun r) as (t1 & _ & Hc);
    [rewrite E; now left|].
  destruct Hc as [t2 t3 d1 a1 a2 a3 Hd1 Hw Ha1 H2 Ha2 H3 Ha3 _].
  cbn [trains tameike_shimbashi shimbashi_kamakura] in H2, H3.
  destruct Hempty as [-> | ->]; discriminate.
Qed.

Lemma routes_empty_without_connection_witness :
  (@nil Train = [] \/ scenario_leg3 = []) /\
  api_routes scenario_leg1 [] scenario_leg3 None scenario_now
  = Ok {| search_time_jst := strftime scenario_now;
          departure_base_jst := strftime scenario_now;
          max_offset_minutes := 30;
          routes := [] |} /\
  routes {| search_time_jst := strftime scenario_now;
            departure_base_jst := strftime scenario_now;
            max_offset_minutes := 30;
            routes := [] |} = [].
Proof.
  assert (Hempty : @nil Train = [] \/ scenario_leg3 = []) by (left; reflexivity).
  assert (Hrun : api_routes scenario_leg1 [] scenario_leg3 None scenario_now
                 = Ok {| search_time_jst := strftime scenario_now;
                         departure_base_jst := strftime scenario_now;
                         max_offset_minutes := 30;
                         routes := [] |}) by (vm_compute; reflexivity).
  split; [exact Hempty|]. split; [exact Hrun|].
  exact (routes_empty_without_connection _ _ _ _ _ _ Hempty Hrun).
Defined.

(** X17: the routes depend on the clock reading through its hour and minute
    only: two readings with the same hour and minute, on whatever dates and
    seconds, get the same routes and the same effective offset. *)
Theorem routes_ignore_date_and_seconds (csv1 csv2 csv3 : list Train)
    (arg : option string) (now now' : datetime) (resp : Response)
    (Hnow : valid_time now) (Hnow' : valid_time now')
    (Hhour : hour now' = hour now) (Hminute : minute now' = minute now)
    (Hrun : api_routes csv1 csv2 csv3 arg now = Ok resp) :
  exists resp',
    api_routes csv1 csv2 csv3 arg now' = Ok resp' /\
    routes resp' = routes resp /\
    max_offset_minutes resp' = max_offset_minutes resp.
Proof.
  destruct (api_routes_Ok_collect _ _ _ _ _ _ Hrun) as (off & rs & Hoff & Hrs & ->).
  assert (Hb : base_minutes_of now' = base_minutes_of now)
    by (unfold base_minutes_of; now rewrite Hhour, Hminute).
  assert (Hl : latest_minutes_of now' off = latest_minutes_of now off)
    by (rewrite !latest_minutes_wraps by assumption; now rewrite Hb).
  exists {| search_time_jst := strftime now';
            departure_base_jst := strftime now';
            max_offset_minutes := off;
            routes := sort_by_departure_time rs |}.
  split; [|split; reflexivity].
  apply api_routes_run; [assumption|]. now rewrite Hb, Hl.
Qed.

Lemma routes_ignore_date_and_seconds_witness :
  valid_time scenario_now /\
  valid_time (mkDatetime 1999 12 31 7 0 59) /\
  exists resp',
    api_routes scenario_leg1 scenario_leg2 scenario_leg3 None
      (mkDatetime 1999 12 31 7 0 59) = Ok resp' /\
    routes resp' = routes scenario_response /\
    max_offset_minutes resp' = max_offset_minutes scenario_response.
Proof.
  assert (Hnow : valid_time scenario_now) by (unfold valid_time; cbn; lia).
  assert (Hnow' : valid_time (mkDatetime 1999 12 31 7 0 59))
    by (unfold valid_time; cbn; lia).
  assert (Hrun : api_routes scenario_leg1 scenario_leg2 scenario_leg3 None scenario_now
                 = Ok scenario_response) by (vm_compute; reflexivity).
  split; [exact Hnow|]. split; [exact Hnow'|].
  exact (routes_ignore_date_and_seconds _ _ _ _ _ _ _ Hnow Hnow' eq_refl eq_refl Hrun).
Defined.

(** * Properties of the extraction in makecsv.py *)

Section ExtractFacts.

Variable char : Type.
Variables digit space : char -> bool.
Variable char_eqb : char -> char -> bool.
Variable colon : char.
Variables hatsu chaku : list char.

Hypothesis char_eqb_eq : forall a b, char_eqb a b = true <-> a = b.

Local Abbreviation time_field' := (time_field char digit char_eqb colon).
Local Abbreviation arrival_part' := (arrival_part char digit char_eqb colon chaku).
Local Abbreviation spaces_then_arrival' :=
  (spaces_then_arrival char digit space char_eqb colon chaku).
Local Abbreviation match_here' := (match_here char digit space char_eqb colon hatsu chaku).
Local Abbreviation findall_fuel' :=
  (findall_fuel char digit space char_eqb colon hatsu chaku).
Local Abbreviation findall' := (findall char digit space char_eqb colon hatsu chaku).
Local Abbreviation is_time' := (is_time char digit colon).
Local Abbreviation is_entry' := (is_entry char digit space colon hatsu chaku).

Lemma literal_Some lit s r :
  literal char char_eqb lit s = Some r <-> s = lit ++ r.
Proof.
  revert s. induction lit as [|l lit IH]; intros s; cbn [literal List.app].
  - split; intros H; congruence.
  - destruct s as [|c s]; [split; discriminate|].
    destruct (char_eqb c l) eqn:E.
    + apply char_eqb_eq in E. subst c. rewrite IH. split; congruence.
    + split; [discriminate|]. intros [= -> _].
      assert (char_eqb l l = true) by now apply char_eqb_eq. congruence.
Qed.

Lemma time_field_Some s f r :
  time_field' s = Some (f, r) <-> s = f ++ r /\ is_time' f.
Proof.
  unfold time_field, is_time. split.
  - destruct s as [|a [|b [|c [|d [|e rest]]]]]; try discriminate.
    destruct (digit a) eqn:Ha; [|discriminate].
    destruct (digit b) eqn:Hb; [|discriminate].
    destruct (char_eqb c colon) eqn:Hc; [|discriminate].
    destruct (digit d) eqn:Hd; [|discriminate].
    destruct (digit e) eqn:He; [|discriminate].
    cbn [andb]. intros [= <- <-]. apply char_eqb_eq in Hc. subst c.
    split; [reflexivity|]. exists a, b, d, e. auto.
  - intros [-> (a & b & d & e & -> & Ha & Hb & Hd & He)]. cbn [List.app].
    rewrite Ha, Hb, Hd, He. cbn [andb].
    assert (E : char_eqb colon colon = true) by now apply char_eqb_eq.
    now rewrite E.
Qed.

Lemma arrival_part_Some s f r :
  arrival_part' s = Some (f, r) <-> s = f ++ chaku ++ r /\ is_time' f.
Proof.
  unfold arrival_part. split.
  - destruct (time_field' s) as [[f2 rest]|] eqn:Ht; [|discriminate].
    destruct (literal char char_eqb chaku rest) as [rest'|] eqn:Hl; [|discriminate].
    intros [= <- <-]. apply time_field_Some in Ht. apply literal_Some in Hl.
    destruct Ht as [-> Hf]. subst rest. auto.
  - intros [-> Hf].
    rewrite (proj2 (time_field_Some (f ++ chaku ++ r) f (chaku ++ r)) (conj eq_refl Hf)).
    now rewrite (proj2 (literal_Some chaku (chaku ++ r) r) eq_refl).
Qed.

Lemma spaces_then_arrival_sound s f r :
  spaces_then_arrival' s = Some (f, r) ->
  exists sp, s = sp ++ f ++ chaku ++ r /\ forallb space sp = true /\ is_time' f.
Proof.
  revert f r. induction s as [|c s IH]; intros f r; cbn [spaces_then_arrival].
  - intros H. apply arrival_part_Some in H. destruct H as [H Hf]. exists []. auto.
  - destruct (space c) eqn:Hc.
    + destruct (spaces_then_arrival' s) as [[f' r']|] eqn:Hs.
      * intros [= -> ->]. destruct (IH f r eq_refl) as (sp & -> & Hsp & Hf).
        exists (c :: sp). cbn [List.app forallb]. rewrite Hc, Hsp. auto.
      * intros H. apply arrival_part_Some in H. destruct H as [H Hf]. exists []. auto.
    + intros H. apply arrival_part_Some in H. destruct H as [H Hf]. exists []. auto.
Qed.

Lemma spaces_then_arrival_complete sp f r :
  forallb space sp = true -> is_time' f ->
  spaces_then_arrival' (sp ++ f ++ chaku ++ r) <> None.
Proof.
  intros Hsp Hf.
  assert (Ha : arrival_part' (f ++ chaku ++ r) = Some (f, r))
    by (apply arrival_part_Some; auto).
  induction sp as [|c sp IH]; cbn [List.app].
  - destruct (f ++ chaku ++ r) as [|c s] eqn:E; cbn [spaces_then_arrival];
      [congruence|].
    destruct (space c); [|congruence].
    destruct (spaces_then_arrival' s); congruence.
  - cbn [forallb] in Hsp. apply andb_true_iff in Hsp. destruct Hsp as [Hc Hsp].
    cbn [spaces_then_arrival]. rewrite Hc.
    destruct (spaces_then_arrival' (sp ++ f ++ chaku ++ r)) eqn:E; [congruence|].
    now specialize (IH Hsp).
Qed.

(** With digits that are no white space, the greedy repetition stops at the
    second time. *)
Lemma spaces_then_arrival_time f r :
  (forall c, digit c = true -> space c = false) -> is_time' f ->
  spaces_then_arrival' (f ++ chaku ++ r) = Some (f, r).
Proof.
  intros Hds Hf.
  assert (Ha : arrival_part' (f ++ chaku ++ r) = Some (f, r))
    by (apply arrival_part_Some; auto).
  destruct Hf as (a & b & d & e & -> & Hda & _). cbn [List.app] in *.
  cbn [spaces_then_arrival]. now rewrite (Hds a Hda).
Qed.

Lemma match_here_sound s p rest :
  match_here' s = Some (p, rest) -> exists m, s = m ++ rest /\ is_entry' m p.
Proof.
  unfold match_here.
  destruct (time_field' s) as [[f1 r1]|] eqn:Ht; [|discriminate].
  destruct (literal char char_eqb hatsu r1) as [[|c r3]|] eqn:Hl; try discriminate.
  destruct (space c) eqn:Hc; [|discriminate].
  destruct (spaces_then_arrival' r3) as [[f2 rest']|] eqn:Hs; [|discriminate].
  intros [= <- <-]. apply time_field_Some in Ht. destruct Ht as [-> Hf1].
  apply literal_Some in Hl. subst r1.
  destruct (spaces_then_arrival_sound _ _ _ Hs) as (sp & -> & Hsp & Hf2).
  exists (f1 ++ hatsu ++ (c :: sp) ++ f2 ++ chaku). split.
  - rewrite <- ?app_assoc. cbn [List.app]. now rewrite <- ?app_assoc.
  - exists (c :: sp). cbn [fst snd forallb]. rewrite Hc, Hsp.
    repeat split; auto. discriminate.
Qed.

Lemma match_here_complete m p rest :
  is_entry' m p -> match_here' (m ++ rest) <> None.
Proof.
  intros (sp & -> & Hne & Hsp & Hf1 & Hf2). unfold match_here.
  destruct sp as [|c sp]; [congruence|].
  cbn [forallb] in Hsp. apply andb_true_iff in Hsp. destruct Hsp as [Hc Hsp].
  rewrite <- ?app_assoc. cbn [List.app]. rewrite <- ?app_assoc.
  rewrite (proj2 (time_field_Some _ (fst p) _) (conj eq_refl Hf1)).
  rewrite (proj2 (literal_Some hatsu _ _) eq_refl). rewrite Hc.
  pose proof (spaces_then_arrival_complete sp (snd p) rest Hsp Hf2) as Hs.
  destruct (spaces_then_arrival' (sp ++ snd p ++ chaku ++ rest)) as [[f2 r]|];
    congruence.
Qed.

Lemma is_time_length f : is_time' f -> List.length f = 5%nat.
Proof. intros (a & b & d & e & -> & _). reflexivity. Qed.

Lemma is_entry_length m p :
  is_entry' m p ->
  (11 + List.length hatsu + List.length chaku <= List.length m)%nat.
Proof.
  intros (sp & -> & Hne & _ & Hf1 & Hf2).
  rewrite !List.length_app, (is_time_length _ Hf1), (is_time_length _ Hf2).
  destruct sp; [congruence | cbn [List.length]; lia].
Qed.

Lemma match_here_shorter s p rest :
  match_here' s = Some (p, rest) ->
  (11 + List.length hatsu + List.length chaku + List.length rest <= List.length s)%nat.
Proof.
  intros H. destruct (match_here_sound _ _ _ H) as (m & -> & Hm).
  rewrite List.length_app. pose proof (is_entry_length _ _ Hm). lia.
Qed.

Lemma findall_fuel_enough fuel :
  forall fuel' s,
    (List.length s < fuel)%nat -> (List.length s < fuel')%nat ->
    findall_fuel' fuel s = findall_fuel' fuel' s.
Proof.
  induction fuel as [|fuel IH]; intros fuel' s Hf Hf'; [lia|].
  destruct fuel' as [|fuel']; [lia|]. cbn [findall_fuel].
  destruct (match_here' s) as [[p rest]|] eqn:Hm.
  - f_equal. pose proof (match_here_shorter _ _ _ Hm). apply IH; lia.
  - destruct s as [|c s]; [reflexivity|]. cbn [List.length] in *. apply IH; lia.
Qed.

(** The scan never runs short of steps: [findall] satisfies the equation of
    the scan. *)
Lemma findall_eq s :
  findall' s
  = match match_here' s with
    | Some (p, rest) => p :: findall' rest
    | None =>
        match s with
        | [] => []
        | _ :: s' => findall' s'
        end
    end.
Proof.
  unfold findall at 1. cbn [findall_fuel].
  destruct (match_here' s) as [[p rest]|] eqn:Hm.
  - f_equal. pose proof (match_here_shorter _ _ _ Hm).
    apply findall_fuel_enough; lia.
  - destruct s as [|c s]; [reflexivity|]. cbn [List.length].
    apply findall_fuel_enough; lia.
Qed.

Lemma findall_first s p ps :
  findall' s = p :: ps ->
  exists pre m post,
    s = pre ++ m ++ post /\ is_entry' m p /\ findall' post = ps /\
    forall k, (k < List.length pre)%nat -> match_here' (skipn k s) = None.
Proof.
  induction s as [|c s IH]; rewrite findall_eq.
  - destruct (match_here' []) as [[p' rest]|] eqn:Hm; [|discriminate].
    apply match_here_shorter in Hm. cbn [List.length] in Hm. lia.
  - destruct (match_here' (c :: s)) as [[p' rest]|] eqn:Hm.
    + intros [= -> <-]. destruct (match_here_sound _ _ _ Hm) as (m & Hs & Hent).
      exists [], m, rest. cbn [List.app List.length]. repeat split; auto. intros k Hk. lia.
    + intros H. destruct (IH H) as (pre & m & post & -> & Hent & Hps & Hleft).
      exists (c :: pre), m, post. cbn [List.app List.length]. repeat split; auto.
      intros [|k] Hk; [exact Hm|]. cbn [skipn]. apply Hleft. lia.
Qed.

Lemma findall_occurrence pre m p post :
  is_entry' m p -> findall' (pre ++ m ++ post) <> [].
Proof.
  intros Hent. induction pre as [|c pre IH]; cbn [List.app]; rewrite findall_eq.
  - pose proof (match_here_complete m p post Hent) as Hc.
    destruct (match_here' (m ++ post)) as [[p' rest]|]; [discriminate | congruence].
  - destruct (match_here' (c :: pre ++ m ++ post)) as [[p' rest]|];
      [discriminate | exact IH].
Qed.

(** X18: the first pair [findall] returns is the leftmost entry of the
    text: the text is some characters at none of which an entry starts, then
    the entry with the pair as its two times, then a rest; and the further
    pairs are those of that rest, so the entries do not overlap. *)
Theorem findall_leftmost_then_rest (text : list char) (p : list char * list char)
    (ps : list (list char * list char))
    (Hfound : findall char digit space char_eqb colon hatsu chaku text = p :: ps) :
  exists pre m post,
    text = pre ++ m ++ post /\
    is_entry char digit space colon hatsu chaku m p /\
    findall char digit space char_eqb colon hatsu chaku post = ps /\
    forall k, (k < List.length pre)%nat ->
      match_here char digit space char_eqb colon hatsu chaku (skipn k text) = None.
Proof. exact (findall_first text p ps Hfound). Qed.

(** X19: [findall] returns no pair exactly when the text holds no entry
    anywhere. *)
Theorem findall_empty_iff (text : list char) :
  findall char digit space char_eqb colon hatsu chaku text = [] <->
  ~ exists pre m p post,
      text = pre ++ m ++ post /\ is_entry char digit space colon hatsu chaku m p.
Proof.
  split.
  - intros Hnil (pre & m & p & post & -> & Hent).
    exact (findall_occurrence pre m p post Hent Hnil).
  - intros Hno. destruct (findall' text) as [|p ps] eqn:E; [reflexivity|].
    destruct (findall_first _ _ _ E) as (pre & m & post & Ht & Hent & _).
    exfalso. apply Hno. exists pre, m, p, post. auto.
Qed.

(** X20: every pair returned is made of two times of five characters, two
    digits around a colon each, and every pair uses up at least eleven
    characters of the text besides the two literals. *)
Theorem findall_pairs_are_times (text : list char) :
  Forall (fun p => is_time char digit colon (fst p) /\ is_time char digit colon (snd p))
    (findall char digit space char_eqb colon hatsu chaku text) /\
  ((11 + List.length hatsu + List.length chaku)
   * List.length (findall char digit space char_eqb colon hatsu chaku text)
   <= List.length text)%nat.
Proof.
  assert (Hall : forall n t, (List.length t <= n)%nat ->
            Forall (fun p => is_time' (fst p) /\ is_time' (snd p)) (findall' t) /\
            ((11 + List.length hatsu + List.length chaku) * List.length (findall' t)
             <= List.length t)%nat);
    [|now apply (Hall (List.length text))].
  induction n as [|n IH]; intros t Hle.
  - destruct t; [|cbn in Hle; lia]. rewrite findall_eq.
    destruct (match_here' []) as [[p rest]|] eqn:Hm.
    + apply match_here_shorter in Hm. cbn in Hm. lia.
    + split; [constructor | cbn; lia].
  - destruct (findall' t) as [|p ps] eqn:E; [split; [constructor | cbn; lia]|].
    destruct (findall_first _ _ _ E) as (pre & m & post & -> & Hent & Hps & _).
    pose proof (is_entry_length _ _ Hent) as Hm.
    rewrite !List.length_app in Hle |- *.
    destruct (IH post) as (Hall & Hcount); [lia|]. rewrite Hps in Hall, Hcount.
    split.
    + constructor; [|assumption]. destruct Hent as (sp & _ & _ & _ & H1 & H2). auto.
    + cbn [List.length]. lia.
Qed.

(** X21: a listing written one entry a line is read back as it is: from
    the rendering of any list of pairs of times, [findall] returns that
    list, provided digits are no white space, the separator is white space
    and the line end is no digit. *)
Theorem findall_render (sp nl : char) (ps : list (list char * list char))
    (Hds : forall c, digit c = true -> space c = false)
    (Hsp : space sp = true)
    (Hnl : digit nl = false)
    (Htimes : Forall (fun p => is_time char digit colon (fst p) /\ is_time char digit colon (snd p)) ps) :
  findall char digit space char_eqb colon hatsu chaku (render char hatsu chaku sp nl ps) = ps.
Proof.
  induction Htimes as [|[f1 f2] ps [Hf1 Hf2] _ IH]; cbn [render flat_map fst snd].
  - rewrite findall_eq. destruct (match_here' []) as [[p rest]|] eqn:Hm; [|reflexivity].
    apply match_here_shorter in Hm. cbn in Hm. lia.
  - fold (render char hatsu chaku sp nl ps).
    rewrite findall_eq.
    assert (Hm : match_here'
                   ((f1 ++ hatsu ++ [sp] ++ f2 ++ chaku ++ [nl])
                    ++ render char hatsu chaku sp nl ps)
                 = Some ((f1, f2), nl :: render char hatsu chaku sp nl ps)).
    { unfold match_here. rewrite <- !app_assoc.
      rewrite (proj2 (time_field_Some _ f1 _) (conj eq_refl Hf1)).
      rewrite (proj2 (literal_Some hatsu _ _) eq_refl). cbn [List.app]. rewrite Hsp.
      now rewrite (spaces_then_arrival_time f2 _ Hds Hf2). }
    rewrite Hm. f_equal. rewrite findall_eq.
    assert (Hn : match_here' (nl :: render char hatsu chaku sp nl ps) = None).
    { unfold match_here, time_field.
      destruct (render char hatsu chaku sp nl ps) as [|b [|c [|d [|e rest]]]];
        try reflexivity. now rewrite Hnl. }
    rewrite Hn. exact IH.
Qed.

End ExtractFacts.

(** ** The classes of the pattern *)

Lemma decimal_inv c d :
  Py.decimal c = Some d ->
  exists z, In z Py.decimal_zeros /\ (z <= c < z + 10)%N /\ d = Z.of_N (c - z).
Proof.
  unfold Py.decimal.
  destruct (find (fun z => (z <=? c) && (c <? z + 10))%N Py.decimal_zeros) as [z|] eqn:E;
    [|discriminate].
  intros [= <-]. apply find_some in E. destruct E as [Hin Hb].
  apply andb_true_iff in Hb. destruct Hb as [H1 H2].
  apply N.leb_le in H1. apply N.ltb_lt in H2. exists z. auto.
Qed.

Lemma below_ten k : (k < 10)%N -> In k [0; 1; 2; 3; 4; 5; 6; 7; 8; 9]%N.
Proof.
  intros H.
  assert (E : (k = 0 \/ k = 1 \/ k = 2 \/ k = 3 \/ k = 4 \/ k = 5 \/ k = 6 \/ k = 7
               \/ k = 8 \/ k = 9)%N) by lia.
  cbn [In]. intuition auto.
Qed.

(** A decimal digit has a value below ten, is no white space, is a code
    point, and below U+007F it is an ASCII digit. *)
Lemma decimal_facts c d :
  Py.decimal c = Some d ->
  0 <= d <= 9 /\ Py.isspace c = false /\ (c < 0x110000)%N /\
  ((c < 0x7F)%N -> c = (0x30 + Z.to_N d)%N).
Proof.
  intros H. destruct (decimal_inv _ _ H) as (z & Hin & Hz & ->).
  assert (Hall : forallb digit_run_ok Py.decimal_zeros = true) by (vm_compute; reflexivity).
  rewrite forallb_forall in Hall. specialize (Hall z Hin).
  unfold digit_run_ok in Hall. rewrite forallb_forall in Hall.
  assert (Hk : (c - z < 10)%N) by lia.
  specialize (Hall (c - z)%N (below_ten _ Hk)). cbv zeta in Hall.
  replace (z + (c - z))%N with c in Hall by lia.
  apply andb_true_iff in Hall. destruct Hall as [Hall H3].
  apply andb_true_iff in Hall. destruct Hall as [H1 H2].
  apply negb_true_iff in H1. apply N.ltb_lt in H2.
  split; [lia|]. split; [exact H1|]. split; [exact H2|].
  intros Hlow. apply orb_true_iff in H3. destruct H3 as [H3|H3].
  - apply N.leb_le in H3. lia.
  - apply N.eqb_eq in H3. lia.
Qed.

Lemma isdecimal_not_space c : Py.isdecimal c = true -> Py.isspace c = false.
Proof.
  unfold Py.isdecimal. destruct (Py.decimal c) as [d|] eqn:E; [|discriminate].
  intros _. now destruct (decimal_facts _ _ E) as (_ & H & _).
Qed.

Lemma raw_sample_pair_times :
  is_time N Py.isdecimal 0x3A%N (fst raw_sample_pair) /\
  is_time N Py.isdecimal 0x3A%N (snd raw_sample_pair).
Proof.
  split; [exists 0xFF10%N, 0xFF17%N, 0xFF10%N, 0xFF10%N
         | exists 0x30%N, 0x37%N, 0x31%N, 0x32%N]; repeat split.
Qed.

Lemma findall_leftmost_then_rest_witness :
  (forall a b, N.eqb a b = true <-> a = b) /\
  findall N Py.isdecimal Py.isspace N.eqb 0x3A%N hatsu chaku raw_sample
  = [raw_sample_pair] /\
  exists pre m post,
    raw_sample = (pre ++ m ++ post)%list /\
    is_entry N Py.isdecimal Py.isspace 0x3A%N hatsu chaku m raw_sample_pair /\
    findall N Py.isdecimal Py.isspace N.eqb 0x3A%N hatsu chaku post = [].
Proof.
  assert (Heq : forall a b, N.eqb a b = true <-> a = b) by apply N.eqb_eq.
  assert (Hfound : findall N Py.isdecimal Py.isspace N.eqb 0x3A%N hatsu chaku raw_sample
                   = [raw_sample_pair])
    by (vm_compute; reflexivity).
  split; [exact Heq|]. split; [exact Hfound|].
  destruct (findall_leftmost_then_rest N Py.isdecimal Py.isspace N.eqb 0x3A%N
              hatsu chaku Heq raw_sample raw_sample_pair [] Hfound)
    as (pre & m & post & Ht & Hent & Hrest & _).
  exists pre, m, post. split; [exact Ht|]. split; [exact Hent | exact Hrest].
Defined.

Lemma findall_empty_iff_witness :
  (forall a b, N.eqb a b = true <-> a = b) /\
  (findall N Py.isdecimal Py.isspace N.eqb 0x3A%N hatsu chaku raw_unspaced = [] <->
   ~ exists pre m p post,
       raw_unspaced = (pre ++ m ++ post)%list /\
       is_entry N Py.isdecimal Py.isspace 0x3A%N hatsu chaku m p).
Proof.
  assert (Heq : forall a b, N.eqb a b = true <-> a = b) by apply N.eqb_eq.
  split; [exact Heq|].
  exact (findall_empty_iff N Py.isdecimal Py.isspace N.eqb 0x3A%N
           hatsu chaku Heq raw_unspaced).
Defined.

Lemma findall_pairs_are_times_witness :
  (forall a b, N.eqb a b = true <-> a = b) /\
  Forall (fun p => is_time N Py.isdecimal 0x3A%N (fst p) /\
                   is_time N Py.isdecimal 0x3A%N (snd p))
    (findall N Py.isdecimal Py.isspace N.eqb 0x3A%N hatsu chaku raw_sample) /\
  ((11 + List.length hatsu + List.length chaku)
   * List.length (findall N Py.isdecimal Py.isspace N.eqb 0x3A%N hatsu chaku raw_sample)
   <= List.length raw_sample)%nat.
Proof.
  assert (Heq : forall a b, N.eqb a b = true <-> a = b) by apply N.eqb_eq.
  split; [exact Heq|].
  exact (findall_pairs_are_times N Py.isdecimal Py.isspace N.eqb 0x3A%N
           hatsu chaku Heq raw_sample).
Defined.

Lemma findall_render_witness :
  (forall a b, N.eqb a b = true <-> a = b) /\
  (forall c, Py.isdecimal c = true -> Py.isspace c = false) /\
  Py.isspace 0x3000%N = true /\
  Py.isdecimal 0x0A%N = false /\
  Forall (fun p => is_time N Py.isdecimal 0x3A%N (fst p) /\
                   is_time N Py.isdecimal 0x3A%N (snd p))
    [raw_sample_pair; raw_sample_pair] /\
  findall N Py.isdecimal Py.isspace N.eqb 0x3A%N hatsu chaku
    (render N hatsu chaku 0x3000%N 0x0A%N [raw_sample_pair; raw_sample_pair])
  = [raw_sample_pair; raw_sample_pair].
Proof.
  assert (Heq : forall a b, N.eqb a b = true <-> a = b) by apply N.eqb_eq.
  assert (Hds : forall c, Py.isdecimal c = true -> Py.isspace c = false)
    by apply isdecimal_not_space.
  assert (Hsp : Py.isspace 0x3000%N = true) by reflexivity.
  assert (Hnl : Py.isdecimal 0x0A%N = false) by reflexivity.
  assert (Htimes : Forall (fun p => is_time N Py.isdecimal 0x3A%N (fst p) /\
                                    is_time N Py.isdecimal 0x3A%N (snd p))
                     [raw_sample_pair; raw_sample_pair])
    by (repeat constructor; apply raw_sample_pair_times).
  split; [exact Heq|]. split; [exact Hds|]. split; [exact Hsp|]. split; [exact Hnl|].
  split; [exact Htimes|].
  exact (findall_render N Py.isdecimal Py.isspace N.eqb 0x3A%N
           hatsu chaku Heq 0x3000%N 0x0A%N _ Hds Hsp Hnl Htimes).
Defined.

(** ** Texts and their code points *)

Ltac decide_cmp :=
  repeat match goal with
         | |- context [(?a <? ?b)%N] => destruct (N.ltb_spec a b); try lia
         | |- context [(?a <=? ?b)%N] => destruct (N.leb_spec a b); try lia
         end.

(** Decoding reads back the character that was encoded. *)
Lemma code_points_encode_char c rest :
  (c < 0x110000)%N ->
  Py.code_points (Py.encode_char c ++ rest) = c :: Py.code_points rest.
Proof.
  intros Hc. unfold Py.code_points, Py.encode_char.
  pose proof (N.div_mod c 64 ltac:(lia)) as E1.
  pose proof (N.mod_lt c 64 ltac:(lia)) as L1.
  pose proof (N.div_mod (c / 64) 64 ltac:(lia)) as E2.
  pose proof (N.mod_lt (c / 64) 64 ltac:(lia)) as L2.
  pose proof (N.div_mod (c / 64 / 64) 64 ltac:(lia)) as E3.
  pose proof (N.mod_lt (c / 64 / 64) 64 ltac:(lia)) as L3.
  replace (c / 4096)%N with (c / 64 / 64)%N by (rewrite N.Div0.div_div; reflexivity).
  replace (c / 262144)%N with (c / 64 / 64 / 64)%N
    by (rewrite !N.Div0.div_div; reflexivity).
  set (r1 := (c mod 64)%N) in *. set (q1 := (c / 64)%N) in *.
  set (r2 := (q1 mod 64)%N) in *. set (q2 := (q1 / 64)%N) in *.
  set (r3 := (q2 mod 64)%N) in *. set (q3 := (q2 / 64)%N) in *.
  clearbody r1 q1 r2 q2 r3 q3.
  destruct (N.ltb_spec c 0x80);
    [|destruct (N.ltb_spec c 0x800); [|destruct (N.ltb_spec c 0x10000)]];
    cbn [String.append Py.code_points_from];
    rewrite ?N_ascii_embedding by lia; cbv zeta; decide_cmp; cbn [andb];
    f_equal; lia.
Qed.

Lemma code_points_encode cps :
  Forall (fun c => (c < 0x110000)%N) cps -> Py.code_points (Py.encode cps) = cps.
Proof.
  induction 1 as [|c cps Hc _ IH]; cbn [Py.encode]; [reflexivity|].
  now rewrite code_points_encode_char, IH.
Qed.

Lemma not_colon_byte n : (n < 256)%N -> n <> 0x3A%N -> not_colon (ascii_of_N n) = true.
Proof.
  intros Hn Hne. unfold not_colon. apply negb_true_iff, Ascii.eqb_neq.
  intros E. apply Hne. rewrite <- (N_ascii_embedding n Hn), E. reflexivity.
Qed.

(** The bytes of a character other than the colon hold no colon. *)
Lemma encode_char_no_colon c :
  (c < 0x110000)%N -> c <> 0x3A%N -> string_forallb not_colon (Py.encode_char c) = true.
Proof.
  intros Hc Hne. unfold Py.encode_char.
  pose proof (N.mod_lt c 64 ltac:(lia)) as L1.
  pose proof (N.mod_lt (c / 64) 64 ltac:(lia)) as L2.
  pose proof (N.mod_lt (c / 4096) 64 ltac:(lia)) as L3.
  assert (Q1 : (c < 0x800 -> c / 64 < 32)%N)
    by (intros; apply N.Div0.div_lt_upper_bound; lia).
  assert (Q2 : (c < 0x10000 -> c / 4096 < 16)%N)
    by (intros; apply N.Div0.div_lt_upper_bound; lia).
  assert (Q3 : (c / 262144 < 5)%N) by (apply N.Div0.div_lt_upper_bound; lia).
  set (r1 := (c mod 64)%N) in *. set (r2 := ((c / 64) mod 64)%N) in *.
  set (r3 := ((c / 4096) mod 64)%N) in *.
  set (q1 := (c / 64)%N) in *. set (q2 := (c / 4096)%N) in *.
  set (q3 := (c / 262144)%N) in *.
  clearbody r1 r2 r3 q1 q2 q3.
  destruct (N.ltb_spec c 0x80);
    [|destruct (N.ltb_spec c 0x800); [|destruct (N.ltb_spec c 0x10000)]];
    cbn [string_forallb]; rewrite !not_colon_byte by lia; reflexivity.
Qed.

Lemma append_empty s : (s ++ EmptyString)%string = s.
Proof. induction s as [|c s IH]; cbn [String.append]; congruence. Qed.

Lemma append_assoc (s t u : string) : ((s ++ t) ++ u)%string = (s ++ (t ++ u))%string.
Proof. induction s as [|c s IH]; cbn [String.append]; congruence. Qed.

(** ** From the extracted pairs to the handler *)

Lemma two_digits_digits n : 0 <= n < 100 -> string_forallb is_digit (two_digits n) = true.
Proof.
  intros Hn. rewrite <- format_02d_two_digits by assumption.
  apply format_02d_nonneg_digits. lia.
Qed.

(** The ASCII form of a decimal digit is the ASCII digit of its value. *)
Lemma ascii_form_decimal c d rest :
  Py.decimal c = Some d ->
  Py.ascii_form (c :: rest) = String (digit_char d) (Py.ascii_form rest).
Proof.
  intros H. destruct (decimal_facts _ _ H) as (Hd & Hsp & _ & Hlow).
  cbn [Py.ascii_form]. unfold digit_char.
  destruct (N.ltb_spec c 0x7F) as [Hc|Hc].
  - rewrite (Hlow Hc). do 2 f_equal. lia.
  - rewrite Hsp, H. do 2 f_equal. lia.
Qed.

(** Two decimal digits, of whatever script, read as the number they
    write. *)
Lemma int_two_decimals a b x y :
  Py.decimal a = Some x -> Py.decimal b = Some y ->
  Py.int (Py.encode [a; b]) = Ok (10 * x + y).
Proof.
  intros Ha Hb.
  destruct (decimal_facts _ _ Ha) as (Hx & _ & Hca & _).
  destruct (decimal_facts _ _ Hb) as (Hy & _ & Hcb & _).
  unfold Py.int. rewrite code_points_encode by (repeat constructor; assumption).
  rewrite (ascii_form_decimal _ _ _ Ha), (ascii_form_decimal _ _ _ Hb).
  cbn [Py.ascii_form].
  assert (E : String (digit_char x) (String (digit_char y) EmptyString)
              = two_digits (10 * x + y)).
  { unfold two_digits.
    replace ((10 * x + y) / 10) with x by (apply Z.div_unique with y; lia).
    replace ((10 * x + y) mod 10) with y by (apply Z.mod_unique with x; lia).
    reflexivity. }
  rewrite E.
  rewrite <- int_plain by (apply digits_plain, two_digits_digits; lia).
  rewrite <- format_02d_two_digits by lia. apply int_format_02d.
Qed.

Lemma decimal_not_colon c d : Py.decimal c = Some d -> c <> 0x3A%N.
Proof. intros H ->. vm_compute in H. discriminate. Qed.

Lemma encode_two_no_colon a b x y :
  Py.decimal a = Some x -> Py.decimal b = Some y ->
  string_forallb not_colon (Py.encode [a; b]) = true.
Proof.
  intros Ha Hb.
  destruct (decimal_facts _ _ Ha) as (_ & _ & Hca & _).
  destruct (decimal_facts _ _ Hb) as (_ & _ & Hcb & _).
  cbn [Py.encode]. rewrite !string_forallb_app.
  rewrite (encode_char_no_colon a Hca (decimal_not_colon _ _ Ha)).
  rewrite (encode_char_no_colon b Hcb (decimal_not_colon _ _ Hb)).
  reflexivity.
Qed.

(** A time of the pattern, given back as a text, reads as minutes. *)
Lemma time_parses f :
  is_time N Py.isdecimal 0x3A%N f ->
  exists h m,
    0 <= h < 100 /\ 0 <= m < 100 /\
    parse_hhmm_to_minutes (Py.encode f) = Ok (h * 60 + m).
Proof.
  intros (a & b & d & e & -> & Ha & Hb & Hd & He). unfold Py.isdecimal in *.
  destruct (Py.decimal a) as [x|] eqn:Ea; [|discriminate].
  destruct (Py.decimal b) as [y|] eqn:Eb; [|discriminate].
  destruct (Py.decimal d) as [z|] eqn:Ed; [|discriminate].
  destruct (Py.decimal e) as [w|] eqn:Ee; [|discriminate].
  destruct (decimal_facts _ _ Ea) as (Hx & _).
  destruct (decimal_facts _ _ Eb) as (Hy & _).
  destruct (decimal_facts _ _ Ed) as (Hz & _).
  destruct (decimal_facts _ _ Ee) as (Hw & _).
  exists (10 * x + y), (10 * z + w). split; [lia|]. split; [lia|].
  assert (E : Py.encode [a; b; 0x3A%N; d; e]
              = (Py.encode [a; b] ++ String ":" (Py.encode [d; e]))%string).
  { cbn [Py.encode]. rewrite !append_empty, append_assoc. reflexivity. }
  rewrite E. unfold parse_hhmm_to_minutes.
  rewrite split_at_colon by (eapply encode_two_no_colon; eassumption).
  rewrite split_single by (eapply encode_two_no_colon; eassumption).
  rewrite (int_two_decimals _ _ _ _ Ea Eb), (int_two_decimals _ _ _ _ Ed Ee).
  reflexivity.
Qed.

Lemma pairs_well_formed text :
  Forall (fun p =>
            exists d a,
              departs (train_of_pair p) d /\ arrives (train_of_pair p) a /\
              0 <= d <= 6039 /\ 0 <= a <= 6039)
    (pairs text).
Proof.
  unfold pairs, findall_code_points. apply Forall_map.
  eapply Forall_impl;
    [|apply (findall_pairs_are_times N Py.isdecimal Py.isspace N.eqb 0x3A%N
               hatsu chaku N.eqb_eq (Py.code_points text))].
  intros [f1 f2] [H1 H2]. cbn [fst snd] in *.
  destruct (time_parses _ H1) as (h & m & Hh & Hm & E1).
  destruct (time_parses _ H2) as (h' & m' & Hh' & Hm' & E2).
  exists (h * 60 + m), (h' * 60 + m').
  unfold departs, arrives, train_of_pair. cbn [departure arrival fst snd].
  rewrite E1, E2. repeat split; lia.
Qed.

(** X22: every pair that makecsv.py extracts gives a timetable row whose two
    texts [parse_hhmm_to_minutes] accepts, as minutes between 0 and 6039
    (the pattern admits hours and minutes up to 99), whatever the script of
    the digits and whatever the white space: the digits of the pattern are
    the digits [int] reads.  So on three timetables made of extracted pairs
    the handler always answers and never raises.  An entry written with
    full-width digits and an ideographic space is extracted, and gives the
    row that leaves at minute 420. *)
Theorem extracted_timetables_are_readable (text1 text2 text3 : string)
    (arg : option string) (now : datetime) :
  Forall (fun p =>
            exists d a,
              departs (train_of_pair p) d /\ arrives (train_of_pair p) a /\
              0 <= d <= 6039 /\ 0 <= a <= 6039)
    (pairs text1) /\
  (exists resp,
     api_routes (map train_of_pair (pairs text1))
       (map train_of_pair (pairs text2))
       (map train_of_pair (pairs text3)) arg now = Ok resp) /\
  pairs "０７:００発　07:12着" = [("０７:００"%string, "07:12"%string)] /\
  departs (train_of_pair ("０７:００"%string, "07:12"%string)) 420.
Proof.
  split; [apply pairs_well_formed|]. split; [|split; reflexivity].
  assert (Hwf : forall text, Forall well_formed (map train_of_pair (pairs text))).
  { intros text. apply Forall_map.
    eapply Forall_impl; [|apply pairs_well_formed].
    intros p (d & a & Hd & Ha & _). split; eauto. }
  apply api_routes_returns; apply Hwf.
Qed.

(** * Properties of load_timetable *)

Lemma key_eqb_eq k k' : key_eqb k k' = true <-> k = k'.
Proof.
  destruct k as [a|], k' as [b|]; cbn [key_eqb]; try (split; congruence).
  rewrite String.eqb_eq. split; congruence.
Qed.

(** Reading after writing: the key written reads as the value written, any
    other key as before. *)
Lemma dict_get_set d k v k' :
  dict_get (dict_set d k v) k' = if key_eqb k k' then Ok v else dict_get d k'.
Proof.
  induction d as [|[k0 v0] d IH]; cbn [dict_set dict_get]; [reflexivity|].
  destruct (key_eqb k0 k) eqn:E0; cbn [dict_get].
  - apply key_eqb_eq in E0. subst k0. destruct (key_eqb k k'); reflexivity.
  - rewrite IH. destruct (key_eqb k0 k') eqn:E1; [|reflexivity].
    destruct (key_eqb k k') eqn:E2; [|reflexivity].
    apply key_eqb_eq in E1, E2. subst. rewrite (proj2 (key_eqb_eq k' k') eq_refl) in E0.
    discriminate.
Qed.

Lemma dict_get_fill ks d k :
  dict_get (fold_left (fun d key => dict_set d (Some key) Missing) ks d) (Some k)
  = if existsb (String.eqb k) ks then Ok Missing else dict_get d (Some k).
Proof.
  revert d. induction ks as [|k0 ks IH]; intros d; cbn [fold_left existsb];
    [reflexivity|].
  rewrite IH, dict_get_set. cbn [key_eqb]. rewrite (String.eqb_sym k k0).
  destruct (existsb (String.eqb k) ks); [now rewrite orb_true_r|].
  rewrite orb_false_r. reflexivity.
Qed.

Lemma column_short ks k :
  column ks [] k = if existsb (String.eqb k) ks then Some Missing else None.
Proof.
  induction ks as [|k0 ks IH]; cbn [column existsb tl]; [reflexivity|].
  rewrite IH, (String.eqb_sym k k0).
  destruct (existsb (String.eqb k) ks); [now rewrite orb_true_r|].
  rewrite orb_false_r. reflexivity.
Qed.

Lemma row_from_cons d k0 ks v vs :
  row_from d (k0 :: ks) (v :: vs) = row_from (dict_set d (Some k0) (Text v)) ks vs.
Proof. reflexivity. Qed.

Lemma dict_get_row_from ks :
  forall vs d k,
    dict_get (row_from d ks vs) (Some k)
    = match column ks vs k with
      | Some c => Ok c
      | None => dict_get d (Some k)
      end.
Proof.
  induction ks as [|k0 ks IH]; intros vs d k.
  - unfold row_from. cbn [dict_zip List.length column skipn].
    destruct vs as [|v vs]; cbn [List.length Nat.ltb Nat.leb]; [reflexivity|].
    now rewrite dict_get_set.
  - destruct vs as [|v vs].
    + unfold row_from. cbn [dict_zip List.length Nat.ltb Nat.leb skipn].
      rewrite dict_get_fill, column_short.
      destruct (existsb (String.eqb k) (k0 :: ks)); reflexivity.
    + rewrite row_from_cons, IH, dict_get_set. cbn [column tl key_eqb].
      destruct (column ks vs k); [reflexivity|].
      destruct (String.eqb k0 k); reflexivity.
Qed.

Lemma column_has ks vs k :
  column ks vs k = None <-> has_column ks k = false.
Proof.
  unfold has_column. revert vs. induction ks as [|k0 ks IH]; intros vs;
    cbn [column existsb]; [tauto|].
  rewrite (String.eqb_sym k k0), orb_false_iff.
  destruct (column ks (tl vs) k) eqn:E.
  - split; [discriminate|]. intros [_ H]. apply (proj2 (IH (tl vs))) in H. congruence.
  - apply (proj1 (IH (tl vs))) in E. rewrite E.
    destruct (String.eqb k0 k); split; try tauto; try discriminate.
    intros [H _]. discriminate.
Qed.

(** X23: in the dictionary [DictReader] builds from a record, the value of
    a name is the field below the last column of that name, [None] when the
    record ends before that column, and the lookup raises [KeyError] exactly
    when no column has that name. *)
Theorem DictReader_row_lookup (fieldnames row : list string) (k : string) :
  dict_get (DictReader_row fieldnames row) (Some k)
  = match column fieldnames row k with
    | Some c => Ok c
    | None => Raise KeyError
    end /\
  (column fieldnames row k = None <-> has_column fieldnames k = false).
Proof.
  split; [|apply column_has].
  change (DictReader_row fieldnames row) with (row_from [] fieldnames row).
  rewrite dict_get_row_from. reflexivity.
Qed.

Lemma load_rows_with_columns f rs :
  has_column f "departure" = true -> has_column f "arrival" = true ->
  forall acc,
    load_rows (map (DictReader_row f) rs) acc
    = Ok (acc ++ map (fun r => mkRaw (field_of f r "departure") (field_of f r "arrival"))
                  rs).
Proof.
  intros Hd Ha. induction rs as [|r rs IH]; intros acc; cbn [map load_rows].
  - now rewrite app_nil_r.
  - change (DictReader_row f r) with (row_from [] f r).
    rewrite !dict_get_row_from. unfold field_of.
    destruct (column f r "departure") as [cd|] eqn:Ed;
      [|apply column_has in Ed; congruence].
    destruct (column f r "arrival") as [ca|] eqn:Ea;
      [|apply column_has in Ea; congruence].
    cbn [bind]. rewrite IH, <- app_assoc. reflexivity.
Qed.

Lemma load_rows_without_column f r rs acc :
  has_column f "departure" && has_column f "arrival" = false ->
  load_rows (map (DictReader_row f) (r :: rs)) acc = Raise KeyError.
Proof.
  intros H. cbn [map load_rows].
  change (DictReader_row f r) with (row_from [] f r).
  rewrite !dict_get_row_from.
  destruct (column f r "departure") as [cd|] eqn:Ed; cbn [dict_get bind]; [|reflexivity].
  destruct (column f r "arrival") as [ca|] eqn:Ea; cbn [dict_get bind]; [|reflexivity].
  assert (has_column f "departure" = true).
  { destruct (has_column f "departure") eqn:E; [reflexivity|].
    apply column_has with (vs := r) in E. congruence. }
  assert (has_column f "arrival" = true).
  { destruct (has_column f "arrival") eqn:E; [reflexivity|].
    apply column_has with (vs := r) in E. congruence. }
  rewrite H0, H1 in H. discriminate.
Qed.

(** X24: what [load_timetable] does with the records of a file.  Without
    any record, or with a header and no record that is not blank, it returns
    the empty timetable, whatever the header.  Otherwise it raises
    [KeyError] when the header has no column "departure" or no column
    "arrival", and else returns one element for each record that is not
    blank, in order, holding the values of these two columns; other columns
    and blank records leave no trace. *)
Theorem load_timetable_cases (fieldnames : list string) (rows : list (list string)) :
  load_timetable [] = Ok [] /\
  load_timetable (fieldnames :: rows)
  = match data_rows rows with
    | [] => Ok []
    | _ :: _ =>
        if has_column fieldnames "departure" && has_column fieldnames "arrival"
        then Ok (map (fun r => mkRaw (field_of fieldnames r "departure")
                                     (field_of fieldnames r "arrival"))
                   (data_rows rows))
        else Raise KeyError
    end.
Proof.
  split; [reflexivity|].
  unfold load_timetable, DictReader. fold (data_rows rows).
  destruct (data_rows rows) as [|r rs] eqn:E; [reflexivity|].
  destruct (has_column fieldnames "departure" && has_column fieldnames "arrival") eqn:H.
  - apply andb_true_iff in H. destruct H as [Hd Ha].
    now rewrite (load_rows_with_columns fieldnames (r :: rs) Hd Ha []).
  - now apply load_rows_without_column.
Qed.

Lemma makecsv_rows_data text :
  data_rows (map (fun p : string * string => [fst p; snd p]) (pairs text))
  = map (fun p : string * string => [fst p; snd p]) (pairs text).
Proof.
  unfold data_rows. induction (pairs text) as [|p ps IH]; cbn [map filter];
    [reflexivity|]. cbn [is_blank negb]. now rewrite IH.
Qed.

(** X25: the rows makecsv.py hands to the CSV writer, given back as
    records, load as the extracted pairs themselves: one element a pair, in
    order, both values fields, each giving a timetable row that
    [parse_hhmm_to_minutes] reads, in whatever script the digits of the raw
    text are written. *)
Theorem load_timetable_of_makecsv_rows (text : string) :
  load_timetable (makecsv_rows text)
  = Ok (map (fun p => mkRaw (Text (fst p)) (Text (snd p))) (pairs text)) /\
  Forall (fun t => exists tr, train_of_raw t = Some tr /\ well_formed tr)
    (map (fun p => mkRaw (Text (fst p)) (Text (snd p))) (pairs text)).
Proof.
  split.
  - unfold makecsv_rows.
    rewrite (proj2 (load_timetable_cases _ _)), makecsv_rows_data.
    destruct (pairs text) as [|p ps]; [reflexivity|].
    cbn [map]. change (has_column ["departure"; "arrival"]%string "departure") with true.
    change (has_column ["departure"; "arrival"]%string "arrival") with true.
    cbn [andb]. f_equal. rewrite map_map. reflexivity.
  - apply Forall_map. eapply Forall_impl; [|apply pairs_well_formed].
    intros p (d & a & Hd & Ha & _). exists (train_of_pair p).
    split; [reflexivity|]. split; eauto.
Qed.
